(** * Academic Advisor: the conversational advisor core

    A shallow embedding of [src/advisor/enhanced_ai_advisor.py]
    (class [EnhancedAIAdvisor]): the intent classifier, the relevance
    scorer, the intent handlers that decide the empty-result policy, the
    schedule synthesizer, the timetable conflict detector with its
    alternative slots and warning text, and the map from courses to
    lecturers, followed by the properties of them that the specification
    states and by further properties that the code has.

    Conventions of the embedding.
    - Python text is a [string] of 8-bit characters read as the code points
      U+0000..U+00FF; [str.lower], [str.strip] and [str.split] act on them as
      CPython does on those code points.
    - A dict or DataFrame row read with [.get(key, default)] is a record
      whose field is an [option]: [None] stands for a missing key.
    - A DataFrame is its column labels and the list of its rows in index
      order; it is empty when it has no row or no column, and reading a
      column it does not have, of the table or of one of its rows, raises
      [KeyError].
    - A call that can raise returns an outcome, [Ok] or [Raise].
    - The regular-expression engine and the LLM are parameters too; the
      examples run with a matcher for patterns without metacharacters.
    - Library calls whose result the advisor does not control (the pandas
      shuffle, the pandas sort, the process-salted [hash], the wall clock,
      [random.choice]) are parameters of the functions that use them. *)

From Stdlib Require Import Bool Arith NArith ZArith Lia List Ascii String.
From Stdlib Require Import Permutation Sorted DecimalString.
Import ListNotations.

Local Open Scope string_scope.
Local Open Scope list_scope.

(** ** Python string primitives *)

Module Py.

(** Code point of a character. *)
Definition ord (c : ascii) : N := N_of_ascii c.

(** [str.isspace] on one character of the Latin-1 range. *)
Definition isspace (c : ascii) : bool :=
  let n := ord c in
  ((9 <=? n) && (n <=? 13) || (28 <=? n) && (n <=? 32)
   || (n =? 133) || (n =? 160))%N.

(** [str.lower] on one character of the Latin-1 range: A-Z and the
    accented capitals U+00C0..U+00DE (the multiplication sign apart). *)
Definition lower_char (c : ascii) : ascii :=
  let n := ord c in
  if ((65 <=? n) && (n <=? 90)
      || (192 <=? n) && (n <=? 222) && negb (n =? 215))%N
  then ascii_of_N (n + 32) else c.

(** [s.lower()] *)
Fixpoint lower (s : string) : string :=
  match s with
  | EmptyString => EmptyString
  | String c r => String (lower_char c) (lower r)
  end.

(** [s.startswith(p)] *)
Fixpoint startswith (s p : string) : bool :=
  match p, s with
  | EmptyString, _ => true
  | String _ _, EmptyString => false
  | String a p', String b s' => Ascii.eqb a b && startswith s' p'
  end.

(** [needle in hay] for two strings (the empty needle is in every string). *)
Fixpoint contains (needle hay : string) : bool :=
  startswith hay needle
  || match hay with
     | EmptyString => false
     | String _ r => contains needle r
     end.

(** [any(kw in s for kw in kws)] *)
Definition any_in (kws : list string) (s : string) : bool :=
  existsb (fun kw => contains kw s) kws.

(** Leading whitespace removed ([str.lstrip]). *)
Fixpoint lstrip (s : string) : string :=
  match s with
  | EmptyString => EmptyString
  | String c r => if isspace c then lstrip r else s
  end.

(** Trailing whitespace removed ([str.rstrip]). *)
Fixpoint rstrip (s : string) : string :=
  match s with
  | EmptyString => EmptyString
  | String c r =>
      match rstrip r with
      | EmptyString => if isspace c then EmptyString else String c EmptyString
      | r' => String c r'
      end
  end.

(** [s.strip()] *)
Definition strip (s : string) : string := rstrip (lstrip s).

(** [s.split()]: the maximal runs of non-whitespace characters.  [cur] is
    the word being read, kept reversed. *)
Fixpoint split_aux (s : string) (cur : list ascii) : list string :=
  let flush (k : list string) :=
    match cur with
    | [] => k
    | _ => string_of_list_ascii (rev cur) :: k
    end in
  match s with
  | EmptyString => flush []
  | String c r =>
      if isspace c then flush (split_aux r []) else split_aux r (c :: cur)
  end.

Definition split (s : string) : list string := split_aux s [].

(** [s.replace(old, new)] for a non-empty [old]: a left-to-right scan that
    replaces each occurrence and resumes after it.  [skip] counts the
    characters of the occurrence just replaced that are still to be
    dropped. *)
Fixpoint replace_aux (old new s : string) (skip : nat) : string :=
  match s with
  | EmptyString => EmptyString
  | String c r =>
      match skip with
      | S k => replace_aux old new r k
      | O =>
          if startswith s old
          then new ++ replace_aux old new r (String.length old - 1)
          else String c (replace_aux old new r 0)
      end
  end.

Definition replace (s old new : string) : string := replace_aux old new s 0.

(** [s.split(sep)] for a one-character separator. *)
Fixpoint split_on_aux (sep : ascii) (s : string) (cur : list ascii)
  : list string :=
  match s with
  | EmptyString => [string_of_list_ascii (rev cur)]
  | String c r =>
      if Ascii.eqb c sep
      then string_of_list_ascii (rev cur) :: split_on_aux sep r []
      else split_on_aux sep r (c :: cur)
  end.

Definition split_on (sep : ascii) (s : string) : list string :=
  split_on_aux sep s [].

(** Truth value of a string: [if s:]. *)
Definition truthy (s : string) : bool :=
  match s with
  | EmptyString => false
  | _ => true
  end.

(** [d.get(key, default)] on a field that may be missing. *)
Definition get_or {A : Type} (field : option A) (default : A) : A :=
  match field with
  | Some v => v
  | None => default
  end.

End Py.

(** ** Timetable conflict detector

    [check_timetable_conflict] and [get_all_timetable_conflicts]. *)

Module Timetable.

(** A course dict as the two operations read it. *)
Record CourseDict : Type := mkCourseDict {
  class_time : option string;
  course_name : option string
}.

(** [course.get('class_time', '')] *)
Definition time_of (c : CourseDict) : string := Py.get_or (class_time c) "".

(** A conflict triple [(course1_name, course2_name, time)]. *)
Definition Conflict : Type := (string * string * string)%type.

Definition check_timetable_conflict
    (enrolled_courses : list CourseDict) (new_course : CourseDict)
  : bool * list string :=
  match enrolled_courses with
  | [] => (false, [])
  | _ =>
      let new_time := time_of new_course in
      if negb (Py.truthy new_time) then (false, [])
      else
        let conflicting :=
          fold_left
            (fun conflicting course =>
               let existing_time := time_of course in
               if Py.truthy existing_time && String.eqb existing_time new_time
               then conflicting
                      ++ [Py.get_or (course_name course) "Unknown Course"]
               else conflicting)
            enrolled_courses [] in
        ((0 <? List.length conflicting)%nat, conflicting)
  end.

(** The dict [time_groups]: keys in insertion order, each with the list of
    course names appended so far. *)
Definition TimeGroups : Type := list (string * list string).

(** [if time not in time_groups: time_groups[time] = []] followed by
    [time_groups[time].append(name)]. *)
Fixpoint group_append (time name : string) (g : TimeGroups) : TimeGroups :=
  match g with
  | [] => [(time, [name])]
  | (t, names) :: rest =>
      if String.eqb t time then (t, names ++ [name]) :: rest
      else (t, names) :: group_append time name rest
  end.

(** The first loop of [get_all_timetable_conflicts]. *)
Definition group_by_time (course_list : list CourseDict) : TimeGroups :=
  fold_left
    (fun time_groups course =>
       let time := time_of course in
       if Py.truthy time
       then group_append time (Py.get_or (course_name course) "Unknown")
              time_groups
       else time_groups)
    course_list [].

(** [for i in range(len(courses)): for j in range(i + 1, len(courses))]. *)
Definition pairs_in_group (courses : list string) (time : string)
  : list Conflict :=
  flat_map
    (fun i =>
       map (fun j => (nth i courses "", nth j courses "", time))
         (seq (i + 1) (List.length courses - (i + 1))))
    (seq 0 (List.length courses)).

Definition get_all_timetable_conflicts (course_list : list CourseDict)
  : list Conflict :=
  fold_left
    (fun conflicts (entry : string * list string) =>
       let (time, courses) := entry in
       if (1 <? List.length courses)%nat
       then conflicts ++ pairs_in_group courses time
       else conflicts)
    (group_by_time course_list) [].

(** What the specification asks of the all-pairs scan: one triple for every
    pair of positions [i < j] of the list whose courses carry the same
    scheduled (non-empty) time slot. *)
Fixpoint same_slot_pairs (course_list : list CourseDict) : list Conflict :=
  match course_list with
  | [] => []
  | c :: rest =>
      map (fun d => (Py.get_or (course_name c) "Unknown",
                     Py.get_or (course_name d) "Unknown", time_of c))
        (filter (fun d => Py.truthy (time_of c)
                          && String.eqb (time_of d) (time_of c)) rest)
      ++ same_slot_pairs rest
  end.

(** The same with the literal reading of the claim: equal time-slot strings,
    the empty one included. *)
Fixpoint equal_slot_pairs (course_list : list CourseDict) : list Conflict :=
  match course_list with
  | [] => []
  | c :: rest =>
      map (fun d => (Py.get_or (course_name c) "Unknown",
                     Py.get_or (course_name d) "Unknown", time_of c))
        (filter (fun d => String.eqb (time_of d) (time_of c)) rest)
      ++ equal_slot_pairs rest
  end.

(** Names of the enrolled courses whose slot equals the candidate's. *)
Definition equal_slot_names (enrolled : list CourseDict) (new_course : CourseDict)
  : list string :=
  map (fun c => Py.get_or (course_name c) "Unknown Course")
    (filter (fun c => String.eqb (time_of c) (time_of new_course)) enrolled).

Definition name_of (c : CourseDict) : string :=
  Py.get_or (course_name c) "Unknown".

(** Names of the courses of [l] in slot [t], in list order. *)
Definition names_at (t : string) (l : list CourseDict) : list string :=
  map name_of (filter (fun d => String.eqb (time_of d) t) l).

(** The keys of [time_groups], in insertion order. *)
Definition keys (g : TimeGroups) : list string := map fst g.

(** The pairs of a group, by recursion on the group. *)
Fixpoint all_pairs (courses : list string) (time : string) : list Conflict :=
  match courses with
  | [] => []
  | a :: rest => map (fun b => (a, b, time)) rest ++ all_pairs rest time
  end.

(** Whether a course carries a time slot. *)
Definition scheduled (c : CourseDict) : bool := Py.truthy (time_of c).

(** Two courses without a time slot. *)
Definition algebra : CourseDict := mkCourseDict (Some "") (Some "Algebra").
Definition logic : CourseDict := mkCourseDict (Some "") (Some "Logic").

End Timetable.
(** ** [difflib.SequenceMatcher]

    The similarity test of [_fuzzy_match] calls the Python standard library.
    The classifier below takes the test as a parameter; this module is a
    model of the library call, used to run the classifier on concrete
    queries.  It follows the documented algorithm for sequences shorter than
    200 elements and no junk: the longest matching block is the longest
    common substring that starts earliest in [a] and, among those, earliest
    in [b]; the blocks to its left and to its right are matched
    recursively; [ratio()] is [2.0 * M / T], with [M] the total size of the
    blocks and [T] the two lengths added. *)

Module Difflib.

(** Length of the longest common prefix. *)
Fixpoint common_prefix (a b : list ascii) : nat :=
  match a, b with
  | x :: a', y :: b' => if Ascii.eqb x y then S (common_prefix a' b') else 0
  | _, _ => 0
  end.

(** Scan of the suffixes of [b] from position [j], for a fixed suffix of
    [a] at position [i]; [best] is [(i, j, k)], replaced only by a strictly
    longer block. *)
Fixpoint scan_b (i : nat) (a_suffix b : list ascii) (j : nat)
    (best : nat * nat * nat) : nat * nat * nat :=
  match b with
  | [] => best
  | _ :: b' =>
      let k := common_prefix a_suffix b in
      let best' := if (snd best <? k)%nat then (i, j, k) else best in
      scan_b i a_suffix b' (S j) best'
  end.

Fixpoint scan_a (a b : list ascii) (i : nat) (best : nat * nat * nat)
  : nat * nat * nat :=
  match a with
  | [] => best
  | _ :: a' => scan_a a' b (S i) (scan_b i a b 0 best)
  end.

(** [find_longest_match]: [(i, j, k)] with [a[i:i+k] == b[j:j+k]]. *)
Definition find_longest_match (a b : list ascii) : nat * nat * nat :=
  scan_a a b 0 (0, 0, 0).

(** Total size of the matching blocks; [fuel] bounds the depth of the
    recursion, and the length of [a] plus one is enough. *)
Fixpoint matches (fuel : nat) (a b : list ascii) : nat :=
  match fuel with
  | O => 0
  | S fuel' =>
      match find_longest_match a b with
      | (i, j, k) =>
          if (k =? 0)%nat then 0
          else k + matches fuel' (firstn i a) (firstn j b)
               + matches fuel' (skipn (i + k) a) (skipn (j + k) b)
      end
  end.

(** [SequenceMatcher(None, a, b).ratio() >= 0.75]: with [M] matches out of
    [T] elements the ratio is [2M/T] ([1.0] when [T = 0]), and it reaches
    three quarters exactly when [8M >= 3T]. *)
Definition ratio_ge_075 (a b : string) : bool :=
  let la := list_ascii_of_string a in
  let lb := list_ascii_of_string b in
  let t := (List.length la + List.length lb)%nat in
  if (t =? 0)%nat then true
  else (3 * t <=? 8 * matches (S (List.length la)) la lb)%nat.

End Difflib.

(** ** Query normalizer and intent classifier

    [_fuzzy_match] and [_analyze_query_intent]. *)

Module Intent.

(** The intent labels [_analyze_query_intent] returns. *)
Inductive Intent : Type :=
| greeting
| specific_class_preparation
| program_duration
| attendance_consequences
| student_issues
| lecturer_info
| course_type_explanation
| preparation_advice
| general_info
| schedule_info
| career_guidance
| module_planning
| program_info
| course_recommendation.

(** The string each label stands for. *)
Definition label (i : Intent) : string :=
  match i with
  | greeting => "greeting"
  | specific_class_preparation => "specific_class_preparation"
  | program_duration => "program_duration"
  | attendance_consequences => "attendance_consequences"
  | student_issues => "student_issues"
  | lecturer_info => "lecturer_info"
  | course_type_explanation => "course_type_explanation"
  | preparation_advice => "preparation_advice"
  | general_info => "general_info"
  | schedule_info => "schedule_info"
  | career_guidance => "career_guidance"
  | module_planning => "module_planning"
  | program_info => "program_info"
  | course_recommendation => "course_recommendation"
  end.

Definition greeting_keywords : list string :=
  ["hello"; "hi"; "hey"; "good morning"; "good afternoon"; "good evening";
   "greetings"; "howdy"].

Definition how_are_you_keywords : list string :=
  ["how are you"; "how r u"; "how are u"; "hows it going";
   "how is it going"; "whats up"; "what's up"; "sup"].

(** The dict [expansions], in insertion order. *)
Definition expansions : list (string * string) :=
  [("ml", "machine learning");
   ("ai", "artificial intelligence");
   ("ds", "data science");
   ("cs", "computer science");
   ("cyber", "cybersecurity");
   ("webdev", "web development");
   ("db", "database");
   ("dl", "deep learning");
   ("nn", "neural network");
   ("machne", "machine");
   ("learing", "learning");
   ("lecurer", "lecturer");
   ("instuctor", "instructor");
   ("proffesor", "professor");
   ("scince", "science");
   ("engeneer", "engineer");
   ("devloper", "developer")].

Definition specific_prep_keywords : list string :=
  ["what to prepare for"; "what should i prepare for"; "how to prepare for";
   "prepare for"; "get ready for"; "before taking"; "what do i need for";
   "prerequisites for"; "ready for"].

Definition duration_keywords : list string :=
  ["how long"; "duration"; "how many years"; "length"; "year"; "years";
   "program duration"; "bachelor duration"; "master duration";
   "how much time"; "time to complete"; "how many"; "long is";
   "take to complete"; "time required"].

Definition attendance_consequence_keywords : list string :=
  ["what if"; "what happen"; "skip class"; "miss class"; "dont attend";
   "don't attend"; "absent"; "too many absence"; "skip mandatory";
   "miss mandatory"; "late to class"; "miss too many"; "fail because"].

Definition attendance_domain_words : list string :=
  ["class"; "mandatory"; "attendance"; "absent"; "skip"; "miss"; "late"].

Definition issues_keywords : list string :=
  ["have issue"; "have problem"; "need help"; "having trouble";
   "struggling"; "cant attend"; "can't attend"; "emergency"; "conflict";
   "sick"; "medical"].

Definition lecturer_keywords : list string :=
  ["lecturer"; "lecturers"; "professor"; "instructor"; "instructors";
   "teacher"; "teachers"; "prof"; "faculty"; "tutor"; "who teaches";
   "who teach"].

Definition explanation_keywords : list string :=
  ["mandatory"; "audit"; "secondary"; "course type"; "what is mandatory";
   "what is audit"; "explain"].

Definition attendance_failure_words : list string :=
  ["skip"; "miss"; "dont"; "don't"; "happen"; "what if"].

Definition prep_keywords : list string :=
  ["before class"; "preparation"; "study tips"; "prepare well";
   "how to study"].

Definition course_indicators : list string :=
  ["course"; "class"; "learn"; "study"; "teach"; "training"; "program"].

Definition topic_keywords : list string :=
  ["machine learning"; "ml"; "artificial intelligence"; "ai";
   "data science"; "computer science"; "cybersecurity"; "cyber";
   "security"; "web development"; "web"; "database"; "db";
   "deep learning"; "neural network"; "programming"; "software"; "data";
   "python"; "java"; "javascript"; "software development"; "web dev";
   "mobile"; "app development"; "frontend"; "backend"; "fullstack";
   "business"; "design"; "ux"; "ui"; "marketing"; "entrepreneurship";
   "analytics"].

Definition single_word_topics : list string :=
  ["ml"; "ai"; "software"; "business"; "design"; "marketing"; "data";
   "web"; "mobile"; "python"; "java"; "javascript"; "security"; "cyber";
   "database"; "programming"].

Definition two_word_topics : list string :=
  ["computer science"; "data science"; "machine learning";
   "web development"; "software development"; "deep learning";
   "artificial intelligence"; "cyber security"; "app development";
   "digital marketing"].

Definition schedule_career_module_words : list string :=
  ["schedule"; "career"; "module"; "time"; "timing"; "morning";
   "afternoon"; "evening"].

Definition schedule_keywords : list string :=
  ["time"; "timing"; "schedule"; "when"; "morning"; "afternoon"; "evening"].

Definition career_keywords : list string :=
  ["career"; "job"; "future"; "work"; "industry"; "professional"].

Definition module_keywords : list string :=
  ["module"; "semester"; "this module"; "next module"; "planning"].

Definition program_query_patterns : list string :=
  ["what is in"; "whats in"; "courses in"; "what courses"; "show me";
   "tell me about"; "information about"; "about the"; "in the"; "major";
   "program"; "degree"; "what can i study"; "what will i learn"].

Definition program_names : list string :=
  ["computer science"; "data science"; "cyber security"; "cybersecurity";
   "front-end development"; "frontend"; "interaction design"; "design";
   "digital marketing"; "marketing"; "high-tech entrepreneurship";
   "entrepreneurship"; "business"; "digital transformation";
   "product management"; "fintech"; "applied data and computer science"].

(** The labels the dispatcher of [get_intelligent_recommendations] tells
    apart, the default included. *)
Definition known_labels : list string :=
  ["preparation_advice"; "course_type_explanation"; "program_duration";
   "general_info"; "greeting"; "lecturer_info"; "schedule_info";
   "career_guidance"; "module_planning"; "attendance_consequences";
   "student_issues"; "specific_class_preparation"; "program_info";
   "course_recommendation"].

(** The loop [for abbr, full in expansions.items()] over the buffer. *)
Definition expand (query_lower : string) : string :=
  fold_left
    (fun q (e : string * string) =>
       let (abbr, full) := e in
       if Py.contains abbr q then Py.replace q abbr full else q)
    expansions query_lower.

(** The greeting test: exact match, or the keyword followed by a space or
    a comma at the start of the query. *)
Definition is_greeting (query_lower : string) : bool :=
  existsb
    (fun kw =>
       String.eqb kw query_lower
       || Py.startswith query_lower (kw ++ " ")
       || Py.startswith query_lower (kw ++ ","))
    greeting_keywords.

Section Classifier.

(** [similar a b] is [SequenceMatcher(None, a, b).ratio() >= threshold] for
    the default threshold 0.75. *)
Variable similar : string -> string -> bool.

Definition _fuzzy_match (word : string) (keyword_list : list string) : bool :=
  let word_lower := Py.lower word in
  existsb
    (fun keyword =>
       Py.contains keyword word_lower || Py.contains word_lower keyword
       || similar word_lower keyword)
    keyword_list.

(** [_analyze_query_intent(query)]; [None] is Python's [None]. *)
Definition _analyze_query_intent (query : option string) : Intent :=
  match query with
  | None => course_recommendation
  | Some query =>
  if negb (Py.truthy query) then course_recommendation else
  let query_lower := Py.strip (Py.lower query) in
  if is_greeting query_lower then greeting else
  if Py.any_in how_are_you_keywords query_lower then greeting else
  let query_lower := expand query_lower in
  let query_words := Py.split query_lower in
  if Py.any_in specific_prep_keywords query_lower
  then specific_class_preparation else
  if Py.any_in duration_keywords query_lower then program_duration else
  if Py.any_in attendance_consequence_keywords query_lower
     && Py.any_in attendance_domain_words query_lower
  then attendance_consequences else
  if Py.any_in issues_keywords query_lower then student_issues else
  if Py.any_in lecturer_keywords query_lower then lecturer_info else
  if existsb (fun word => _fuzzy_match word lecturer_keywords) query_words
  then lecturer_info else
  if Py.any_in explanation_keywords query_lower
     && negb (Py.any_in attendance_failure_words query_lower)
  then course_type_explanation else
  if Py.any_in prep_keywords query_lower then preparation_advice else
  let has_course_indicator := Py.any_in course_indicators query_lower in
  let word_count := List.length (Py.split query_lower) in
  if (word_count <=? 3)%nat
     && (Py.any_in single_word_topics query_lower
         || Py.any_in two_word_topics query_lower)
  then general_info else
  if (has_course_indicator || Py.any_in topic_keywords query_lower)
     && negb (Py.any_in schedule_career_module_words query_lower)
  then general_info else
  if Py.any_in schedule_keywords query_lower then schedule_info else
  if Py.any_in career_keywords query_lower then career_guidance else
  if Py.any_in module_keywords query_lower then module_planning else
  let has_program_name := Py.any_in program_names query_lower in
  let has_program_pattern :=
    Py.any_in program_query_patterns query_lower in
  if has_program_name && has_program_pattern then program_info
  else course_recommendation
  end.

End Classifier.

(** The classifier with the library's similarity test. *)
Definition classify_intent (query : option string) : Intent :=
  _analyze_query_intent Difflib.ratio_ge_075 query.

End Intent.
(** ** Exceptions

    A call that may raise returns an [outcome]. *)

Module Exn.

Inductive exn : Type :=
| KeyError (key : string)
| IndexError
| ReError (pattern : string)
| TypeError
| AttributeError.

Inductive outcome (A : Type) : Type :=
| Ok (a : A)
| Raise (e : exn).

Arguments Ok {A} a.
Arguments Raise {A} e.

Definition bind {A B : Type} (m : outcome A) (k : A -> outcome B)
  : outcome B :=
  match m with
  | Ok a => k a
  | Raise e => Raise e
  end.

Definition fmap {A B : Type} (f : A -> B) (m : outcome A) : outcome B :=
  bind m (fun a => Ok (f a)).

(** [seq.iloc[i]]: a position past the end raises [IndexError]. *)
Definition iloc {A : Type} (l : list A) (i : nat) : outcome A :=
  match nth_error l i with
  | Some a => Ok a
  | None => Raise IndexError
  end.

(** [[seq.iloc[i] for i in positions]], evaluated left to right. *)
Fixpoint ilocs {A : Type} (l : list A) (positions : list nat)
  : outcome (list A) :=
  match positions with
  | [] => Ok []
  | i :: rest =>
      bind (iloc l i) (fun a => bind (ilocs l rest) (fun r => Ok (a :: r)))
  end.

End Exn.

Notation "x <- m ;; k" := (Exn.bind m (fun x => k))
  (at level 61, m at next level, right associativity).

(** ** The course table

    A row of the course table, and the table with its column labels.  The
    four columns that the handlers read with [course['...']] are plain
    strings: such a read goes through [item], which raises [KeyError] on a
    table without the column, and a read of one of them with
    [course.get('...', '')] goes through [got].  A column that the code
    reads only with [.get] or tests with ['...' in df.columns] is an
    [option], [None] when the table has no such column.  A cell of a
    present column holds a value (the loader fills every cell). *)

Module Frame.
Import Exn.

Record CourseRecord : Type := mkCourse {
  course_id : string;
  course_name : string;
  course_description : string;
  category : string;
  Course : option string;
  Level : option string;
  program_name : option string;
  skills_covered_str : option string;
  estimated_difficulty : option string;
  course_type : option string;
  class_time : option string;
  credits : option nat;
  relevance_score : option nat
}.

Record DataFrame : Type := mkFrame {
  columns : list string;
  rows : list CourseRecord
}.

(** [pd.DataFrame()] *)
Definition empty_frame : DataFrame := mkFrame [] [].

(** [df.empty]: no row, or no column. *)
Definition empty (df : DataFrame) : bool :=
  match rows df, columns df with
  | [], _ => true
  | _, [] => true
  | _, _ => false
  end.

(** ['col' in df.columns] *)
Definition has_column (col : string) (df : DataFrame) : bool :=
  existsb (String.eqb col) (columns df).

(** [df[mask]]: the rows that satisfy the mask, the columns kept. *)
Definition select (keep : CourseRecord -> bool) (df : DataFrame) : DataFrame :=
  mkFrame (columns df) (filter keep (rows df)).

(** [df.head(n)] for [n >= 0]. *)
Definition head (n : nat) (df : DataFrame) : DataFrame :=
  mkFrame (columns df) (firstn n (rows df)).

(** [df['col'] = ...]: the label is added when it is new. *)
Definition with_column (col : string) (df : DataFrame) : list string :=
  if has_column col df then columns df else columns df ++ [col].

Definition set_course_type (ty : option string) (c : CourseRecord)
  : CourseRecord :=
  mkCourse (course_id c) (course_name c) (course_description c) (category c)
    (Course c) (Level c) (program_name c) (skills_covered_str c)
    (estimated_difficulty c) ty (class_time c) (credits c)
    (relevance_score c).

Definition set_relevance_score (s : nat) (c : CourseRecord) : CourseRecord :=
  mkCourse (course_id c) (course_name c) (course_description c) (category c)
    (Course c) (Level c) (program_name c) (skills_covered_str c)
    (estimated_difficulty c) (course_type c) (class_time c) (credits c)
    (Some s).

(** The value of the ['relevance_score'] column in a scored row. *)
Definition score_of (c : CourseRecord) : nat :=
  Py.get_or (relevance_score c) 0.

(** [course['col']] on a row of [df]: the cell, or [KeyError] when the
    table has no such column. *)
Definition item {A : Type} (df : DataFrame) (col : string) (cell : A)
  : outcome A :=
  if has_column col df then Ok cell else Raise (KeyError col).

(** A row of [df] as [course.get('col', '')] reads its text columns: the
    empty text for a column that the table does not have. *)
Definition got (df : DataFrame) (c : CourseRecord) : CourseRecord :=
  let text (col cell : string) := if has_column col df then cell else "" in
  mkCourse (course_id c) (text "course_name" (course_name c))
    (text "course_description" (course_description c))
    (text "category" (category c))
    (Course c) (Level c) (program_name c) (skills_covered_str c)
    (estimated_difficulty c) (course_type c) (class_time c) (credits c)
    (relevance_score c).

(** The subscript reads [course['col']] that every pass of a loop over the
    rows of [df] makes, for the columns [cols] in this order: the first
    missing column raises, and nothing is read when there is no row. *)
Definition each_row_reads (df : DataFrame) (cols : list string)
  : outcome unit :=
  match rows df with
  | [] => Ok tt
  | _ :: _ => fold_left (fun acc col => _ <- acc ;; item df col tt) cols (Ok tt)
  end.

End Frame.

(** ** Relevance scorer

    [_get_career_keywords] and [_score_courses]. *)

Module Scorer.
Import Exn Frame.

(** The dict [career_map], in insertion order. *)
Definition career_map : list (string * list string) :=
  [("software engineer",
    ["programming"; "software"; "development"; "code"; "algorithms"; "web";
     "api"; "backend"; "frontend"]);
   ("data scientist",
    ["data"; "analytics"; "machine learning"; "statistics"; "python"; "ai";
     "deep learning"; "visualization"]);
   ("cybersecurity analyst",
    ["security"; "network"; "encryption"; "hacking"; "cyber"; "forensics";
     "threat"]);
   ("product manager",
    ["product"; "management"; "strategy"; "business"; "agile";
     "leadership"]);
   ("ux designer",
    ["design"; "user"; "interface"; "experience"; "visual"; "ui";
     "prototyping"; "research"]);
   ("data engineer",
    ["data"; "pipeline"; "etl"; "database"; "big data"; "spark"; "hadoop"]);
   ("web developer",
    ["web"; "html"; "css"; "javascript"; "react"; "node"; "frontend"]);
   ("business analyst",
    ["business"; "analytics"; "strategy"; "analysis"; "intelligence"])].

Definition _get_career_keywords (career_goal : string) : list string :=
  match
    find (fun e : string * list string =>
            Py.contains (fst e) (Py.lower career_goal)) career_map
  with
  | Some e => snd e
  | None => ["technology"; "programming"; "development"]
  end.

(** Factors 1 to 5 of the loop body of [_score_courses]: everything but the
    course type. *)
Definition score_before_type (course : CourseRecord)
    (major career_goal experience_level program : string)
    (query : option string) : nat :=
  let score := 0 in
  (* 1. Major relevance *)
  let score :=
    if Py.contains (Py.lower major) (Py.lower (category course))
    then score + 10 else score in
  (* 2. Program alignment *)
  let score :=
    if Py.contains (Py.lower program)
         (Py.lower (Py.get_or (program_name course) ""))
    then score + 5 else score in
  (* 3. Career goal alignment *)
  let score :=
    if Py.truthy career_goal then
      let career_keywords := _get_career_keywords career_goal in
      let skills := Py.lower (Py.get_or (skills_covered_str course) "") in
      let desc := Py.lower (course_description course) in
      fold_left
        (fun score keyword =>
           if Py.contains keyword skills || Py.contains keyword desc
           then score + 3 else score)
        career_keywords score
    else score in
  (* 4. Experience level matching *)
  let difficulty := Py.get_or (estimated_difficulty course) "Intermediate" in
  let score :=
    if String.eqb experience_level "Beginner"
       && String.eqb difficulty "Beginner"
    then score + 4
    else if String.eqb experience_level "Intermediate"
            && (String.eqb difficulty "Beginner"
                || String.eqb difficulty "Intermediate")
    then score + 4
    else if String.eqb experience_level "Advanced" then score + 2
    else score in
  (* 5. Query matching *)
  let score :=
    match query with
    | None => score
    | Some query =>
        if Py.truthy query then
          let query_lower := Py.lower query in
          let course_text :=
            Py.lower (course_name course ++ " " ++ course_description course
                      ++ " " ++ Py.get_or (skills_covered_str course) "") in
          let score :=
            if Py.contains query_lower course_text then score + 8
            else score in
          fold_left
            (fun score word =>
               if (3 <? String.length word)%nat
                  && Py.contains word course_text
               then score + 2 else score)
            (Py.split query_lower) score
        else score
    end in
  score.

(** Factor 6: course type priority. *)
Definition type_priority (course : CourseRecord) : nat :=
  let course_type := Py.get_or (course_type course) "secondary" in
  if String.eqb course_type "mandatory" then 7
  else if String.eqb course_type "secondary" then 4
  else 2.

(** The score one pass of the loop appends to [scores]. *)
Definition score_course (course : CourseRecord)
    (major career_goal experience_level program : string)
    (query : option string) : nat :=
  score_before_type course major career_goal experience_level program query
  + type_priority course.

(** The subscript reads of one pass of the loop, in the order of the
    code: [course['category']] (line 244) and, with a query,
    [course['course_name']] and [course['course_description']]
    (line 272). *)
Definition subscripts (courses : DataFrame) (query : option string)
  : outcome unit :=
  _ <- item courses "category" tt ;;
  if match query with
     | Some query => Py.truthy query
     | None => false
     end
  then
    _ <- item courses "course_name" tt ;;
    item courses "course_description" tt
  else Ok tt.

(** The loop of [_score_courses] over the rows [l] of [courses]: the list
    [scores], or the [KeyError] of the first pass.  The description that
    factor 3 reads with [.get] is the one of [got]. *)
Fixpoint scores_of (courses : DataFrame)
    (major career_goal experience_level program : string)
    (query : option string) (l : list CourseRecord) : outcome (list nat) :=
  match l with
  | [] => Ok []
  | course :: rest =>
      _ <- subscripts courses query ;;
      let score :=
        score_course (got courses course) major career_goal
          experience_level program query in
      scores <- scores_of courses major career_goal experience_level
                  program query rest ;;
      Ok (score :: scores)
  end.

Section Ranking.

(** [rows.sort_values('relevance_score', ascending=False)] on the rows of a
    table: the pandas sort with its default [kind='quicksort']. *)
Variable sort_values : list CourseRecord -> list CourseRecord.

Definition _score_courses (courses : DataFrame)
    (major career_goal experience_level program : string)
    (query : option string) : outcome DataFrame :=
  scores <- scores_of courses major career_goal experience_level program
              query (rows courses) ;;
  let scored :=
    map (fun cs : CourseRecord * nat => set_relevance_score (snd cs) (fst cs))
      (combine (rows courses) scores) in
  Ok (mkFrame (with_column "relevance_score" courses) (sort_values scored)).

End Ranking.


(** What pandas documents of [sort_values(..., ascending=False)] whatever
    the [kind]: the rows are rearranged, into descending key order.  The
    order of rows of equal key is not documented for the default kind. *)
Definition sorts_descending
    (sort_values : list CourseRecord -> list CourseRecord) : Prop :=
  forall l,
    Permutation l (sort_values l)
    /\ StronglySorted (fun a b => score_of b <= score_of a) (sort_values l).

(** Insertion of [x] in a list sorted by score, before the first row that
    [goes_before x] accepts. *)
Fixpoint insert_row (goes_before : nat -> nat -> bool) (x : CourseRecord)
    (l : list CourseRecord) : list CourseRecord :=
  match l with
  | [] => [x]
  | y :: r =>
      if goes_before (score_of x) (score_of y) then x :: y :: r
      else y :: insert_row goes_before x r
  end.

(** A descending sort by insertion, the sort that the examples run with:
    rows of equal score keep their order. *)
Definition stable_sort_desc (l : list CourseRecord) : list CourseRecord :=
  fold_right (insert_row (fun x y => (y <=? x)%nat)) [] l.

End Scorer.
(** ** Student profile *)

Module Student.

(** The dict [student_profile]; a field is [None] when the key is
    missing. *)
Record Profile : Type := mkProfile {
  major : option string;
  program : option string;
  career_goal : option string;
  experience_level : option string
}.

End Student.

(** ** Regular expressions of [Series.str.contains]

    [Series.str.contains(pat, case=False, na=False)] compiles [pat] as a
    regular expression and searches each cell for it, ignoring case.  The
    handlers take the engine as two parameters: whether a pattern compiles,
    and the search.  [PlainRegex] stands for the engine in the examples,
    which use plain patterns only: alternatives separated by a bar, each a
    literal text.  On such a pattern it answers as the engine does; it
    refuses every pattern with a metacharacter, many of which the engine
    compiles, so nothing is stated with it about those. *)

Module PlainRegex.

Definition metacharacters : list ascii :=
  list_ascii_of_string ".^$*+?{}[]\()".

(** A plain pattern has no metacharacter other than the bar. *)
Definition plain (pat : string) : bool :=
  forallb (fun c => negb (existsb (Ascii.eqb c) metacharacters))
    (list_ascii_of_string pat).

(** A plain pattern compiles; the examples use no other pattern. *)
Definition regex_ok (pat : string) : bool := plain pat.

(** The ignore-case search of a plain pattern in a text of the Latin-1
    range: one of the alternatives occurs in it. *)

Definition regex_search (pat text : string) : bool :=
  existsb (fun alt => Py.contains (Py.lower alt) (Py.lower text))
    (Py.split_on "|" pat).

End PlainRegex.

(** ** Schedule synthesizer

    [generate_smart_schedule] and [_create_module]. *)

Module Schedule.
Import Exn Frame.

(** [CLASS_TIMES] *)
Definition CLASS_TIMES : list (nat * string) :=
  [(1, "9:00 AM - 12:20 PM"); (2, "1:00 PM - 4:20 PM");
   (3, "5:00 PM - 8:20 PM")].

(** A course dict of a module: the row with its slot. *)
Record ScheduledCourse : Type := mkScheduled {
  course : CourseRecord;
  time_slot : string;
  slot_number : nat
}.

(** A module dict.  Dates are seconds on the clock's scale. *)
Record ModuleDict : Type := mkModule {
  module_name : string;
  module_number : nat;
  courses : list ScheduledCourse;
  start_date : Z;
  end_date : Z;
  total_credits : nat;
  description : string
}.

(** [timedelta(weeks=n)] *)
Definition weeks (n : Z) : Z := (n * 604800)%Z.

(** The loop of [_create_module]: [idx] is the position of the head of
    [l]. *)
Fixpoint assign_slots (idx : nat) (l : list CourseRecord)
  : list ScheduledCourse :=
  match l with
  | [] => []
  | c :: rest =>
      let slot := nth (idx mod 3) CLASS_TIMES (0, "") in
      mkScheduled c (snd slot) (fst slot) :: assign_slots (S idx) rest
  end.

Definition _create_module (name : string) (courses : list CourseRecord)
    (start_date : Z) (description : string) (module_number : nat)
  : ModuleDict :=
  let courses_with_times := assign_slots 0 courses in
  mkModule name module_number courses_with_times start_date
    (start_date + weeks 3)
    (fold_left Nat.add
       (map (fun c => Py.get_or (credits (course c)) 3) courses_with_times)
       0)
    description.

Definition capstone_keywords : list string :=
  ["capstone"; "seminar"; "thesis"; "final project"; "graduation project"].

(** [course_type == ty] on a row. *)
Definition has_type (ty : string) (c : CourseRecord) : bool :=
  match course_type c with
  | Some t => String.eqb t ty
  | None => false
  end.

(** [df.iloc[lo:hi, course_type] = ty] on the rows, [pos] the position of
    the head. *)
Fixpoint set_type_between (lo hi : nat) (ty : string) (pos : nat)
    (l : list CourseRecord) : list CourseRecord :=
  match l with
  | [] => []
  | c :: rest =>
      (if (lo <=? pos)%nat && (pos <? hi)%nat
       then set_course_type (Some ty) c else c)
      :: set_type_between lo hi ty (S pos) rest
  end.

(** [modules[:limit_modules]] *)
Definition take_modules (limit_modules : Z) (modules : list ModuleDict)
  : list ModuleDict :=
  if (0 <=? limit_modules)%Z then firstn (Z.to_nat limit_modules) modules
  else firstn (List.length modules - Z.to_nat (- limit_modules)) modules.

(** [modules.append(self._create_module(...))] when [m_courses] is not
    empty. *)
Definition append_module (modules : list ModuleDict) (name : string)
    (m_courses : list CourseRecord) (start_date : Z) (description : string)
    (module_number : nat) : list ModuleDict :=
  match m_courses with
  | [] => modules
  | _ =>
      modules
      ++ [_create_module name m_courses start_date description module_number]
  end.

Section Synthesizer.

(** [hash(s)] of the running process. *)
Variable str_hash : string -> Z.
(** [rows.sample(frac=1, random_state=seed).reset_index(drop=True)] on the
    rows of a table. *)
Variable sample : Z -> list CourseRecord -> list CourseRecord.
(** The regular-expression engine. *)
Variable regex_ok : string -> bool.
Variable regex_search : string -> string -> bool.
(** [datetime.now()] at the call. *)
Variable now : Z.

(** The three pools the modules are cut from. *)
Record Pools : Type := mkPools {
  all_courses : DataFrame;
  mandatory : list CourseRecord;
  secondary : list CourseRecord;
  audit : list CourseRecord
}.

(** "Get courses for this level". *)
Definition level_courses_of (courses_df : DataFrame) (level : string)
  : DataFrame :=
  let level_courses :=
    if has_column "Level" courses_df
    then select (fun c => match Level c with
                          | Some l => String.eqb (Py.lower l) level
                          | None => false
                          end) courses_df
    else courses_df in
  if empty level_courses then courses_df else level_courses.

(** "Filter out capstone/seminar courses from early modules". *)
Definition early_module_courses_of (level_courses : DataFrame) : DataFrame :=
  if has_column "Course" level_courses
  then select (fun c => negb (Py.any_in capstone_keywords
                                (Py.lower (Py.get_or (Course c) ""))))
         level_courses
  else if has_column "course_name" level_courses
  then select (fun c => negb (Py.any_in capstone_keywords
                                (Py.lower (course_name c))))
         level_courses
  else level_courses.

(** "Get PRIMARY major courses" and "COMPLEMENTARY courses from other
    majors", with the fallback of an empty primary pool: the pair
    [(major_courses, other_courses)]. *)
Definition split_by_major (early_module_courses : DataFrame) (major : string)
  : outcome (DataFrame * DataFrame) :=
  pools <-
    (if has_column "category" early_module_courses
     then
       if regex_ok major
       then Ok (select (fun c => regex_search major (category c))
                  early_module_courses,
                select (fun c => negb (regex_search major (category c)))
                  early_module_courses)
       else Raise (ReError major)
     else Ok (early_module_courses, empty_frame)) ;;
  let major_courses := fst pools in
  let other_courses := snd pools in
  Ok (if empty major_courses then early_module_courses else major_courses,
      other_courses).

(** [~df['course_id'].isin(completed_courses)] on a row. *)
Definition not_completed (completed_courses : list string)
    (c : CourseRecord) : bool :=
  negb (existsb (String.eqb (course_id c)) completed_courses).

(** "Only filter completed courses". *)
Definition drop_completed (completed_courses : list string)
    (pools : DataFrame * DataFrame) : outcome (DataFrame * DataFrame) :=
  let (major_courses, other_courses) := pools in
  match completed_courses with
  | [] => Ok (major_courses, other_courses)
  | _ =>
      if negb (has_column "course_id" major_courses)
      then Raise (KeyError "course_id")
      else if negb (has_column "course_id" other_courses)
      then Raise (KeyError "course_id")
      else Ok (select (not_completed completed_courses) major_courses,
               select (not_completed completed_courses) other_courses)
  end.

(** "Shuffle to get variety but keep seed for consistency per session" and
    "Set course types based on major match". *)
Definition shuffle_and_label (major : string)
    (pools : DataFrame * DataFrame) : DataFrame * DataFrame :=
  let (major_courses, other_courses) := pools in
  let seed := (str_hash major mod 100)%Z in
  let major_courses :=
    mkFrame (columns major_courses) (sample seed (rows major_courses)) in
  let other_courses :=
    mkFrame (columns other_courses)
      (sample (seed + 1)%Z (rows other_courses)) in
  let major_courses :=
    mkFrame (with_column "course_type" major_courses)
      (map (set_course_type (Some "mandatory")) (rows major_courses)) in
  let other_courses :=
    if negb (empty other_courses) then
      let total_other := List.length (rows other_courses) in
      (* int(total_other * 0.3) *)
      let audit_count := (total_other * 3 / 10)%nat in
      let labelled := map (set_course_type (Some "secondary"))
                        (rows other_courses) in
      mkFrame (with_column "course_type" other_courses)
        (if (0 <? audit_count)%nat
         then set_type_between (total_other - audit_count) total_other
                "audit" 0 labelled
         else labelled)
    else other_courses in
  (major_courses, other_courses).

(** "If no course types are set, distribute them": the rows of
    [major_courses] relabelled. *)
Definition redistribute (major_rows : list CourseRecord)
  : list CourseRecord :=
  let total := List.length major_rows in
  let relabelled := map (set_course_type (Some "secondary")) major_rows in
  if (0 <? total)%nat then
    (* max(3, min(4, int(total * 0.20))), int(total * 0.50) *)
    let mandatory_count := Nat.max 3 (Nat.min 4 (total * 2 / 10)) in
    let secondary_count := (total / 2)%nat in
    let r := set_type_between 0 mandatory_count "mandatory" 0 relabelled in
    let r := set_type_between mandatory_count
               (mandatory_count + secondary_count) "secondary" 0 r in
    if (mandatory_count + secondary_count <? total)%nat
    then set_type_between (mandatory_count + secondary_count) total
           "audit" 0 r
    else r
  else relabelled.

(** "Combine for distribution" and "Separate by type". *)
Definition separate_by_type (pools : DataFrame * DataFrame) : Pools :=
  let (major_courses, other_courses) := pools in
  let all_courses :=
    mkFrame (columns major_courses
             ++ filter (fun col => negb (has_column col major_courses))
                  (columns other_courses))
      (firstn 10 (rows major_courses) ++ firstn 10 (rows other_courses)) in
  let mandatory := firstn 10 (filter (has_type "mandatory")
                                (rows all_courses)) in
  let secondary := firstn 10 (filter (has_type "secondary")
                                (rows all_courses)) in
  let audit := firstn 6 (filter (has_type "audit") (rows all_courses)) in
  match mandatory, secondary, audit with
  | [], [], [] =>
      let relabelled := redistribute (rows major_courses) in
      mkPools all_courses
        (filter (has_type "mandatory") relabelled)
        (filter (has_type "secondary") relabelled)
        (filter (has_type "audit") relabelled)
  | _, _, _ => mkPools all_courses mandatory secondary audit
  end.

(** The part of [generate_smart_schedule] up to [modules = []]. *)
Definition build_pools (courses_df : DataFrame) (major level : string)
    (completed_courses : list string) : outcome Pools :=
  let level_courses := level_courses_of courses_df level in
  let early_module_courses := early_module_courses_of level_courses in
  pools <- split_by_major early_module_courses major ;;
  pools <- drop_completed completed_courses pools ;;
  Ok (separate_by_type (shuffle_and_label major pools)).

(** The seven blocks that build the modules.  Each takes the list
    [modules] built so far and returns it with its module appended. *)

Definition module_1 (pools : Pools) (major : string)
    (modules : list ModuleDict) : outcome (list ModuleDict) :=
  let n_mandatory := List.length (mandatory pools) in
  let n_secondary := List.length (secondary pools) in
  let n_audit := List.length (audit pools) in
  if negb (empty (all_courses pools)) then
    m <- (if (1 <=? n_mandatory)%nat then ilocs (mandatory pools) [0]
          else Ok []) ;;
    s <- (if (4 <=? n_secondary)%nat
          then ilocs (secondary pools) [0; 1; 2; 3]
          else if (3 <=? n_secondary)%nat
          then ilocs (secondary pools) [0; 1; 2]
          else if (2 <=? n_secondary)%nat then ilocs (secondary pools) [0; 1]
          else if (n_secondary =? 1)%nat then ilocs (secondary pools) [0]
          else Ok []) ;;
    a <- (if negb (n_audit =? 0)%nat then ilocs (audit pools) [0]
          else Ok []) ;;
    Ok (append_module modules "Module 1" (m ++ s ++ a) now
          ("Foundation courses for " ++ major) 1)
  else Ok modules.

Definition module_2 (pools : Pools) (major : string)
    (modules : list ModuleDict) : outcome (list ModuleDict) :=
  let n_mandatory := List.length (mandatory pools) in
  let n_secondary := List.length (secondary pools) in
  let n_audit := List.length (audit pools) in
  if (1 <? n_mandatory)%nat || (4 <? n_secondary)%nat then
    m <- (if (2 <=? n_mandatory)%nat then ilocs (mandatory pools) [1]
          else Ok []) ;;
    s <- (if (8 <=? n_secondary)%nat
          then ilocs (secondary pools) [4; 5; 6; 7]
          else if (6 <=? n_secondary)%nat
          then ilocs (secondary pools) [4; 5; 6]
          else if (5 <=? n_secondary)%nat then ilocs (secondary pools) [4; 5]
          else if (n_secondary =? 5)%nat then ilocs (secondary pools) [4]
          else Ok []) ;;
    a <- (if (1 <? n_audit)%nat then ilocs (audit pools) [1] else Ok []) ;;
    Ok (append_module modules "Module 2" (m ++ s ++ a) (now + weeks 3)
          ("Core " ++ major ++ " development") 2)
  else Ok modules.

Definition module_3 (pools : Pools) (major : string)
    (modules : list ModuleDict) : outcome (list ModuleDict) :=
  let n_mandatory := List.length (mandatory pools) in
  let n_secondary := List.length (secondary pools) in
  let n_audit := List.length (audit pools) in
  if (2 <? n_mandatory)%nat || (8 <? n_secondary)%nat then
    m <- (if (3 <=? n_mandatory)%nat then ilocs (mandatory pools) [2]
          else Ok []) ;;
    s <- (if (12 <=? n_secondary)%nat
          then ilocs (secondary pools) [8; 9; 10; 11]
          else if (11 <=? n_secondary)%nat
          then ilocs (secondary pools) [8; 9; 10]
          else if (10 <=? n_secondary)%nat
          then ilocs (secondary pools) [8; 9]
          else if (9 <=? n_secondary)%nat then ilocs (secondary pools) [8]
          else Ok []) ;;
    a <- (if (2 <? n_audit)%nat then ilocs (audit pools) [2] else Ok []) ;;
    Ok (append_module modules "Module 3" (m ++ s ++ a) (now + weeks 6)
          (major ++ " specialization and exploration") 3)
  else Ok modules.

Definition module_4 (pools : Pools) (major : string)
    (modules : list ModuleDict) : outcome (list ModuleDict) :=
  let n_mandatory := List.length (mandatory pools) in
  let n_secondary := List.length (secondary pools) in
  let n_audit := List.length (audit pools) in
  if (3 <? n_mandatory)%nat || (12 <? n_secondary)%nat then
    m <- (if (4 <=? n_mandatory)%nat then ilocs (mandatory pools) [3]
          else Ok []) ;;
    s <- (if (15 <=? n_secondary)%nat
          then ilocs (secondary pools) [12; 13; 14]
          else if (14 <=? n_secondary)%nat
          then ilocs (secondary pools) [12; 13]
          else if (13 <=? n_secondary)%nat then ilocs (secondary pools) [12]
          else Ok []) ;;
    a <- (if (3 <? n_audit)%nat then ilocs (audit pools) [3] else Ok []) ;;
    Ok (append_module modules "Module 4 (Year 2)" (m ++ s ++ a)
          (now + weeks 52) ("Year 2: Advanced " ++ major ++ " concepts") 4)
  else Ok modules.

Definition module_5 (pools : Pools) (major : string)
    (modules : list ModuleDict) : outcome (list ModuleDict) :=
  let n_secondary := List.length (secondary pools) in
  let n_audit := List.length (audit pools) in
  if (15 <? n_secondary)%nat then
    s <- (if (18 <=? n_secondary)%nat
          then ilocs (secondary pools) [15; 16; 17]
          else if (17 <=? n_secondary)%nat
          then ilocs (secondary pools) [15; 16]
          else if (16 <=? n_secondary)%nat then ilocs (secondary pools) [15]
          else Ok []) ;;
    a <- (if (4 <? n_audit)%nat then ilocs (audit pools) [4] else Ok []) ;;
    Ok (append_module modules "Module 5 (Year 2)" (s ++ a) (now + weeks 55)
          ("Year 2: " ++ major ++ " specialization") 5)
  else Ok modules.

Definition module_6 (pools : Pools) (major : string)
    (modules : list ModuleDict) : outcome (list ModuleDict) :=
  let n_secondary := List.length (secondary pools) in
  let n_audit := List.length (audit pools) in
  if (18 <? n_secondary)%nat then
    s <- (if (21 <=? n_secondary)%nat
          then ilocs (secondary pools) [18; 19; 20]
          else if (20 <=? n_secondary)%nat
          then ilocs (secondary pools) [18; 19]
          else if (19 <=? n_secondary)%nat then ilocs (secondary pools) [18]
          else Ok []) ;;
    a <- (if (5 <? n_audit)%nat then ilocs (audit pools) [5] else Ok []) ;;
    Ok (append_module modules "Module 6 (Year 2)" (s ++ a) (now + weeks 58)
          "Year 2: Capstone preparation" 6)
  else Ok modules.

Definition module_7 (pools : Pools) (major : string)
    (modules : list ModuleDict) : outcome (list ModuleDict) :=
  let n_secondary := List.length (secondary pools) in
  if (21 <? n_secondary)%nat then
    s <- (if (24 <=? n_secondary)%nat
          then ilocs (secondary pools) [21; 22; 23]
          else if (23 <=? n_secondary)%nat
          then ilocs (secondary pools) [21; 22]
          else if (22 <=? n_secondary)%nat then ilocs (secondary pools) [21]
          else Ok []) ;;
    Ok (append_module modules "Module 7 (Year 3)" s (now + weeks 104)
          "Year 3: Advanced specialization" 7)
  else Ok modules.

(** The module blocks of [generate_smart_schedule], in order. *)
Definition build_modules (pools : Pools) (major : string)
  : outcome (list ModuleDict) :=
  modules <- module_1 pools major [] ;;
  modules <- module_2 pools major modules ;;
  modules <- module_3 pools major modules ;;
  modules <- module_4 pools major modules ;;
  modules <- module_5 pools major modules ;;
  modules <- module_6 pools major modules ;;
  module_7 pools major modules.

(** [generate_smart_schedule]; [courses_df] is [None] before [load_data]. *)
Definition generate_smart_schedule (courses_df : option DataFrame)
    (student_profile : Student.Profile) (enrolled_courses : list string)
    (completed_courses : list string) (limit_modules : Z)
  : outcome (list ModuleDict) :=
  let major := Py.get_or (Student.major student_profile)
                 "Computer Science" in
  let program := Py.get_or (Student.program student_profile)
                   "Bachelor's Degree" in
  let level :=
    if Py.contains "bachelor" (Py.lower program) then "bachelor"
    else "master" in
  match courses_df with
  | None => Ok []
  | Some courses_df =>
      if empty courses_df then Ok []
      else
        pools <- build_pools courses_df major level completed_courses ;;
        modules <- build_modules pools major ;;
        Ok (take_modules limit_modules modules)
  end.

End Synthesizer.

(** What a module is made of, its dates apart. *)
Definition composition (m : ModuleDict)
  : string * nat * list ScheduledCourse * nat * string :=
  (module_name m, module_number m, courses m, total_credits m,
   description m).

(** The course ids of a module, in order. *)
Definition module_ids (m : ModuleDict) : list string :=
  map (fun c => course_id (course c)) (courses m).

(** *** Invariants of the blocks *)

(** The rows an expression of a block yields come from the pool [l], at
    most [n] of them. *)
Definition picks_from (l : list CourseRecord) (n : nat)
    (e : outcome (list CourseRecord)) : Prop :=
  forall r, e = Ok r -> incl r l /\ List.length r <= n.

(** At most 1 mandatory, 4 secondary and 1 audit course, each a row of one
    of the pools. *)
Definition module_ok (pools : Pools) (m : ModuleDict) : Prop :=
  let rows := map course (courses m) in
  incl rows (mandatory pools ++ secondary pools ++ audit pools)
  /\ List.length (filter (has_type "mandatory") rows) <= 1
  /\ List.length (filter (has_type "secondary") rows) <= 4
  /\ List.length (filter (has_type "audit") rows) <= 1.

(** At most 1 mandatory, 4 secondary and 1 audit course in a module. *)
Definition within_caps (m : ModuleDict) : Prop :=
  let rows := map course (courses m) in
  List.length (filter (has_type "mandatory") rows) <= 1
  /\ List.length (filter (has_type "secondary") rows) <= 4
  /\ List.length (filter (has_type "audit") rows) <= 1.

End Schedule.
(** ** Intent handlers

    The handlers that decide the empty-result policy:
    [_handle_unknown_query], [_handle_general_info_query],
    [_handle_career_query], [_handle_course_recommendation] with the
    helpers it calls, and the dispatcher
    [get_intelligent_recommendations]. *)

Module Handlers.
Import Exn Frame.
Local Open Scope string_scope.

(** The newline and the double quote. *)
Definition nl : string := String (ascii_of_nat 10) EmptyString.
Definition dq : string := String (ascii_of_nat 34) EmptyString.

(** [str(n)] for a non-negative integer. *)
Definition str_of_nat (n : nat) : string :=
  NilEmpty.string_of_uint (Nat.to_uint n).

(** [sep.join(l)] *)
Definition join (sep : string) (l : list string) : string :=
  String.concat sep l.

(** [l.append(x)] and [l.extend(more)] *)
Definition extend {A : Type} (l more : list A) : list A := (l ++ more)%list.

(** [s[:n]] *)
Definition prefix (n : nat) (s : string) : string := String.substring 0 n s.

(** [s.title()] on a text of ASCII letters and other characters: a letter
    that follows a letter is lowered, any other letter is raised. *)
Definition is_ascii_letter (c : ascii) : bool :=
  let n := Py.ord c in
  ((65 <=? n) && (n <=? 90) || (97 <=? n) && (n <=? 122))%N.

Definition upper_ascii (c : ascii) : ascii :=
  let n := Py.ord c in
  if ((97 <=? n) && (n <=? 122))%N then ascii_of_N (n - 32) else c.

Fixpoint title_aux (previous_is_letter : bool) (s : string) : string :=
  match s with
  | EmptyString => EmptyString
  | String c r =>
      String (if previous_is_letter then Py.lower_char c else upper_ascii c)
        (title_aux (is_ascii_letter c) r)
  end.

Definition title (s : string) : string := title_aux false s.

(** An entry of [course_lecturer_map]. *)
Record Lecturer : Type := mkLecturer {
  name : string;
  job_title : string;
  company : string;
  expertise_areas : string
}.

(** The state of the advisor the handlers read: [self.courses_df]
    ([None] before [load_data]) and [self.course_lecturer_map]. *)
Record Advisor : Type := mkAdvisor {
  courses_df : option DataFrame;
  course_lecturer_map : list (string * Lecturer)
}.

(** [course_id in self.course_lecturer_map] and the entry. *)
Definition lecturer_of (self : Advisor) (course_id : string)
  : option Lecturer :=
  option_map snd
    (find (fun e : string * Lecturer => String.eqb (fst e) course_id)
       (course_lecturer_map self)).

(** The dict [explanations]: keys in insertion order. *)
Definition Explanations : Type := list (string * list string).

(** [explanations[key] = value] *)
Fixpoint assign (key : string) (value : list string) (d : Explanations)
  : Explanations :=
  match d with
  | [] => [(key, value)]
  | (k, v) :: rest =>
      if String.eqb k key then (k, value) :: rest
      else (k, v) :: assign key value rest
  end.

(** What a handler returns: [(courses, explanations, response)]. *)
Definition Result : Type := (DataFrame * Explanations * string)%type.

Definition result_courses (r : Result) : DataFrame := fst (fst r).
Definition result_response (r : Result) : string := snd r.

(** The three values [random.choice] draws in one call of
    [_handle_unknown_query], as positions in the lists. *)
Record Picks : Type := mkPicks {
  opening : nat;
  limitation : nat;
  closing : nat
}.

(** [random.choice(seq)] given the position drawn. *)
Definition choice (position : nat) (seq : list string) : string :=
  nth position seq (hd "" seq).

(** Text of an optional query in an f-string. *)
Definition show_query (query : option string) : string :=
  Py.get_or query "None".

Definition _handle_unknown_query (picks : Picks) (query : option string)
    (major career_goal : string) : Result :=
  let q := show_query query in
  let openings :=
    ["Thanks for asking about **" ++ dq ++ q ++ dq ++ "**! ";
     "Interesting question about **" ++ dq ++ q ++ dq ++ "**! ";
     "I appreciate you asking about **" ++ dq ++ q ++ dq ++ "**. ";
     "Good question! You asked about **" ++ dq ++ q ++ dq ++ "**. "] in
  let response := choice (opening picks) openings in
  let limitations :=
    ["I'm still learning and my knowledge is somewhat limited right now. ";
     "My vocabulary is growing every day, but I don't have an answer for this specific question yet. ";
     "I'm an AI that's continuously improving, and while I can't fully answer this right now, ";
     "I don't quite understand this question at the moment, but I'm learning more each day! "] in
  let response := response ++ choice (limitation picks) limitations in
  let response :=
    response ++ "Let me guide you to what I can help with." ++ nl ++ nl in
  let response :=
    response ++ "**I'm really good at helping with:**" ++ nl ++ nl in
  let response :=
    response ++ "**Finding Courses (" ++ major ++ "):**" ++ nl in
  let response := response ++ "Ask me things like:" ++ nl in
  let response :=
    response ++ "- " ++ dq ++ "software" ++ dq ++ " or " ++ dq ++ "business"
    ++ dq ++ " or " ++ dq ++ "data science" ++ dq ++ nl in
  let response := response ++ "- " ++ dq ++ "ML courses" ++ dq ++ nl in
  let response :=
    response ++ "- " ++ dq ++ "What courses should I take?" ++ dq ++ nl in
  let response :=
    response ++ "- " ++ dq ++ "Show me programming classes" ++ dq ++ nl
    ++ nl in
  let response := response ++ "**Class Schedules & Times:**" ++ nl in
  let response := response ++ "- " ++ dq ++ "Morning classes" ++ dq ++ nl in
  let response := response ++ "- " ++ dq ++ "Evening courses" ++ dq ++ nl in
  let response :=
    response ++ "- " ++ dq ++ "When is [course name]?" ++ dq ++ nl ++ nl in
  let response := response ++ "**Instructors & Faculty:**" ++ nl in
  let response := response ++ "- " ++ dq ++ "Lecturers" ++ dq ++ nl in
  let response :=
    response ++ "- " ++ dq ++ "Who teaches machine learning?" ++ dq ++ nl in
  let response :=
    response ++ "- " ++ dq ++ "Tell me about the professors" ++ dq ++ nl
    ++ nl in
  let response := response ++ "**Student Support & Guidance:**" ++ nl in
  let response :=
    response ++ "- " ++ dq ++ "What if I skip mandatory class?" ++ dq
    ++ nl in
  let response :=
    response ++ "- " ++ dq ++ "I have an issue" ++ dq ++ " or " ++ dq
    ++ "I need help" ++ dq ++ nl in
  let response :=
    response ++ "- " ++ dq ++ "How to prepare for [course name]" ++ dq
    ++ nl in
  let response :=
    response ++ "- " ++ dq ++ "What happens if I miss too many classes?"
    ++ dq ++ nl ++ nl in
  let response := response ++ "**Academic Information:**" ++ nl in
  let response :=
    response ++ "- " ++ dq ++ "How long is bachelor?" ++ dq ++ " or " ++ dq
    ++ "program duration" ++ dq ++ nl in
  let response :=
    response ++ "- " ++ dq ++ "What is mandatory vs audit?" ++ dq ++ nl in
  let response :=
    response ++ "- " ++ dq ++ "Attendance policy" ++ dq ++ nl in
  let response :=
    response ++ "- " ++ dq ++ "Career advice" ++ dq ++ nl ++ nl in
  let response :=
    if Py.truthy career_goal then
      response ++ "**Your Career Goal (" ++ career_goal ++ "):**" ++ nl
      ++ "- " ++ dq ++ "Courses for " ++ career_goal ++ dq ++ nl
      ++ "- " ++ dq ++ "Skills needed for " ++ career_goal ++ dq ++ nl
      ++ "- " ++ dq ++ "Best path to become " ++ career_goal ++ dq ++ nl
      ++ nl
    else response in
  let closings :=
    ["Try asking one of these, and I'll give you a detailed answer! My knowledge is growing, and I'm here to support your academic journey.";
     "Feel free to rephrase your question using the examples above. I'm getting smarter every day and want to help you succeed!";
     "Don't hesitate to ask in different words - I might understand better! I'm continuously learning to serve you better.";
     "Use the quick buttons below or try one of these questions. I'm improving constantly and committed to helping you!"] in
  let response := response ++ choice (closing picks) closings in
  (empty_frame, [], response).

(** The heading of the alternatives section. *)
Definition alternatives_heading : string :=
  "**I'm really good at helping with:**".

(** The first character of a text. *)
Definition first_char (s : string) : option ascii :=
  match s with
  | EmptyString => None
  | String c _ => Some c
  end.

Section Engine.

(** The regular-expression engine of [Series.str.contains]. *)
Variable regex_ok : string -> bool.
Variable regex_search : string -> string -> bool.

(** [self.courses_df[col]]: the table must be loaded and carry the
    column. *)
Definition column (self : Advisor) (col : string) : outcome DataFrame :=
  match courses_df self with
  | None => Raise TypeError
  | Some df =>
      if has_column col df then Ok df else Raise (KeyError col)
  end.

(** [series.str.contains(pat, case=False, na=False)]: the pattern is
    compiled first. *)
Definition compiled (pat : string) : outcome unit :=
  if regex_ok pat then Ok tt else Raise (ReError pat).

(** The mask of a text column, [False] on a missing cell. *)
Definition cell_matches (pat : string) (cell : option string) : bool :=
  match cell with
  | Some text => regex_search pat text
  | None => false
  end.

(** One pass of the loop of [_handle_career_query] on a table that has the
    columns [course_id] and [course_name]; [idx] counts from 1. *)
Definition career_entry (self : Advisor) (career_goal : string)
    (acc : Explanations * string) (numbered : nat * CourseRecord)
  : Explanations * string :=
  let (explanations, response) := acc in
  let (idx, course) := numbered in
  let course_id := course_id course in
  let response :=
    response ++ str_of_nat idx ++ ". " ++ course_name course ++ nl in
  let response :=
    response ++ "   Why: Prepares you for "
    ++ (if Py.truthy career_goal then career_goal else "industry roles")
    ++ nl in
  let response := response ++ "   Industry value: High demand skill" ++ nl in
  let response :=
    match lecturer_of self course_id with
    | Some lecturer =>
        response ++ "   Instructor: " ++ name lecturer ++ " at "
        ++ company lecturer ++ nl
    | None => response
    end in
  let response := response ++ nl in
  (assign course_id
     ["Essential for "
      ++ (if Py.truthy career_goal then career_goal else "your career");
      "Industry-relevant skills"; "Taught by professionals"]
     explanations,
   response).

(** [enumerate(rows, 1)] *)
Definition enumerate1 {A : Type} (l : list A) : list (nat * A) :=
  combine (seq 1 (List.length l)) l.

Definition _handle_career_query (self : Advisor) (query : string)
    (major career_goal experience_level : string) : outcome Result :=
  let response :=
    "Let's plan your path to "
    ++ (if Py.truthy career_goal then career_goal else "success") ++ "!"
    ++ nl ++ nl in
  let career_keywords :=
    Scorer._get_career_keywords
      (if Py.truthy career_goal then career_goal else query) in
  let pat := join "|" career_keywords in
  df <- column self "skills_covered_str" ;;
  _ <- compiled pat ;;
  _ <- column self "course_description" ;;
  let career_courses :=
    head 4
      (select (fun c => cell_matches pat (skills_covered_str c)
                        || regex_search pat (course_description c)) df) in
  career_courses <-
    (if empty career_courses then
       df <- column self "category" ;;
       _ <- compiled major ;;
       Ok (head 4 (select (fun c => regex_search major (category c)) df))
     else Ok career_courses) ;;
  let response := response ++ "Career-Aligned Courses:" ++ nl ++ nl in
  _ <- each_row_reads career_courses ["course_id"; "course_name"] ;;
  let (explanations, response) :=
    fold_left (career_entry self career_goal)
      (enumerate1 (rows career_courses)) ([], response) in
  let response :=
    response ++ nl
    ++ "Career Tip: Combine technical courses with projects. Consider auditing complementary courses to broaden your skill set. Would you like advice on course priority?" in
  Ok (career_courses, explanations, response).

End Engine.

End Handlers.
Module Recommend.
Import Exn Frame Handlers.
Local Open Scope string_scope.

Definition common_words : list string :=
  ["course"; "class"; "learn"; "study"; "teach"; "help"; "show"; "find";
   "about"; "what"; "how"; "when"; "where"; "who"].

Definition known_topics : list string :=
  ["machine learning"; "data science"; "computer science"; "cybersecurity";
   "cyber security"; "programming"; "web"; "development"; "python"; "java";
   "javascript"; "database"; "ai"; "artificial"; "software"; "business";
   "design"; "marketing"; "frontend"; "backend"; "mobile"].

(** The dict [major_keywords], in insertion order. *)
Definition major_keywords : list (string * list string) :=
  [("business", ["business"; "entrepreneurship"; "management"; "mba"]);
   ("data science", ["data science"; "data analytics"; "analytics"]);
   ("computer science", ["computer science"; "cs"; "computing"]);
   ("cybersecurity",
    ["cybersecurity"; "cyber security"; "security"; "infosec"]);
   ("design", ["design"; "ux"; "ui"; "interaction design"]);
   ("marketing", ["marketing"; "digital marketing"; "social media"]);
   ("software development",
    ["software development"; "software engineering"; "programming"]);
   ("web development",
    ["web development"; "web dev"; "frontend"; "backend"; "fullstack"]);
   ("mobile", ["mobile"; "app development"; "android"; "ios"])].

Section Engine.

Variable regex_ok : string -> bool.
Variable regex_search : string -> string -> bool.
(** [rows.sort_values('relevance_score', ascending=False)] *)
Variable sort_values : list CourseRecord -> list CourseRecord.

(** One pass of the loop of [_handle_general_info_query] over the rows of
    [relevant_courses], a table that has the columns [course_id] and
    [course_name]. *)
Definition general_info_entry (self : Advisor)
    (relevant_courses : DataFrame) (major : string)
    (acc : Explanations * string) (numbered : nat * CourseRecord)
  : Explanations * string :=
  let (explanations, response) := acc in
  let (idx, course) := numbered in
  let course_id := course_id course in
  let response :=
    response ++ str_of_nat idx ++ ". " ++ course_name course ++ nl in
  let response :=
    match lecturer_of self course_id with
    | Some lecturer =>
        response ++ "   Instructor: " ++ name lecturer ++ " ("
        ++ job_title lecturer ++ ") from " ++ company lecturer ++ nl
    | None => response
    end in
  let response :=
    response ++ "   Level: "
    ++ Py.get_or (estimated_difficulty course) "Intermediate"
    ++ " | Schedule: " ++ Py.get_or (class_time course) "TBD" ++ nl in
  let response :=
    response ++ "   "
    ++ prefix 120 (course_description (got relevant_courses course))
    ++ "..." ++ nl ++ nl in
  (assign course_id
     ["Perfect for " ++ major ++ " students"; "Taught by industry expert";
      "Practical, hands-on approach"]
     explanations,
   response).

(** The [try] block of [_handle_general_info_query]. *)
Definition search_courses (self : Advisor) (search_query : string)
    (target_major : option string) : outcome DataFrame :=
  df <- column self "course_name" ;;
  _ <- compiled regex_ok search_query ;;
  _ <- column self "course_description" ;;
  _ <- column self "skills_covered_str" ;;
  _ <- column self "category" ;;
  let relevant_courses :=
    select (fun c => regex_search search_query (course_name c)
                     || regex_search search_query (course_description c)
                     || cell_matches regex_search search_query
                          (skills_covered_str c)
                     || regex_search search_query (category c)) df in
  relevant_courses <-
    (match target_major with
     | Some target_major =>
         if negb (empty relevant_courses) then
           _ <- compiled regex_ok target_major ;;
           let major_specific :=
             select (fun c => regex_search target_major (category c))
               relevant_courses in
           Ok (if negb (empty major_specific) then major_specific
               else relevant_courses)
         else Ok relevant_courses
     | None => Ok relevant_courses
     end) ;;
  Ok (head 8 relevant_courses).

Definition _handle_general_info_query (picks : Picks) (self : Advisor)
    (query : string) (major career_goal experience_level program : string)
  : outcome Result :=
  let query_lower := Py.strip (Py.lower query) in
  let has_common_word := Py.any_in common_words query_lower in
  let has_known_topic := Py.any_in known_topics query_lower in
  if (String.length query_lower <? 3)%nat
  then Ok (_handle_unknown_query picks (Some query) major career_goal)
  else if negb has_common_word && negb has_known_topic
          && (List.length (Py.split query) <=? 3)%nat
  then Ok (_handle_unknown_query picks (Some query) major career_goal)
  else
    let target_major :=
      option_map fst
        (find (fun e : string * list string => Py.any_in (snd e) query_lower)
           major_keywords) in
    let search_query := query_lower in
    match search_courses self search_query target_major with
    | Raise _ =>
        Ok (_handle_unknown_query picks (Some query) major career_goal)
    | Ok relevant_courses =>
        if empty relevant_courses
        then Ok (_handle_unknown_query picks (Some query) major career_goal)
        else
          let response :=
            match target_major with
            | Some target_major =>
                "**" ++ title target_major ++ " Courses:**" ++ nl ++ nl
                ++ "Great choice! Here are the best courses for "
                ++ target_major ++ ":" ++ nl ++ nl
            | None => "**Courses for: " ++ query ++ "**" ++ nl ++ nl
            end in
          _ <- each_row_reads relevant_courses ["course_id"; "course_name"] ;;
          let (explanations, response) :=
            fold_left (general_info_entry self relevant_courses major)
              (enumerate1 (rows relevant_courses)) ([], response) in
          let response :=
            response ++ nl ++ "For a " ++ experience_level
            ++ " student, I'd recommend starting with "
            ++ match rows relevant_courses with
               | first :: _ => course_name first
               | [] => ""
               end
            ++ ". " in
          let response :=
            response
            ++ "It provides a solid foundation. Would you like to know about prerequisites or course combinations?" in
          Ok (relevant_courses, explanations, response)
    end.

(** [course] is the row as [.get] reads it, see [got]. *)
Definition _get_prerequisite_skills (course : CourseRecord) : list string :=
  let course_name := Py.lower (course_name course) in
  let difficulty := Py.get_or (estimated_difficulty course) "Intermediate" in
  let category := Py.lower (category course) in
  let prerequisites :=
    if String.eqb difficulty "Advanced"
    then ["Intermediate " ++ category ++ " knowledge"] else [] in
  let prerequisites :=
    if Py.contains "machine learning" course_name
       || Py.contains "deep learning" course_name
    then extend prerequisites
           ["Python programming"; "Basic statistics"; "Linear algebra"]
    else if Py.contains "data" course_name
    then extend prerequisites ["Python basics"; "SQL fundamentals"]
    else if Py.contains "web" course_name
            || Py.contains "frontend" course_name
    then extend prerequisites ["HTML/CSS basics"; "JavaScript fundamentals"]
    else if Py.contains "security" course_name
            || Py.contains "cyber" course_name
    then extend prerequisites
           ["Networking basics"; "Operating systems knowledge"]
    else if Py.contains "database" course_name
    then extend prerequisites ["SQL basics"; "Data modeling concepts"]
    else prerequisites in
  firstn 3 prerequisites.

(** [set(str(skills).lower().split(','))] as the list of its elements. *)
Definition skill_set (course : CourseRecord) : list string :=
  nodup string_dec
    (Py.split_on "," (Py.lower (Py.get_or (skills_covered_str course) ""))).

(** [main_course] is a row of [all_courses], as in the one call. *)
Definition _get_audit_combination_suggestion (main_course : CourseRecord)
    (all_courses : DataFrame) : outcome (option string) :=
  let main_skills := skill_set main_course in
  if negb (has_column "course_type" all_courses)
  then Raise (KeyError "course_type")
  else
    let audit_courses :=
      filter (fun c => match course_type c with
                       | Some t => String.eqb t "audit"
                       | None => false
                       end) (rows all_courses) in
    _ <- each_row_reads (mkFrame (columns all_courses) audit_courses)
           ["course_id"] ;;
    match
      find
        (fun audit =>
           negb (String.eqb (course_id audit) (course_id main_course))
           && (let overlap :=
                 List.length
                   (filter (fun s => existsb (String.eqb s)
                                       (skill_set audit)) main_skills) in
               (0 <? overlap)%nat && (overlap <? 3)%nat))
        audit_courses
    with
    | Some audit =>
        course_name <- item all_courses "course_name" (course_name audit) ;;
        Ok (Some (course_name ++ " (" ++ course_id audit ++ ")"))
    | None => Ok None
    end.

(** The body of the loop of [_generate_detailed_explanations], after the
    read of [course['course_id']]. *)
Definition explanation_parts (self : Advisor) (courses : DataFrame)
    (major career_goal experience_level program : string)
    (course : CourseRecord) : outcome (list string) :=
  let parts :=
    ["**Best for:** " ++ major ++ " students in " ++ program ++ " program"] in
  let course_type := Py.get_or (course_type course) "secondary" in
  let difficulty := Py.get_or (estimated_difficulty course) "Intermediate" in
  let parts :=
    extend parts
       [if String.eqb course_type "mandatory"
        then "**Course Type:** Required core course for " ++ major
             ++ " - 6 credits"
        else if String.eqb course_type "secondary"
        then "**Course Type:** Graded elective - 4 credits (counts toward degree)"
        else "**Course Type:** Audit option - 0 credits (explore without grades)"]
    in
  let parts :=
    extend parts ["**Difficulty Level:** " ++ difficulty ++ " - Suitable for "
              ++ experience_level ++ " students"] in
  let parts :=
    match lecturer_of self (course_id course) with
    | Some lecturer =>
        extend parts
           ["**Instructor:** " ++ name lecturer ++ ", " ++ job_title lecturer
            ++ " at " ++ company lecturer;
            "**Expertise:** " ++ expertise_areas lecturer]
    | None => parts
    end in
  let prereq_skills := _get_prerequisite_skills (got courses course) in
  let parts :=
    match prereq_skills with
    | [] => parts
    | _ => extend parts ["**Skills to Prepare:** " ++ join ", " prereq_skills]
    end in
  let parts :=
    if Py.truthy career_goal then
      let career_keywords := Scorer._get_career_keywords career_goal in
      let course_skills :=
        Py.split_on ","
          (Py.lower (Py.get_or (skills_covered_str course) "")) in
      let matching_skills :=
        map Py.strip
          (filter (fun s => existsb (fun k => Py.contains k s)
                              career_keywords) course_skills) in
      match matching_skills with
      | [] => parts
      | _ => extend parts ["**Career Relevance:** Directly applicable to "
                           ++ career_goal ++ " role"]
      end
    else parts in
  audit_suggestion <- _get_audit_combination_suggestion course courses ;;
  let parts :=
    match audit_suggestion with
    | Some suggestion =>
        extend parts ["**Recommended Audit Combination:** Pair with "
                      ++ suggestion]
    | None => parts
    end in
  Ok (extend parts ["**Duration:** 3 weeks intensive | **Credits:** "
                    ++ str_of_nat (Py.get_or (credits course) 3)]).

Definition _generate_detailed_explanations (self : Advisor)
    (courses : DataFrame)
    (major career_goal experience_level program : string)
    (query : option string) : outcome Explanations :=
  fold_left
    (fun acc course =>
       explanations <- acc ;;
       course_id <- item courses "course_id" (course_id course) ;;
       parts <- explanation_parts self courses major career_goal
                  experience_level program course ;;
       Ok (assign course_id parts explanations))
    (rows courses) (Ok []).

(** [explanations[course_id]] when the key is present. *)
Definition explanation_of (explanations : Explanations) (course_id : string)
  : option (list string) :=
  option_map snd
    (find (fun e : string * list string => String.eqb (fst e) course_id)
       explanations).

Definition _generate_conversational_response (self : Advisor)
    (courses : DataFrame) (explanations : Explanations)
    (major career_goal : string) (query : option string) : outcome string :=
  if empty courses then
    Ok ("I couldn't find specific courses matching that query. "
        ++ "As a " ++ major
        ++ " student, I can help you with course recommendations, "
        ++ "lecturer information, schedules, or module planning. What would you like to know?")
  else
    _ <- each_row_reads courses ["course_id"; "course_name"] ;;
    let short_query :=
      match query with
      | Some q => Py.truthy q && (List.length (Py.split q) <=? 2)%nat
      | None => false
      end in
    let response :=
      if short_query
      then "Here are the " ++ show_query query ++ " courses available:" ++ nl
           ++ nl
      else if Py.truthy career_goal
      then "For " ++ career_goal ++ ", I recommend these courses:" ++ nl
           ++ nl
      else "Based on your " ++ major ++ " major, here are relevant courses:"
           ++ nl ++ nl in
    let response :=
      fold_left
        (fun response (numbered : nat * CourseRecord) =>
           let (idx, course) := numbered in
           let course_id := course_id course in
           let response :=
             response ++ str_of_nat idx ++ ". " ++ course_name course ++ " ("
             ++ course_id ++ ")" ++ nl in
           let response :=
             response ++ "   Level: "
             ++ Py.get_or (estimated_difficulty course) "Intermediate"
             ++ " | Credits: " ++ str_of_nat (Py.get_or (credits course) 6)
             ++ nl in
           let response :=
             match lecturer_of self course_id with
             | Some lecturer =>
                 response ++ "   Instructor: " ++ name lecturer ++ ", "
                 ++ job_title lecturer ++ nl
             | None => response
             end in
           let response :=
             response ++ "   Schedule: "
             ++ Py.get_or (class_time course) "TBD" ++ nl in
           let response :=
             match explanation_of explanations course_id with
             | Some (first :: _) => response ++ "   Why: " ++ first ++ nl
             | _ => response
             end in
           response ++ nl)
        (enumerate1 (rows courses)) response in
    Ok (if (List.length (rows courses) =? 1)%nat
        then response
             ++ "Would you like to know more about prerequisites, similar courses, or module planning?"
        else if (List.length (rows courses) <=? 3)%nat
        then response
             ++ "Would you like details on any specific course, or help choosing between them?"
        else response
             ++ "I can provide more details on any course. What would you like to know?").

(** The [try] block of [_handle_course_recommendation]; [None] stands for
    the two early [return self._handle_unknown_query(...)]. *)
Definition recommend (self : Advisor) (query : option string)
    (major career_goal experience_level program : string) (limit : nat)
  : outcome (option Result) :=
  df <- column self "category" ;;
  _ <- compiled regex_ok major ;;
  let major_courses :=
    select (fun c => regex_search major (category c)) df in
  let major_courses := if empty major_courses then df else major_courses in
  if empty major_courses then Ok None
  else
    scored_courses <-
      Scorer._score_courses sort_values major_courses major career_goal
        experience_level program query ;;
    let top_courses := head limit scored_courses in
    if empty top_courses || (List.length (rows top_courses) <? 3)%nat
    then Ok None
    else
      explanations <-
        _generate_detailed_explanations self top_courses major career_goal
          experience_level program query ;;
      ai_response <-
        _generate_conversational_response self top_courses explanations
          major career_goal query ;;
      Ok (Some (top_courses, explanations, ai_response)).

Definition _handle_course_recommendation (picks : Picks) (self : Advisor)
    (query : option string)
    (major career_goal experience_level program : string) (limit : nat)
  : Result :=
  match recommend self query major career_goal experience_level program
          limit with
  | Ok (Some result) => result
  | Ok None => _handle_unknown_query picks query major career_goal
  | Raise _ => _handle_unknown_query picks query major career_goal
  end.

End Engine.

End Recommend.
(** ** The entry point [get_intelligent_recommendations] *)

Module Dispatch.
Import Exn Frame Handlers Recommend Intent.
Local Open Scope string_scope.

(** The handlers whose narrative the properties below do not concern, as
    the dispatcher calls them. *)
Record RuleHandlers : Type := mkRuleHandlers {
  _handle_preparation_advice :
    Advisor -> option string -> string -> string -> string -> outcome Result;
  _handle_course_type_explanation :
    Advisor -> option string -> string -> outcome Result;
  _handle_program_duration_query :
    Advisor -> option string -> string -> string -> outcome Result;
  _handle_greeting : string -> string -> outcome Result;
  _handle_lecturer_query :
    Advisor -> option string -> string -> outcome Result;
  _handle_schedule_query :
    Advisor -> option string -> string -> outcome Result;
  _handle_module_planning_query :
    Advisor -> option string -> string -> string -> string -> string ->
    outcome Result;
  _handle_attendance_consequences :
    Advisor -> option string -> string -> outcome Result;
  _handle_student_issues :
    Advisor -> option string -> string -> outcome Result;
  _handle_specific_class_preparation :
    Advisor -> option string -> string -> outcome Result;
  _handle_program_info_query :
    Advisor -> option string -> string -> string -> string -> string ->
    outcome Result
}.

(** [_expand_query] *)
Definition _expand_query (query : option string) : option string :=
  match query with
  | None => None
  | Some q =>
      if negb (Py.truthy q) then Some q
      else Some (expand (Py.strip (Py.lower q)))
  end.

Section Engine.

Variable similar : string -> string -> bool.
Variable regex_ok : string -> bool.
Variable regex_search : string -> string -> bool.
Variable sort_values : list CourseRecord -> list CourseRecord.
Variable handlers : RuleHandlers.
(** [self.llm_advisor.generate_response(query, student_profile,
    enrolled_courses)] when the LLM is in use: the response and the courses,
    or [None] when the LLM is not in use or the call raises. *)
Variable llm_generate_response :
  string -> Student.Profile -> option (string * DataFrame).

(** A handler that calls a method of the query needs a string. *)
Definition text_of (query : option string) : outcome string :=
  match query with
  | Some q => Ok q
  | None => Raise AttributeError
  end.

Definition rule_based (picks : Picks) (self : Advisor)
    (student_profile : Student.Profile) (query : option string)
    (limit : nat) : outcome Result :=
  let major := Py.get_or (Student.major student_profile)
                 "Computer Science" in
  let career_goal := Py.get_or (Student.career_goal student_profile) "" in
  let experience_level :=
    Py.get_or (Student.experience_level student_profile) "Beginner" in
  let program := Py.get_or (Student.program student_profile) "Bachelor" in
  let expanded_query := _expand_query query in
  let query_intent := _analyze_query_intent similar query in
  match query_intent with
  | preparation_advice =>
      _handle_preparation_advice handlers self expanded_query major
        career_goal experience_level
  | course_type_explanation =>
      _handle_course_type_explanation handlers self expanded_query major
  | program_duration =>
      _handle_program_duration_query handlers self expanded_query major
        program
  | general_info =>
      q <- text_of expanded_query ;;
      _handle_general_info_query regex_ok regex_search picks self q major
        career_goal experience_level program
  | greeting => _handle_greeting handlers major career_goal
  | lecturer_info =>
      _handle_lecturer_query handlers self expanded_query major
  | schedule_info =>
      _handle_schedule_query handlers self expanded_query major
  | career_guidance =>
      q <- text_of expanded_query ;;
      _handle_career_query regex_ok regex_search self q major career_goal
        experience_level
  | module_planning =>
      _handle_module_planning_query handlers self expanded_query major
        career_goal experience_level program
  | attendance_consequences =>
      _handle_attendance_consequences handlers self expanded_query major
  | student_issues =>
      _handle_student_issues handlers self expanded_query major
  | specific_class_preparation =>
      _handle_specific_class_preparation handlers self expanded_query major
  | program_info =>
      _handle_program_info_query handlers self expanded_query major
        career_goal experience_level program
  | course_recommendation =>
      Ok (_handle_course_recommendation regex_ok regex_search sort_values
            picks self expanded_query major career_goal experience_level
            program limit)
  end.

Definition get_intelligent_recommendations (picks : Picks) (self : Advisor)
    (student_profile : Student.Profile) (query : option string)
    (limit : nat) : outcome Result :=
  let from_llm :=
    match query with
    | Some q =>
        if Py.truthy q then llm_generate_response q student_profile
        else None
    | None => None
    end in
  (* the loop over the courses of the LLM reads course['course_id'] inside
     the try: a KeyError sends the call to the rule-based system *)
  let answered :=
    match from_llm with
    | Some (_, relevant_courses) =>
        match each_row_reads relevant_courses ["course_id"] with
        | Ok _ => from_llm
        | Raise _ => None
        end
    | None => None
    end in
  match answered with
  | Some (ai_response, relevant_courses) =>
      let explanations :=
        fold_left
          (fun explanations course =>
             assign (course_id course)
               ["Relevant to your query";
                "Matches your "
                ++ Py.get_or (Student.major student_profile) "program"
                ++ " track"]
               explanations)
          (rows relevant_courses) [] in
      Ok (relevant_courses, explanations, ai_response)
  | None => rule_based picks self student_profile query limit
  end.

End Engine.

End Dispatch.
(** ** The shape of a schedule

    Where each block of [generate_smart_schedule] reads the pools, and when
    it runs. *)

Module Blocks.
Import Exn Frame Schedule.

(** [r] is [l[start : start + k]] for some [k <= width], cut at the end of
    [l]. *)
Definition segment {A : Type} (l : list A) (start width : nat) (r : list A)
  : Prop :=
  exists k, k <= width /\ r = firstn k (skipn start l).

(** First position of the secondary pool that block [j] reads, and how
    many positions it may read. *)
Definition secondary_start (j : nat) : nat :=
  nth (j - 1) [0; 4; 8; 12; 15; 18; 21] 0.

Definition secondary_width (j : nat) : nat :=
  nth (j - 1) [4; 4; 4; 3; 3; 3; 3] 0.

(** Blocks 1 to 4 read one mandatory course, blocks 1 to 6 one audit
    course, at position [j - 1]. *)
Definition mandatory_width (j : nat) : nat := if (j <=? 4)%nat then 1 else 0.

Definition audit_width (j : nat) : nat := if (j <=? 6)%nat then 1 else 0.

(** The [timedelta] added to [start_date] for module [j]. *)
Definition start_offset (j : nat) : Z :=
  nth (j - 1)
    [0%Z; weeks 3; weeks 6; weeks 52; weeks 55; weeks 58; weeks 104] 0%Z.

(** The test that guards block [j]. *)
Definition block_runs (pools : Pools) (j : nat) : bool :=
  let n_mandatory := List.length (mandatory pools) in
  let n_secondary := List.length (secondary pools) in
  match j with
  | 1 => negb (empty (all_courses pools))
  | 2 => (1 <? n_mandatory)%nat || (4 <? n_secondary)%nat
  | 3 => (2 <? n_mandatory)%nat || (8 <? n_secondary)%nat
  | 4 => (3 <? n_mandatory)%nat || (12 <? n_secondary)%nat
  | 5 => (15 <? n_secondary)%nat
  | 6 => (18 <? n_secondary)%nat
  | 7 => (21 <? n_secondary)%nat
  | _ => false
  end.

(** Module [m] is what block [j] appends: its courses are a segment of
    each pool, in the order mandatory, secondary, audit, and there is at
    least one. *)
Definition made_by_block (now : Z) (pools : Pools) (j : nat) (m : ModuleDict)
  : Prop :=
  exists name desc ms ss aa,
    m = _create_module name (ms ++ ss ++ aa) (now + start_offset j) desc j
    /\ ms ++ ss ++ aa <> []
    /\ block_runs pools j = true
    /\ segment (mandatory pools) (j - 1) (mandatory_width j) ms
    /\ segment (secondary pools) (secondary_start j) (secondary_width j) ss
    /\ segment (audit pools) (j - 1) (audit_width j) aa.

(** The modules [ms] are made by the blocks [js], one each. *)
Definition made_by_blocks (now : Z) (pools : Pools) (js : list nat)
    (ms : list ModuleDict) : Prop :=
  Forall2 (made_by_block now pools) js ms
  /\ StronglySorted lt js
  /\ Forall (fun j => 1 <= j <= 7) js.

(** The course ids of a schedule, module after module. *)
Definition schedule_ids (modules : list ModuleDict) : list string :=
  flat_map module_ids modules.

(** The slot that [_create_module] gives the course at position [idx]. *)
Definition slot_at (idx : nat) : nat * string :=
  nth (idx mod 3) CLASS_TIMES (0, "").

(** The major and the level [generate_smart_schedule] reads off the
    profile. *)
Definition major_of (student_profile : Student.Profile) : string :=
  Py.get_or (Student.major student_profile) "Computer Science".

Definition level_of (student_profile : Student.Profile) : string :=
  if Py.contains "bachelor"
       (Py.lower (Py.get_or (Student.program student_profile)
                    "Bachelor's Degree"))
  then "bachelor" else "master".

(** The courses left by the level filter and the capstone filter. *)
Definition eligible (courses_df : DataFrame)
    (student_profile : Student.Profile) : DataFrame :=
  early_module_courses_of
    (level_courses_of courses_df (level_of student_profile)).

(** "OTHER major courses = secondary/audit (mix)": the labels of the rows
    of a complementary pool that is not empty. *)
Definition label_other (other_rows : list CourseRecord)
  : list CourseRecord :=
  let total_other := List.length other_rows in
  let audit_count := (total_other * 3 / 10)%nat in
  let labelled := map (set_course_type (Some "secondary")) other_rows in
  if (0 <? audit_count)%nat
  then set_type_between (total_other - audit_count) total_other "audit" 0
         labelled
  else labelled.

(** Whether the category of a course matches the major. *)
Definition matches_major (regex_search : string -> string -> bool)
    (major : string) (c : CourseRecord) : bool :=
  regex_search major (category c).

(** Whether the name of a course holds a capstone keyword. *)
Definition is_capstone (c : CourseRecord) : bool :=
  Py.any_in capstone_keywords (Py.lower (course_name c)).

(** The positions of the secondary pool that lie before the first one
    block [b + 1] reads. *)
Definition consumed (b : nat) : nat :=
  nth b [0; 4; 8; 12; 15; 18; 21; 24] 0.

(** The complementary pool before the shuffle: the eligible courses whose
    category does not match the major and that are not completed. *)
Definition complementary (regex_search : string -> string -> bool)
    (courses_df : DataFrame) (student_profile : Student.Profile)
    (completed_courses : list string) : list CourseRecord :=
  filter (fun c => not_completed completed_courses c)
    (filter (fun c => negb (matches_major regex_search
                              (major_of student_profile) c))
       (rows (eligible courses_df student_profile))).

(** The sum of the credits of the courses of a module, 3 for a course
    without the key. *)
Definition credits_of (m : ModuleDict) : nat :=
  list_sum (map (fun c => Py.get_or (credits (course c)) 3) (courses m)).

(** A positional read of the pool either raises or returns a segment of it
    that starts at [start] and has at most [width] rows. *)
Definition reads {A : Type} (l : list A) (start width : nat)
    (e : outcome (list A)) : Prop :=
  forall r, e = Ok r -> segment l start width r.

End Blocks.
(** ** Alternative slots and the conflict warning

    [suggest_alternative_time] and [generate_conflict_warning]. *)

Module Alternatives.
Import Handlers.
Local Open Scope string_scope.

(** The list [all_times] of [suggest_alternative_time]. *)
Definition all_times : list string :=
  ["9:00 AM - 12:20 PM"; "1:00 PM - 4:20 PM"; "5:00 PM - 8:20 PM"].

(** [suggest_alternative_time(course_name, excluded_times)];
    [excluded_times] is [None] by default. *)
Definition suggest_alternative_time (course_name : string)
    (excluded_times : option (list string)) : list string :=
  let excluded_times := Py.get_or excluded_times [] in
  filter (fun t => negb (existsb (String.eqb t) excluded_times)) all_times.

Section Warning.

(** The warning sign and the bullet of the message lie outside the
    characters of the embedding; they are two texts that the message
    quotes. *)
Variable warning_sign : string.
Variable bullet : string.

Definition generate_conflict_warning (conflicting_courses : list string)
    (new_course_name : string) : string :=
  match conflicting_courses with
  | [] => ""
  | _ =>
      let warning :=
        warning_sign ++ " **TIMETABLE CONFLICT WARNING** " ++ warning_sign
        ++ nl ++ nl in
      let warning :=
        warning ++ "You cannot enroll in **" ++ new_course_name
        ++ "** because it conflicts with:" ++ nl ++ nl in
      let warning :=
        fold_left
          (fun warning course => warning ++ bullet ++ " " ++ course ++ nl)
          conflicting_courses warning in
      let warning :=
        warning ++ nl
        ++ "**Important:** Students cannot attend two courses scheduled at the same time."
        ++ nl in
      warning
      ++ "**Solution:** Choose courses with different time slots (Morning/Afternoon/Evening)."
      ++ nl
  end.

End Warning.

End Alternatives.
(** ** Lecturers of the courses

    [_map_lecturers_to_courses], [get_lecturer_details] and
    [get_all_lecturer_courses]. *)

Module Lecturers.
Import Exn Frame.
Local Open Scope string_scope.

(** A row of [lecturers_df]; a field is [None] when the table has no such
    column. *)
Record LecturerRow : Type := mkLecturerRow {
  lecturer_id : option string;
  name : option string;
  job_title : option string;
  company : option string;
  background : option string;
  expertise_areas : option string;
  email : option string
}.

(** An entry of [course_lecturer_map]. *)
Record LecturerInfo : Type := mkLecturerInfo {
  info_lecturer_id : string;
  info_name : string;
  info_job_title : string;
  info_company : string;
  info_background : string;
  info_expertise_areas : string;
  info_email : string
}.

(** The dict [course_lecturer_map]: keys in insertion order. *)
Definition LecturerMap : Type := list (string * LecturerInfo).

(** The attributes of the advisor that the three methods read and
    write. *)
Record State : Type := mkState {
  courses_df : option DataFrame;
  lecturers_df : option (list LecturerRow);
  course_lecturer_map : LecturerMap
}.

(** [d[key] = value] *)
Fixpoint set_entry (key : string) (value : LecturerInfo) (d : LecturerMap)
  : LecturerMap :=
  match d with
  | [] => [(key, value)]
  | (k, v) :: rest =>
      if String.eqb k key then (k, value) :: rest
      else (k, v) :: set_entry key value rest
  end.

(** [d[key]] when [key in d]. *)
Definition entry_of (d : LecturerMap) (key : string) : option LecturerInfo :=
  option_map snd
    (find (fun e : string * LecturerInfo => String.eqb (fst e) key) d).

(** The three texts of a course that the scores read:
    [course_skills], [course_category], [course_name]. *)
Definition course_skills (course : CourseRecord) : string :=
  Py.lower (Py.get_or (skills_covered_str course) "").

Definition course_category (df : DataFrame) (course : CourseRecord)
  : string :=
  Py.lower (if has_column "category" df then category course else "").

Definition course_name_text (df : DataFrame) (course : CourseRecord)
  : string :=
  Py.lower (if has_column "course_name" df then course_name course else "").

(** The score of one lecturer for one course: the body of the inner
    loop. *)
Definition match_score (skills category_text name_text : string)
    (lecturer : LecturerRow) : nat :=
  let expertise := Py.lower (Py.get_or (expertise_areas lecturer) "") in
  let job_title := Py.lower (Py.get_or (job_title lecturer) "") in
  let score := 0 in
  (* Match based on expertise areas *)
  let score :=
    fold_left
      (fun score skill =>
         if Py.truthy (Py.strip skill)
            && Py.contains (Py.strip skill) expertise
         then score + 3 else score)
      (Py.split_on "," skills) score in
  (* Match based on job title *)
  let score :=
    if existsb (fun word => Py.contains word job_title) (Py.split name_text)
    then score + 2 else score in
  (* Category matching *)
  if Py.contains category_text expertise
     || Py.contains category_text job_title
  then score + 2 else score.

(** The inner loop: [(best_match, best_score)] after the lecturers. *)
Definition best_of (score_of : LecturerRow -> nat)
    (lecturers : list LecturerRow) : option LecturerRow * nat :=
  fold_left
    (fun (best : option LecturerRow * nat) lecturer =>
       if (snd best <? score_of lecturer)%nat
       then (Some lecturer, score_of lecturer) else best)
    lecturers (None, 0).

(** The dict literal of the entry; the keys read with [best_match[...]]
    must be there. *)
Definition info_of (best_match : LecturerRow) : outcome LecturerInfo :=
  match lecturer_id best_match with
  | None => Raise (KeyError "lecturer_id")
  | Some id =>
      match name best_match with
      | None => Raise (KeyError "name")
      | Some n =>
          match job_title best_match with
          | None => Raise (KeyError "job_title")
          | Some title =>
              Ok (mkLecturerInfo id n title
                    (Py.get_or (company best_match) "Independent")
                    (Py.get_or (background best_match) "")
                    (Py.get_or (expertise_areas best_match) "")
                    (Py.get_or (email best_match) ""))
          end
      end
  end.

(** One pass of the outer loop on the map. *)
Definition map_course (df : DataFrame) (lecturers : list LecturerRow)
    (d : LecturerMap) (course : CourseRecord) : outcome LecturerMap :=
  let score_of :=
    match_score (course_skills course) (course_category df course)
      (course_name_text df course) in
  match fst (best_of score_of lecturers) with
  | None => Ok d
  | Some best_match =>
      info <- info_of best_match ;;
      if has_column "course_id" df
      then Ok (set_entry (course_id course) info d)
      else Raise (KeyError "course_id")
  end.

(** The outer loop: the map when the loop ends, and the exception that
    ended it if one did.  The entries written before an exception stay. *)
Fixpoint map_courses (df : DataFrame) (lecturers : list LecturerRow)
    (d : LecturerMap) (courses : list CourseRecord)
  : LecturerMap * option exn :=
  match courses with
  | [] => (d, None)
  | course :: rest =>
      match map_course df lecturers d course with
      | Ok d' => map_courses df lecturers d' rest
      | Raise e => (d, Some e)
      end
  end.

(** [_map_lecturers_to_courses]: the state it leaves, and the exception it
    raises if it does. *)
Definition _map_lecturers_to_courses (self : State) : State * option exn :=
  match lecturers_df self, courses_df self with
  | Some lecturers, Some df =>
      let (d, e) :=
        map_courses df lecturers (course_lecturer_map self) (rows df) in
      (mkState (courses_df self) (lecturers_df self) d, e)
  | _, _ => (self, None)
  end.

(** [get_lecturer_details] *)
Definition get_lecturer_details (self : State) (course_id : string)
  : option LecturerInfo :=
  entry_of (course_lecturer_map self) course_id.

(** [get_all_lecturer_courses] *)
Definition get_all_lecturer_courses (self : State) (lecturer_name : string)
  : outcome (list CourseRecord) :=
  fold_left
    (fun acc (item : string * LecturerInfo) =>
       lecturer_courses <- acc ;;
       let (id, lecturer_info) := item in
       if String.eqb (info_name lecturer_info) lecturer_name then
         match courses_df self with
         | None => Raise TypeError
         | Some df =>
             if has_column "course_id" df then
               let course :=
                 select (fun c => String.eqb (course_id c) id) df in
               if negb (empty course)
               then match rows course with
                    | first :: _ => Ok (lecturer_courses ++ [first])%list
                    | [] => Raise IndexError
                    end
               else Ok lecturer_courses
             else Raise (KeyError "course_id")
         end
       else Ok lecturer_courses)
    (course_lecturer_map self) (Ok []).

End Lecturers.
(** ** The explanations dict against the recommended rows

    [_generate_detailed_explanations] (1731-1786) fills a dict keyed by
    [course_id] while it iterates over the rows of the recommended frame.
    [explained explanations done] relates the dict to the rows iterated so
    far: every row has a non-empty entry, and every key is the id of a
    row. *)

Module Explained.
Import Exn Frame Handlers Recommend.

Definition explained (explanations : Explanations) (done : list CourseRecord)
  : Prop :=
  (forall c, In c done ->
             exists parts,
               explanation_of explanations (course_id c) = Some parts
               /\ parts <> [])
  /\ (forall key, In key (map fst explanations) ->
                  In key (map course_id done)).

End Explained.

(** ** Example tables *)

Module Examples.
Import Frame Handlers Dispatch.

(** Two art courses, a table of them with the columns of the loader, and
    an advisor serving it. *)
Definition painting : CourseRecord :=
  mkCourse "ART-101" "Painting" "Oil and acrylic" "Art"
    None None None (Some "brushes, colour") None (Some "mandatory") None
    (Some 6) None.

Definition sculpture : CourseRecord :=
  mkCourse "ART-102" "Sculpture" "Clay and stone" "Art"
    None None None (Some "carving") None (Some "secondary") None (Some 4)
    None.

Definition art_table : DataFrame :=
  mkFrame ["course_id"; "course_name"; "course_description"; "category";
           "skills_covered_str"; "course_type"; "credits"]
    [painting; sculpture].

Definition art_advisor : Advisor := mkAdvisor (Some art_table) [].

(** The advisor with an empty table that has no column, the LLM not in
    use, and a student of computer science. *)
Definition empty_advisor : Advisor := mkAdvisor (Some empty_frame) [].

Definition no_llm (query : string) (student_profile : Student.Profile)
  : option (string * DataFrame) := None.

Definition cs_student : Student.Profile :=
  Student.mkProfile (Some "Computer Science") (Some "Bachelor") None None.

(** A catalogue of two courses of computer science and ten of art, with
    the columns of the loader that every course has. *)
Definition listed (course_id category : string) : CourseRecord :=
  mkCourse course_id ("Course " ++ course_id) "Lectures and labs" category
    None None None None None None None None None.

Definition catalogue : DataFrame :=
  mkFrame ["course_id"; "course_name"; "course_description"; "category"]
    [listed "CS-1" "Computer Science"; listed "CS-2" "Computer Science";
     listed "ART-1" "Art"; listed "ART-2" "Art"; listed "ART-3" "Art";
     listed "ART-4" "Art"; listed "ART-5" "Art"; listed "ART-6" "Art";
     listed "ART-7" "Art"; listed "ART-8" "Art"; listed "ART-9" "Art";
     listed "ART-10" "Art"].


End Examples.

(** ** More example tables *)

Module Catalogues.
Import Frame Examples.

(** One course of computer science and seven of art. *)
Definition seven_arts : DataFrame :=
  mkFrame ["course_id"; "course_name"; "course_description"; "category"]
    [listed "CS-1" "Computer Science";
     listed "ART-1" "Art"; listed "ART-2" "Art"; listed "ART-3" "Art";
     listed "ART-4" "Art"; listed "ART-5" "Art"; listed "ART-6" "Art";
     listed "ART-7" "Art"].

(** Courses of two levels, a capstone and a seminar among them. *)
Definition levelled (course_id course_name category level : string)
  : CourseRecord :=
  mkCourse course_id course_name "Lectures and labs" category None
    (Some level) None None None None None None None.

Definition two_levels : DataFrame :=
  mkFrame ["course_id"; "course_name"; "course_description"; "category";
           "Level"]
    [levelled "CS-1" "Algorithms" "Computer Science" "Bachelor";
     levelled "CS-2" "Capstone Project" "Computer Science" "Bachelor";
     levelled "CS-3" "Compilers" "Computer Science" "Master";
     levelled "ART-1" "Painting" "Art" "Bachelor";
     levelled "ART-2" "Graduate Seminar" "Art" "Master"].

End Catalogues.

(** ** Example timetables *)

Module Timetables.
Import Timetable.

Definition morning_algebra : CourseDict :=
  mkCourseDict (Some "9:00 AM - 12:20 PM") (Some "Algebra").

Definition afternoon_logic : CourseDict :=
  mkCourseDict (Some "1:00 PM - 4:20 PM") (Some "Logic").

Definition evening_physics : CourseDict :=
  mkCourseDict (Some "5:00 PM - 8:20 PM") (Some "Physics").

End Timetables.

(** ** Example lecturers *)

Module Faculty.
Import Frame Lecturers Examples.

Definition ada : LecturerRow :=
  mkLecturerRow (Some "L-1") (Some "Ada") (Some "Painter")
    (Some "Atelier") None (Some "colour, art") (Some "ada@example.org").

Definition bo : LecturerRow :=
  mkLecturerRow (Some "L-2") (Some "Bo") (Some "Sculptor") None None
    (Some "carving, art") None.

(** The advisor after [load_data] has stored the two tables, before the
    lecturers are mapped. *)
Definition art_school : State :=
  mkState (Some art_table) (Some [ada; bo]) [].

(** The same advisor with the lecturers mapped. *)
Definition art_school_mapped : State :=
  fst (_map_lecturers_to_courses art_school).

End Faculty.
(** * Properties *)

(** ** Facts about the timetable conflict detector *)

Module TimetableFacts.
Import Timetable.

(** *** Generic list facts *)

Lemma fold_left_append_flat_map {A B : Type} (f : A -> list B) (l : list A)
    (acc : list B) :
  fold_left (fun acc x => acc ++ f x) l acc = acc ++ flat_map f l.
Proof.
  revert acc; induction l as [|x l IH]; intros acc; simpl.
  - now rewrite app_nil_r.
  - now rewrite IH, app_assoc.
Qed.

Lemma map_nth_all {A B : Type} (g : A -> B) (l : list A) (d : A) :
  map (fun j => g (nth j l d)) (seq 0 (List.length l)) = map g l.
Proof.
  induction l as [|a l IH]; simpl; [reflexivity|].
  f_equal. rewrite <- seq_shift, map_map. exact IH.
Qed.

Lemma pairs_in_group_all_pairs courses time :
  pairs_in_group courses time = all_pairs courses time.
Proof.
  unfold pairs_in_group.
  induction courses as [|a rest IH]; simpl; [reflexivity|].
  rewrite Nat.sub_0_r. f_equal.
  - rewrite <- seq_shift, map_map. simpl.
    exact (map_nth_all (fun b => (a, b, time)) rest "").
  - rewrite <- IH, <- seq_shift, flat_map_concat_map, map_map,
      <- flat_map_concat_map.
    apply flat_map_ext; intros i. simpl.
    rewrite <- seq_shift, map_map. reflexivity.
Qed.

Lemma all_pairs_short courses time :
  (1 <? List.length courses)%nat = false -> all_pairs courses time = [].
Proof.
  destruct courses as [|a [|b r]]; simpl; try reflexivity.
  intros H; discriminate H.
Qed.

Lemma truthy_true s : Py.truthy s = true <-> s <> "".
Proof. destruct s; simpl; split; intros; congruence. Qed.


Lemma names_at_snoc t l c :
  names_at t (l ++ [c])
  = names_at t l ++ (if String.eqb (time_of c) t then [name_of c] else []).
Proof.
  unfold names_at. rewrite filter_app, map_app. simpl.
  now destruct (String.eqb (time_of c) t).
Qed.

Lemma group_by_time_snoc l c :
  group_by_time (l ++ [c])
  = if Py.truthy (time_of c)
    then group_append (time_of c) (name_of c) (group_by_time l)
    else group_by_time l.
Proof. unfold group_by_time. now rewrite fold_left_app. Qed.

Lemma group_append_keys_in t n g t' :
  In t' (keys (group_append t n g)) <-> t' = t \/ In t' (keys g).
Proof.
  unfold keys. induction g as [|[k ns] g IH]; simpl.
  - intuition.
  - destruct (String.eqb_spec k t) as [->|Hne]; simpl.
    + intuition.
    + rewrite IH. intuition.
Qed.

Lemma group_append_keys_nodup t n g :
  NoDup (keys g) -> NoDup (keys (group_append t n g)).
Proof.
  unfold keys. induction g as [|[k ns] g IH]; simpl; intros Hnd.
  - constructor; [intros []|constructor].
  - inversion Hnd as [|? ? Hk Hg]; subst.
    destruct (String.eqb_spec k t) as [->|Hne]; simpl.
    + constructor; assumption.
    + constructor; [|now apply IH].
      intros Hin. apply (group_append_keys_in t n g k) in Hin.
      destruct Hin as [->|Hin]; [now apply Hne|now apply Hk].
Qed.

(** An entry of the dict after [group_append]: an untouched entry of another
    slot, or the entry of the slot with the name appended (a new entry when
    the slot was not a key). *)
Lemma group_append_entries t n g t' ns' :
  NoDup (keys g) ->
  In (t', ns') (group_append t n g) ->
  (t' <> t /\ In (t', ns') g)
  \/ (t' = t /\ exists ns, ns' = ns ++ [n]
                 /\ (In (t, ns) g \/ (ns = [] /\ ~ In t (keys g)))).
Proof.
  unfold keys. induction g as [|[k ns] g IH]; simpl; intros Hnd Hin.
  - destruct Hin as [Heq|[]]. inversion Heq; subst.
    right. split; [reflexivity|]. exists []. split; [reflexivity|].
    right. split; [reflexivity|tauto].
  - inversion Hnd as [|? ? Hk Hg]; subst.
    destruct (String.eqb_spec k t) as [->|Hne]; simpl in Hin.
    + destruct Hin as [Heq|Hin].
      * inversion Heq; subst. right. split; [reflexivity|].
        exists ns. split; [reflexivity|]. left. now left.
      * left. split; [|now right].
        intros ->. apply Hk. now apply (in_map fst) in Hin.
    + destruct Hin as [Heq|Hin].
      * inversion Heq; subst. left. split; [assumption|now left].
      * destruct (IH Hg Hin) as [[Hd Hi]|[-> [ms [-> Hms]]]].
        -- left. split; [assumption|now right].
        -- right. split; [reflexivity|]. exists ms. split; [reflexivity|].
           destruct Hms as [Hi|[-> Hni]]; [left; now right|].
           right. split; [reflexivity|]. intros [Hc|Hc]; [now apply Hne|now apply Hni].
Qed.

Lemma group_by_time_keys_in l t :
  In t (keys (group_by_time l))
  <-> Py.truthy t = true /\ exists c, In c l /\ time_of c = t.
Proof.
  induction l as [|c l IH] using rev_ind.
  - simpl. split; [intros []|intros [_ [c [[] _]]]].
  - rewrite group_by_time_snoc.
    destruct (Py.truthy (time_of c)) eqn:Htc.
    + rewrite group_append_keys_in, IH. split.
      * intros [->|[Ht [d [Hd Hdt]]]].
        -- split; [assumption|]. exists c. split; [|reflexivity].
           apply in_or_app. right. now left.
        -- split; [assumption|]. exists d. split; [|assumption].
           apply in_or_app. now left.
      * intros [Ht [d [Hd Hdt]]]. apply in_app_or in Hd.
        destruct Hd as [Hd|[->|[]]].
        -- right. split; [assumption|]. now exists d.
        -- left. now symmetry.
    + rewrite IH. split.
      * intros [Ht [d [Hd Hdt]]]. split; [assumption|]. exists d.
        split; [|assumption]. apply in_or_app. now left.
      * intros [Ht [d [Hd Hdt]]]. apply in_app_or in Hd.
        destruct Hd as [Hd|[->|[]]].
        -- split; [assumption|]. now exists d.
        -- rewrite Hdt in Htc. congruence.
Qed.

Lemma group_by_time_keys_nodup l : NoDup (keys (group_by_time l)).
Proof.
  induction l as [|c l IH] using rev_ind.
  - constructor.
  - rewrite group_by_time_snoc. destruct (Py.truthy (time_of c)).
    + now apply group_append_keys_nodup.
    + assumption.
Qed.

Lemma names_at_nil_iff t l :
  names_at t l = [] <-> forall c, In c l -> time_of c <> t.
Proof.
  unfold names_at. induction l as [|d l IH]; simpl.
  - split; [intros _ c []|reflexivity].
  - destruct (String.eqb_spec (time_of d) t) as [Heq|Hne]; simpl.
    + split; [discriminate|]. intros H. exfalso. now apply (H d); [left|].
    + rewrite IH. split.
      * intros H c [->|Hc]; [assumption|now apply H].
      * intros H c Hc. apply H. now right.
Qed.

(** Every entry of [time_groups] holds a scheduled slot with exactly the
    names of the courses in that slot, in list order. *)
Lemma group_by_time_entries l t ns :
  In (t, ns) (group_by_time l) -> ns = names_at t l.
Proof.
  revert t ns. induction l as [|c l IH] using rev_ind; intros t ns Hin.
  - destruct Hin.
  - rewrite group_by_time_snoc in Hin. rewrite names_at_snoc.
    destruct (Py.truthy (time_of c)) eqn:Htc.
    + apply group_append_entries in Hin; [|apply group_by_time_keys_nodup].
      destruct Hin as [[Hd Hi]|[-> [ms [-> Hms]]]].
      * destruct (String.eqb_spec (time_of c) t) as [Heq|_];
          [now symmetry in Heq|].
        rewrite app_nil_r. now apply IH.
      * rewrite String.eqb_refl. f_equal.
        destruct Hms as [Hi|[-> Hni]]; [now apply IH|].
        symmetry. apply names_at_nil_iff. intros d Hd Hdt.
        apply Hni. apply group_by_time_keys_in. split; [assumption|].
        now exists d.
    + destruct (String.eqb_spec (time_of c) t) as [Heq|_].
      * exfalso. apply (in_map fst) in Hin.
        apply (proj1 (group_by_time_keys_in l t)) in Hin.
        destruct Hin as [Ht _]. rewrite Heq in Htc. congruence.
      * rewrite app_nil_r. now apply IH.
Qed.


Lemma flat_map_ext_entries {A B : Type} (f g : A -> list B) (l : list A) :
  (forall a, In a l -> f a = g a) -> flat_map f l = flat_map g l.
Proof.
  induction l as [|a l IH]; simpl; intros H; [reflexivity|].
  rewrite (H a (or_introl eq_refl)), IH; [reflexivity|].
  intros b Hb. apply H. now right.
Qed.

Lemma fold_left_pointwise {A B : Type} (f g : A -> B -> A) (l : list B) (a : A) :
  (forall x y, f x y = g x y) -> fold_left f l a = fold_left g l a.
Proof.
  intros H. revert a. induction l as [|b l IH]; intros a; simpl;
    [reflexivity|]. now rewrite H, IH.
Qed.

(** The second loop emits, slot by slot in key order, all pairs of the
    names of the slot. *)
Lemma conflicts_by_slot l :
  get_all_timetable_conflicts l
  = flat_map (fun t => all_pairs (names_at t l) t) (keys (group_by_time l)).
Proof.
  unfold get_all_timetable_conflicts.
  rewrite (fold_left_pointwise _
             (fun acc e => acc ++ all_pairs (snd e) (fst e))).
  - rewrite fold_left_append_flat_map. simpl. unfold keys.
    rewrite flat_map_concat_map, flat_map_concat_map, map_map.
    rewrite <- flat_map_concat_map, <- flat_map_concat_map.
    apply flat_map_ext_entries. intros [t ns] Hin. simpl.
    now rewrite (group_by_time_entries l t ns Hin).
  - intros acc [t ns]. simpl.
    destruct (1 <? List.length ns)%nat eqn:Hlen.
    + now rewrite pairs_in_group_all_pairs.
    + now rewrite (all_pairs_short ns t Hlen), app_nil_r.
Qed.

Lemma names_at_cons t c l :
  names_at t (c :: l)
  = if String.eqb (time_of c) t then name_of c :: names_at t l
    else names_at t l.
Proof. unfold names_at. simpl. now destruct (String.eqb (time_of c) t). Qed.

(** The slots of [c :: l]: the slot of [c], when scheduled, and the slots
    of [l]. *)
Lemma keys_cons_perm c l :
  Permutation (keys (group_by_time (c :: l)))
    (if Py.truthy (time_of c)
     then time_of c
          :: filter (fun t => negb (String.eqb t (time_of c)))
               (keys (group_by_time l))
     else keys (group_by_time l)).
Proof.
  apply NoDup_Permutation.
  - apply group_by_time_keys_nodup.
  - destruct (Py.truthy (time_of c)).
    + constructor.
      * rewrite filter_In, String.eqb_refl. simpl. intros [_ H]. discriminate.
      * apply NoDup_filter, group_by_time_keys_nodup.
    + apply group_by_time_keys_nodup.
  - intros t. rewrite group_by_time_keys_in.
    destruct (Py.truthy (time_of c)) eqn:Htc.
    + simpl. rewrite filter_In, group_by_time_keys_in. split.
      * intros [Ht [d [[->|Hd] Hdt]]]; [now left|].
        destruct (String.eqb_spec t (time_of c)) as [->|Hne]; [now left|].
        right. split; [|reflexivity]. split; [assumption|now exists d].
      * intros [<-|[[Ht [d [Hd Hdt]]] _]].
        -- split; [assumption|]. exists c. split; [now left|reflexivity].
        -- split; [assumption|]. exists d. split; [now right|assumption].
    + rewrite group_by_time_keys_in. split.
      * intros [Ht [d [[->|Hd] Hdt]]].
        -- rewrite Hdt in Htc. congruence.
        -- split; [assumption|now exists d].
      * intros [Ht [d [Hd Hdt]]]. split; [assumption|]. exists d.
        split; [now right|assumption].
Qed.

Lemma slots_split (F : string -> list Conflict) (t : string) (ks : list string) :
  NoDup ks -> In t ks ->
  Permutation (F t ++ flat_map F (filter (fun k => negb (String.eqb k t)) ks))
    (flat_map F ks).
Proof.
  intros Hnd Hin.
  change (Permutation
            (flat_map F (t :: filter (fun k => negb (String.eqb k t)) ks))
            (flat_map F ks)).
  apply Permutation_flat_map, NoDup_Permutation.
  - constructor.
    + rewrite filter_In, String.eqb_refl. simpl. intros [_ H]. discriminate.
    + now apply NoDup_filter.
  - assumption.
  - intros k. simpl. rewrite filter_In. split.
    + intros [<-|[Hk _]]; assumption.
    + intros Hk. destruct (String.eqb_spec k t) as [->|Hne]; [now left|].
      right. now split.
Qed.

Lemma filter_absent (t : string) (ks : list string) :
  ~ In t ks -> filter (fun k => negb (String.eqb k t)) ks = ks.
Proof.
  induction ks as [|k ks IH]; simpl; intros Hni; [reflexivity|].
  destruct (String.eqb_spec k t) as [->|Hne]; simpl.
  - exfalso. apply Hni. now left.
  - f_equal. apply IH. intros H. apply Hni. now right.
Qed.

(** The triples emitted are, up to their order, one per pair of positions
    of the list that share a scheduled slot. *)
Lemma conflicts_perm_same_slot_pairs l :
  Permutation (get_all_timetable_conflicts l) (same_slot_pairs l).
Proof.
  rewrite conflicts_by_slot.
  induction l as [|c l IH]; [constructor|].
  rewrite (Permutation_flat_map _ (keys_cons_perm c l)).
  simpl same_slot_pairs.
  destruct (Py.truthy (time_of c)) eqn:Htc.
  - simpl flat_map. rewrite names_at_cons, String.eqb_refl. simpl all_pairs.
    rewrite <- app_assoc. apply Permutation_app.
    + unfold names_at. rewrite map_map.
      erewrite filter_ext; [apply Permutation_refl|].
      intros d. reflexivity.
    + rewrite (flat_map_ext_entries _
                 (fun t => all_pairs (names_at t l) t)).
      * destruct (in_dec string_dec (time_of c) (keys (group_by_time l)))
          as [Hin|Hni].
        -- rewrite (slots_split (fun t => all_pairs (names_at t l) t)
                      (time_of c) _ (group_by_time_keys_nodup l) Hin).
           exact IH.
        -- rewrite (filter_absent _ _ Hni).
           replace (names_at (time_of c) l) with (@nil string); [exact IH|].
           symmetry. apply names_at_nil_iff. intros d Hd Hdt. apply Hni.
           apply group_by_time_keys_in. split; [assumption|now exists d].
      * intros t Ht. apply filter_In in Ht. destruct Ht as [_ Hne].
        rewrite names_at_cons.
        destruct (String.eqb_spec (time_of c) t) as [<-|_]; [|reflexivity].
        rewrite String.eqb_refl in Hne. discriminate.
  - simpl.
    replace (filter (fun _ : CourseDict => false) l) with (@nil CourseDict)
      by (clear; induction l; simpl; auto).
    rewrite (flat_map_ext_entries _
                 (fun t => all_pairs (names_at t l) t)); [exact IH|].
    intros t Ht. apply group_by_time_keys_in in Ht. destruct Ht as [Ht _].
    rewrite names_at_cons.
    destruct (String.eqb_spec (time_of c) t) as [<-|_]; [|reflexivity].
    congruence.
Qed.


(** The loop of [check_timetable_conflict] collects, in enrolled order, the
    names of the courses in the candidate's slot. *)
Lemma conflicting_fold new_time enrolled acc :
  Py.truthy new_time = true ->
  fold_left
    (fun conflicting course =>
       if Py.truthy (time_of course) && String.eqb (time_of course) new_time
       then conflicting ++ [Py.get_or (course_name course) "Unknown Course"]
       else conflicting)
    enrolled acc
  = acc ++ map (fun c => Py.get_or (course_name c) "Unknown Course")
             (filter (fun c => String.eqb (time_of c) new_time) enrolled).
Proof.
  intros Hnew. revert acc.
  induction enrolled as [|c l IH]; intros acc; simpl.
  - now rewrite app_nil_r.
  - rewrite IH. destruct (String.eqb_spec (time_of c) new_time) as [->|Hne].
    + rewrite Hnew. simpl. now rewrite <- app_assoc.
    + now rewrite andb_false_r.
Qed.

Lemma check_timetable_conflict_spec enrolled new_course :
  check_timetable_conflict enrolled new_course
  = if Py.truthy (time_of new_course)
    then ((0 <? List.length (equal_slot_names enrolled new_course))%nat,
          equal_slot_names enrolled new_course)
    else (false, []).
Proof.
  unfold check_timetable_conflict, equal_slot_names. cbv zeta.
  destruct enrolled as [|c l].
  - now destruct (Py.truthy (time_of new_course)).
  - destruct (Py.truthy (time_of new_course)) eqn:Hnew; [|reflexivity].
    cbv beta iota delta [negb].
    now rewrite (conflicting_fold _ (c :: l) [] Hnew).
Qed.

Lemma group_by_time_scheduled_only l :
  group_by_time l = group_by_time (filter scheduled l).
Proof.
  unfold group_by_time. generalize (@nil (string * list string)).
  induction l as [|c l IH]; intros g; simpl; [reflexivity|].
  unfold scheduled at 1. destruct (Py.truthy (time_of c)) eqn:Htc; simpl.
  - now rewrite Htc, IH.
  - apply IH.
Qed.

Lemma all_pairs_slot ns t a b t' :
  In (a, b, t') (all_pairs ns t) -> t' = t /\ In a ns /\ In b ns.
Proof.
  induction ns as [|n ns IH]; simpl; [intros []|].
  intros Hin. apply in_app_or in Hin. destruct Hin as [Hin|Hin].
  - apply in_map_iff in Hin. destruct Hin as [x [Heq Hx]].
    inversion Heq; subst. auto.
  - destruct (IH Hin) as [? [? ?]]. auto.
Qed.

Lemma conflicts_slot_scheduled l a b t :
  In (a, b, t) (get_all_timetable_conflicts l) ->
  t <> "" /\ In a (names_at t l) /\ In b (names_at t l).
Proof.
  rewrite conflicts_by_slot, in_flat_map. intros [k [Hk Hin]].
  apply all_pairs_slot in Hin. destruct Hin as [-> [Ha Hb]].
  apply group_by_time_keys_in in Hk. destruct Hk as [Hk _].
  split; [now apply truthy_true|now split].
Qed.

(** [same_slot_pairs] read by positions: a triple for the positions
    [i < j] of two courses that share a non-empty slot. *)
Lemma same_slot_pairs_positions l a b t :
  In (a, b, t) (same_slot_pairs l)
  <-> exists i j ci cj,
        i < j /\ nth_error l i = Some ci /\ nth_error l j = Some cj
        /\ a = name_of ci /\ b = name_of cj
        /\ time_of ci = t /\ time_of cj = t /\ t <> "".
Proof.
  induction l as [|c l IH]; simpl.
  - split; [intros []|].
    intros [i [j [ci [cj [_ [Hi _]]]]]]. now destruct i.
  - rewrite in_app_iff, IH, in_map_iff. split.
    + intros [[d [Heq Hd]]|[i [j [ci [cj [Hlt [Hi [Hj H]]]]]]]].
      * inversion Heq; subst. apply filter_In in Hd.
        destruct Hd as [Hd Hc]. apply andb_true_iff in Hc.
        destruct Hc as [Htc Hdt]. apply String.eqb_eq in Hdt.
        apply In_nth_error in Hd. destruct Hd as [k Hk].
        exists 0, (S k), c, d. repeat split; auto; try lia.
        now apply truthy_true.
      * exists (S i), (S j), ci, cj. repeat split; try tauto; lia.
    + intros [i [j [ci [cj [Hlt [Hi [Hj [-> [-> [Hci [Hcj Hne]]]]]]]]]]].
      destruct j as [|j]; [lia|]. simpl in Hj. destruct i as [|i].
      * simpl in Hi. inversion Hi; subst ci. left. exists cj.
        split; [now rewrite Hci|]. apply filter_In. split.
        -- eapply nth_error_In; eassumption.
        -- apply andb_true_iff. rewrite Hci, Hcj.
           split; [now apply truthy_true|apply String.eqb_refl].
      * right. exists i, j, ci, cj. simpl in Hi.
        repeat split; auto; lia.
Qed.

(** C1 (as amended).  Conflict detection is exact string equality on the
    time-slot label of scheduled courses.  [get_all_timetable_conflicts]
    emits, up to the order of the triples, exactly one triple
    [(nameA, nameB, slot)] for every pair of positions [i < j] of the list
    whose courses carry the same non-empty time-slot string; and
    [check_timetable_conflict], for a candidate with a non-empty slot,
    returns the names of exactly the enrolled courses whose slot string
    equals the candidate's, in enrolled order, with [true] when there is one,
    and [(False, [])] for a candidate without a slot. *)
Theorem conflicts_exact_on_scheduled_slots :
  forall (course_list enrolled : list CourseDict) (new_course : CourseDict),
    Permutation (get_all_timetable_conflicts course_list)
      (same_slot_pairs course_list)
    /\ check_timetable_conflict enrolled new_course
       = if Py.truthy (time_of new_course)
         then ((0 <? List.length (equal_slot_names enrolled new_course))%nat,
               equal_slot_names enrolled new_course)
         else (false, []).
Proof.
  intros course_list enrolled new_course. split.
  - apply conflicts_perm_same_slot_pairs.
  - apply check_timetable_conflict_spec.
Qed.

(** C1 as stated fails on two courses whose time-slot strings are both the
    empty string: the strings are equal, yet no triple is emitted and the
    pairwise check reports no collision. *)
Lemma equal_empty_slots_not_reported :
  equal_slot_pairs [algebra; logic] = [("Algebra", "Logic", "")]
  /\ get_all_timetable_conflicts [algebra; logic] = []
  /\ ~ Permutation (get_all_timetable_conflicts [algebra; logic])
         (equal_slot_pairs [algebra; logic])
  /\ equal_slot_names [algebra] logic = ["Algebra"]
  /\ check_timetable_conflict [algebra] logic = (false, []).
Proof.
  repeat split; try reflexivity.
  intros H. apply Permutation_nil in H. discriminate H.
Qed.

(** C10.  Unscheduled courses are invisible to the conflict detector:
    [check_timetable_conflict] returns [(False, [])] when the enrolled list
    is empty and when the candidate's [class_time] is missing or empty;
    [get_all_timetable_conflicts] returns what it returns on the list with
    the unscheduled courses removed, and every triple it emits carries a
    non-empty slot shared by the two named courses. *)
Theorem unscheduled_courses_invisible :
  forall (enrolled course_list : list CourseDict) (new_course : CourseDict)
         (name : option string),
    check_timetable_conflict [] new_course = (false, [])
    /\ check_timetable_conflict enrolled (mkCourseDict None name) = (false, [])
    /\ check_timetable_conflict enrolled (mkCourseDict (Some "") name)
       = (false, [])
    /\ get_all_timetable_conflicts course_list
       = get_all_timetable_conflicts (filter scheduled course_list)
    /\ (forall a b t,
           In (a, b, t) (get_all_timetable_conflicts course_list) ->
           t <> "" /\ In a (names_at t course_list)
           /\ In b (names_at t course_list)).
Proof.
  intros enrolled course_list new_course name. repeat split.
  - now destruct enrolled.
  - now destruct enrolled.
  - unfold get_all_timetable_conflicts.
    now rewrite <- group_by_time_scheduled_only.
  - now apply (conflicts_slot_scheduled course_list a b t).
  - now apply (conflicts_slot_scheduled course_list a b t).
  - now apply (conflicts_slot_scheduled course_list a b t).
Qed.

End TimetableFacts.

(** ** Facts about the intent classifier *)

Module IntentFacts.
Import Intent.

Lemma label_known (i : Intent) : In (label i) known_labels.
Proof. destruct i; simpl; tauto. Qed.

(** C2.  The intent classifier is total: for every input text, [None] and
    the empty string included, and whatever the similarity test answers,
    [_analyze_query_intent] returns one intent label (every string
    operation it performs is defined on every string, so no call can
    raise), and for [None] and for the empty string the label is the
    default [course_recommendation]. *)
Theorem classifier_total_with_default :
  forall (similar : string -> string -> bool) (query : option string),
    (exists i : Intent,
        _analyze_query_intent similar query = i
        /\ In (label i) known_labels)
    /\ _analyze_query_intent similar None = course_recommendation
    /\ _analyze_query_intent similar (Some "") = course_recommendation.
Proof.
  intros similar query. split; [|split; reflexivity].
  exists (_analyze_query_intent similar query).
  split; [reflexivity|apply label_known].
Qed.

(** C3 (as amended).  A query that none of the rules of higher priority
    matches (greeting, specific-class preparation, program duration,
    attendance consequences, student issues, lecturer by substring or by
    fuzzy match, course-type explanation, general preparation), and whose
    text after abbreviation expansion has at most 3 words and contains an
    entry of the single-word or two-word topic vocabulary, is classified
    [general_info], whatever schedule, career, module or program cue it also
    carries. *)
Theorem short_topic_query_is_general_info :
  forall (similar : string -> string -> bool) (query : string),
    let q0 := Py.strip (Py.lower query) in
    let q := expand q0 in
    Py.truthy query = true ->
    is_greeting q0 = false ->
    Py.any_in how_are_you_keywords q0 = false ->
    Py.any_in specific_prep_keywords q = false ->
    Py.any_in duration_keywords q = false ->
    Py.any_in attendance_consequence_keywords q
    && Py.any_in attendance_domain_words q = false ->
    Py.any_in issues_keywords q = false ->
    Py.any_in lecturer_keywords q = false ->
    existsb (fun word => _fuzzy_match similar word lecturer_keywords)
      (Py.split q) = false ->
    Py.any_in explanation_keywords q
    && negb (Py.any_in attendance_failure_words q) = false ->
    Py.any_in prep_keywords q = false ->
    List.length (Py.split q) <= 3 ->
    Py.any_in single_word_topics q || Py.any_in two_word_topics q = true ->
    _analyze_query_intent similar (Some query) = general_info.
Proof.
  intros similar query q0 q Hq Hg Hh Hsp Hd Ha Hi Hl Hf He Hp Hw Ht.
  unfold _analyze_query_intent. rewrite Hq.
  change (negb true) with false. cbv beta iota zeta.
  change (Py.strip (Py.lower query)) with q0. rewrite Hg, Hh.
  change (expand q0) with q.
  rewrite Hsp, Hd, Ha, Hi, Hl, Hf, He, Hp, Ht.
  apply Nat.leb_le in Hw. rewrite Hw. reflexivity.
Qed.

(** The terse query "ml evening" carries a schedule cue and is still a
    topic query. *)
Lemma short_topic_query_ml_evening :
  _analyze_query_intent Difflib.ratio_ge_075 (Some "ml evening")
  = general_info.
Proof.
  apply (short_topic_query_is_general_info Difflib.ratio_ge_075 "ml evening").
  - vm_compute; reflexivity.
  - vm_compute; reflexivity.
  - vm_compute; reflexivity.
  - vm_compute; reflexivity.
  - vm_compute; reflexivity.
  - vm_compute; reflexivity.
  - vm_compute; reflexivity.
  - vm_compute; reflexivity.
  - vm_compute; reflexivity.
  - vm_compute; reflexivity.
  - vm_compute; reflexivity.
  - vm_compute. apply le_n.
  - vm_compute; reflexivity.
Defined.

(** C3 as stated fails: "hello ml" expands to three words and contains
    "machine learning", and is a greeting; "ml lecturer" and "data year"
    are short topic queries classified by the lecturer and the duration
    rule. *)
Lemma short_topic_query_overridden :
  (forall similar, _analyze_query_intent similar (Some "hello ml") = greeting)
  /\ List.length (Py.split (expand (Py.strip (Py.lower "hello ml")))) = 3
  /\ Py.any_in two_word_topics (expand (Py.strip (Py.lower "hello ml")))
     = true
  /\ (forall similar,
         _analyze_query_intent similar (Some "ml lecturer") = lecturer_info)
  /\ List.length (Py.split (expand (Py.strip (Py.lower "ml lecturer")))) = 3
  /\ Py.any_in two_word_topics (expand (Py.strip (Py.lower "ml lecturer")))
     = true
  /\ (forall similar,
         _analyze_query_intent similar (Some "data year") = program_duration)
  /\ List.length (Py.split (expand (Py.strip (Py.lower "data year")))) = 2
  /\ Py.any_in single_word_topics (expand (Py.strip (Py.lower "data year")))
     = true.
Proof.
  split; [intros similar; vm_compute; reflexivity|].
  split; [vm_compute; reflexivity|].
  split; [vm_compute; reflexivity|].
  split; [intros similar; vm_compute; reflexivity|].
  split; [vm_compute; reflexivity|].
  split; [vm_compute; reflexivity|].
  split; [intros similar; vm_compute; reflexivity|].
  split; vm_compute; reflexivity.
Qed.


(** Every supported greeting phrase is classified [greeting], whatever
    the similarity test answers. *)
Lemma greeting_phrases_are_greetings :
  forall similar : string -> string -> bool,
    Forall (fun phrase =>
              _analyze_query_intent similar (Some phrase) = greeting)
      (greeting_keywords ++ how_are_you_keywords).
Proof.
  intros similar. repeat constructor; vm_compute; reflexivity.
Qed.

(** The terse query "ml" is a topic query, and preparation wording
    wins over lecturer wording. *)
Lemma classified_examples :
  classify_intent (Some "ml") = general_info
  /\ classify_intent
       (Some "what should I prepare for before Professor Smith's class")
     = specific_class_preparation.
Proof. split; vm_compute; reflexivity. Qed.

End IntentFacts.

(** ** Facts about the relevance scorer *)

Module ScorerFacts.
Import Exn Frame Scorer Examples.

Lemma score_before_type_ignores_type ty course major career_goal
    experience_level program query :
  score_before_type (set_course_type ty course) major career_goal
    experience_level program query
  = score_before_type course major career_goal experience_level program
      query.
Proof. reflexivity. Qed.

(** C4.  Course-type score monotonicity: for course records that differ
    only in [course_type], and any fixed major, career goal, experience
    level, program and query, the type contributes exactly 7, 4 and 2 to
    the score of the mandatory, the secondary and the audit record, so
    score(mandatory) > score(secondary) > score(audit). *)
Theorem course_type_score_monotone :
  forall (course : CourseRecord)
         (major career_goal experience_level program : string)
         (query : option string),
    let score ty :=
      score_course (set_course_type (Some ty) course) major career_goal
        experience_level program query in
    let base :=
      score_before_type course major career_goal experience_level program
        query in
    score "mandatory" = base + 7
    /\ score "secondary" = base + 4
    /\ score "audit" = base + 2
    /\ score "audit" < score "secondary"
    /\ score "secondary" < score "mandatory".
Proof.
  intros course major career_goal experience_level program query score base.
  unfold score, score_course, base.
  rewrite !score_before_type_ignores_type.
  change (type_priority (set_course_type (Some "mandatory") course)) with 7.
  change (type_priority (set_course_type (Some "secondary") course)) with 4.
  change (type_priority (set_course_type (Some "audit") course)) with 2.
  repeat split; lia.
Qed.

(** *** The loop and the sort *)

Lemma got_same (df : DataFrame) (c : CourseRecord) :
  has_column "course_name" df = true ->
  has_column "course_description" df = true ->
  has_column "category" df = true ->
  got df c = c.
Proof.
  intros Hn Hd Hc. unfold got. rewrite Hn, Hd, Hc. now destruct c.
Qed.


Lemma scores_of_raise courses major career_goal experience_level program
    query (c : CourseRecord) (l : list CourseRecord) (e : exn) :
  subscripts courses query = Raise e ->
  scores_of courses major career_goal experience_level program query
    (c :: l) = Raise e.
Proof. intros Hread. cbn [scores_of]. now rewrite Hread. Qed.





(** With a row to score, a table without the [category] column, or with a
    query and without the [course_name] or the [course_description]
    column, makes [_score_courses] raise [KeyError]. *)
Lemma score_courses_raises sort_values courses major career_goal
    experience_level program query e :
  rows courses <> [] ->
  subscripts courses query = Raise e ->
  _score_courses sort_values courses major career_goal experience_level
    program query = Raise e.
Proof.
  intros Hrows Hread. unfold _score_courses.
  destruct (rows courses) as [|c l]; [contradiction|].
  now rewrite (scores_of_raise _ _ _ _ _ _ _ _ _ Hread).
Qed.

Section InsertionSort.

Variable goes_before : nat -> nat -> bool.
Hypothesis before_ge : forall x y, goes_before x y = true -> y <= x.
Hypothesis after_le : forall x y, goes_before x y = false -> x <= y.

Lemma insert_row_perm x l : Permutation (x :: l) (insert_row goes_before x l).
Proof.
  induction l as [|y r IH]; simpl; [apply Permutation_refl|].
  destruct (goes_before (score_of x) (score_of y)); [apply Permutation_refl|].
  rewrite perm_swap. now constructor.
Qed.

Lemma insert_row_sorted x l :
  StronglySorted (fun a b => score_of b <= score_of a) l ->
  StronglySorted (fun a b => score_of b <= score_of a)
    (insert_row goes_before x l).
Proof.
  induction l as [|y r IH]; simpl; intros Hs.
  - repeat constructor.
  - inversion Hs as [|? ? Hr Hy]; subst.
    destruct (goes_before (score_of x) (score_of y)) eqn:Hc.
    + constructor; [assumption|].
      apply before_ge in Hc. constructor; [assumption|].
      eapply Forall_impl; [|exact Hy]. simpl. intros a Ha. lia.
    + constructor; [now apply IH|].
      apply after_le in Hc.
      eapply Permutation_Forall; [apply insert_row_perm|].
      constructor; assumption.
Qed.

Lemma insertion_sort_sorts :
  sorts_descending (fold_right (insert_row goes_before) []).
Proof.
  intros l. induction l as [|x l [IHp IHs]]; simpl.
  - split; constructor.
  - split.
    + rewrite <- insert_row_perm. now constructor.
    + now apply insert_row_sorted.
Qed.

End InsertionSort.

Lemma stable_sort_desc_sorts : sorts_descending stable_sort_desc.
Proof.
  apply insertion_sort_sorts; intros x y H.
  - now apply Nat.leb_le in H.
  - apply Nat.leb_gt in H. lia.
Qed.

End ScorerFacts.
(** ** Facts about the schedule synthesizer *)

Module ScheduleFacts.
Import Exn Frame Schedule Examples.

(** *** Composition does not depend on the clock *)

Lemma composition_append_module ms1 ms2 name cs d1 d2 desc n :
  map composition ms1 = map composition ms2 ->
  map composition (append_module ms1 name cs d1 desc n)
  = map composition (append_module ms2 name cs d2 desc n).
Proof.
  intros H. destruct cs as [|c cs]; simpl; [assumption|].
  rewrite !map_app, H. reflexivity.
Qed.

Lemma block_of_three (m s a : outcome (list CourseRecord)) ms1 ms2 name d1 d2
    desc n :
  map composition ms1 = map composition ms2 ->
  fmap (map composition)
    (m' <- m ;; s' <- s ;; a' <- a ;;
     Ok (append_module ms1 name (m' ++ s' ++ a') d1 desc n))
  = fmap (map composition)
      (m' <- m ;; s' <- s ;; a' <- a ;;
       Ok (append_module ms2 name (m' ++ s' ++ a') d2 desc n)).
Proof.
  intros H. destruct m, s, a; simpl; try reflexivity.
  f_equal. now apply composition_append_module.
Qed.

Lemma block_of_two (s a : outcome (list CourseRecord)) ms1 ms2 name d1 d2
    desc n :
  map composition ms1 = map composition ms2 ->
  fmap (map composition)
    (s' <- s ;; a' <- a ;; Ok (append_module ms1 name (s' ++ a') d1 desc n))
  = fmap (map composition)
      (s' <- s ;; a' <- a ;;
       Ok (append_module ms2 name (s' ++ a') d2 desc n)).
Proof.
  intros H. destruct s, a; simpl; try reflexivity.
  f_equal. now apply composition_append_module.
Qed.

Lemma block_of_one (s : outcome (list CourseRecord)) ms1 ms2 name d1 d2
    desc n :
  map composition ms1 = map composition ms2 ->
  fmap (map composition)
    (s' <- s ;; Ok (append_module ms1 name s' d1 desc n))
  = fmap (map composition)
      (s' <- s ;; Ok (append_module ms2 name s' d2 desc n)).
Proof.
  intros H. destruct s; simpl; try reflexivity.
  f_equal. now apply composition_append_module.
Qed.

Lemma unchanged_modules (ms1 ms2 : list ModuleDict) :
  map composition ms1 = map composition ms2 ->
  fmap (map composition) (Ok ms1) = fmap (map composition) (Ok ms2).
Proof. intros H. simpl. now f_equal. Qed.

Section TwoClocks.

Variables now1 now2 : Z.
Variable pools : Pools.
Variable major : string.

Ltac block shape :=
  intros ms1 ms2 H;
  match goal with
  | |- fmap _ (?f _ _ _ _) = _ => unfold f
  end;
  cbv zeta;
  match goal with
  | |- context [if ?c then _ else _] => destruct c
  end; [now apply shape | now apply unchanged_modules].

Lemma module_1_composition : forall ms1 ms2,
  map composition ms1 = map composition ms2 ->
  fmap (map composition) (module_1 now1 pools major ms1)
  = fmap (map composition) (module_1 now2 pools major ms2).
Proof. block block_of_three. Qed.

Lemma module_2_composition : forall ms1 ms2,
  map composition ms1 = map composition ms2 ->
  fmap (map composition) (module_2 now1 pools major ms1)
  = fmap (map composition) (module_2 now2 pools major ms2).
Proof. block block_of_three. Qed.

Lemma module_3_composition : forall ms1 ms2,
  map composition ms1 = map composition ms2 ->
  fmap (map composition) (module_3 now1 pools major ms1)
  = fmap (map composition) (module_3 now2 pools major ms2).
Proof. block block_of_three. Qed.

Lemma module_4_composition : forall ms1 ms2,
  map composition ms1 = map composition ms2 ->
  fmap (map composition) (module_4 now1 pools major ms1)
  = fmap (map composition) (module_4 now2 pools major ms2).
Proof. block block_of_three. Qed.

Lemma module_5_composition : forall ms1 ms2,
  map composition ms1 = map composition ms2 ->
  fmap (map composition) (module_5 now1 pools major ms1)
  = fmap (map composition) (module_5 now2 pools major ms2).
Proof. block block_of_two. Qed.

Lemma module_6_composition : forall ms1 ms2,
  map composition ms1 = map composition ms2 ->
  fmap (map composition) (module_6 now1 pools major ms1)
  = fmap (map composition) (module_6 now2 pools major ms2).
Proof. block block_of_two. Qed.

Lemma module_7_composition : forall ms1 ms2,
  map composition ms1 = map composition ms2 ->
  fmap (map composition) (module_7 now1 pools major ms1)
  = fmap (map composition) (module_7 now2 pools major ms2).
Proof. block block_of_one. Qed.

(** Two computations that agree on the composition so far still agree
    after a step that preserves the agreement. *)
Lemma bind_composition (m1 m2 : outcome (list ModuleDict))
    (k1 k2 : list ModuleDict -> outcome (list ModuleDict)) :
  fmap (map composition) m1 = fmap (map composition) m2 ->
  (forall ms1 ms2,
      map composition ms1 = map composition ms2 ->
      fmap (map composition) (k1 ms1) = fmap (map composition) (k2 ms2)) ->
  fmap (map composition) (bind m1 k1) = fmap (map composition) (bind m2 k2).
Proof.
  intros Hm Hk. destruct m1 as [a1|e1], m2 as [a2|e2]; simpl in *;
    try discriminate; try assumption.
  apply Hk. now inversion Hm.
Qed.

Lemma build_modules_composition :
  fmap (map composition) (build_modules now1 pools major)
  = fmap (map composition) (build_modules now2 pools major).
Proof.
  unfold build_modules.
  repeat (apply bind_composition; [|intros ? ? ?]).
  - now apply module_1_composition.
  - now apply module_2_composition.
  - now apply module_3_composition.
  - now apply module_4_composition.
  - now apply module_5_composition.
  - now apply module_6_composition.
  - now apply module_7_composition.
Qed.

End TwoClocks.

Lemma take_modules_composition limit ms1 ms2 :
  map composition ms1 = map composition ms2 ->
  map composition (take_modules limit ms1)
  = map composition (take_modules limit ms2).
Proof.
  intros H. unfold take_modules.
  assert (Hlen : List.length ms1 = List.length ms2).
  { rewrite <- (length_map composition ms1), H. apply length_map. }
  rewrite Hlen. destruct (0 <=? limit)%Z; rewrite <- !firstn_map, H;
    reflexivity.
Qed.

(** C6.  Schedule determinism: with the hash of the running process and the
    seeded pandas shuffle fixed, two calls of [generate_smart_schedule] with
    the same profile, enrolled and completed lists produce modules with the
    same names, numbers, courses in the same order with the same slots,
    credit sums and descriptions, whatever the wall clock says at either
    call; a call that raises does so at both.  The shuffle takes its seed
    from [hash(major)] alone. *)
Theorem schedule_composition_deterministic :
  forall (str_hash : string -> Z)
         (sample : Z -> list CourseRecord -> list CourseRecord)
         (regex_ok : string -> bool) (regex_search : string -> string -> bool)
         (now1 now2 : Z) (courses_df : option DataFrame)
         (student_profile : Student.Profile)
         (enrolled_courses completed_courses : list string)
         (limit_modules : Z),
    fmap (map composition)
      (generate_smart_schedule str_hash sample regex_ok regex_search now1
         courses_df student_profile enrolled_courses completed_courses
         limit_modules)
    = fmap (map composition)
        (generate_smart_schedule str_hash sample regex_ok regex_search now2
           courses_df student_profile enrolled_courses completed_courses
           limit_modules).
Proof.
  intros. unfold generate_smart_schedule.
  destruct courses_df as [df|]; [|reflexivity].
  destruct (empty df); [reflexivity|].
  destruct (build_pools _ _ _ _ _ _ _ _) as [pools|e]; [|reflexivity].
  cbn [bind].
  pose proof (build_modules_composition now1 now2 pools
                (Py.get_or (Student.major student_profile)
                   "Computer Science")) as H.
  destruct (build_modules now1 pools _) as [ms1|e1],
           (build_modules now2 pools _) as [ms2|e2];
    simpl in H |- *; try discriminate; try assumption.
  f_equal. apply take_modules_composition. now inversion H.
Qed.


(** *** The fallback of the primary pool *)

Lemma two_rows_shuffled (sample : Z -> list CourseRecord -> list CourseRecord)
    (seed : Z) (a b : CourseRecord) :
  (forall seed l, Permutation l (sample seed l)) ->
  sample seed [a; b] = [a; b] \/ sample seed [a; b] = [b; a].
Proof.
  intros H. specialize (H seed [a; b]).
  apply Permutation_length_2_inv in H. destruct H; auto.
Qed.

(** C7 (the code at the failing input).  When no course of the table
    matches the major, the primary pool falls
    back to the whole table while the complementary pool keeps every
    course: whatever the shuffle, the schedule of the two art courses for a
    student of computer science has two modules, the first lists a course
    twice, and the course of the second is in the first as well. *)
Theorem primary_fallback_reuses_a_course :
  forall (str_hash : string -> Z)
         (sample : Z -> list CourseRecord -> list CourseRecord) (now : Z),
    (forall seed l, Permutation l (sample seed l)) ->
    exists m1 m2 id,
      generate_smart_schedule str_hash sample PlainRegex.regex_ok
        PlainRegex.regex_search now (Some art_table) cs_student [] [] 4
      = Ok [m1; m2]
      /\ In id (module_ids m1) /\ In id (module_ids m2)
      /\ ~ NoDup (module_ids m1).
Proof.
  intros str_hash sample now Hperm.
  pose proof (two_rows_shuffled sample
                (str_hash "Computer Science" mod 100)%Z painting sculpture
                Hperm) as H1.
  pose proof (two_rows_shuffled sample
                (str_hash "Computer Science" mod 100 + 1)%Z painting
                sculpture Hperm) as H2.
  unfold generate_smart_schedule.
  change (empty art_table) with false. cbv iota.
  unfold build_pools.
  cbv -[Z.modulo Z.add build_modules take_modules] in *.
  destruct H1 as [E1|E1], H2 as [E2|E2]; rewrite E1, E2;
    cbv -[Z.modulo Z.add Z.mul]; do 3 eexists;
    (split; [reflexivity|]); apply and_comm;
    (split;
     [split; [left; reflexivity|];
      intros Hnd; apply NoDup_cons_iff in Hnd; destruct Hnd as [Hn Hnd];
      try (apply Hn; simpl; tauto);
      apply NoDup_cons_iff in Hnd; destruct Hnd as [Hn' _];
      apply Hn'; simpl; tauto
     |]); simpl; tauto.
Qed.

Lemma primary_fallback_reuses_a_course_unshuffled :
  exists m1 m2 id,
    generate_smart_schedule (fun _ => 0%Z) (fun _ l => l)
      PlainRegex.regex_ok PlainRegex.regex_search 0 (Some art_table)
      cs_student [] [] 4
    = Ok [m1; m2]
    /\ In id (module_ids m1) /\ In id (module_ids m2)
    /\ ~ NoDup (module_ids m1).
Proof.
  apply (primary_fallback_reuses_a_course (fun _ => 0%Z) (fun _ l => l) 0%Z).
  intros seed l. apply Permutation_refl.
Defined.

(** *** The second module *)

(** With 5 or 6 courses in the secondary pool the second block reads
    a position past the end of the pool and raises [IndexError]. *)
Lemma module_2_index_error now pools major modules :
  List.length (secondary pools) = 5 \/ List.length (secondary pools) = 6 ->
  module_2 now pools major modules = Raise IndexError.
Proof.
  intros H. unfold module_2. cbv zeta.
  assert (Hm :
    exists m,
      (if (2 <=? List.length (mandatory pools))%nat
       then ilocs (mandatory pools) [1] else Ok []) = Ok m).
  { destruct (mandatory pools) as [|a [|b r]]; simpl; eauto. }
  destruct Hm as [m Hm]. rewrite Hm.
  destruct (secondary pools) as [|s0 [|s1 [|s2 [|s3 [|s4 [|s5 [|s6 r]]]]]]];
    simpl in H; try (exfalso; lia); rewrite orb_true_r; reflexivity.
Qed.

(** *** The empty table *)

(** On an empty table (no row, or no column) and on a table that was
    never loaded, [generate_smart_schedule] returns the empty list of
    modules. *)
Lemma schedule_of_empty_table str_hash sample regex_ok regex_search now
    courses_df student_profile enrolled_courses completed_courses
    limit_modules :
  courses_df = None
  \/ (exists df, courses_df = Some df /\ empty df = true) ->
  generate_smart_schedule str_hash sample regex_ok regex_search now courses_df
    student_profile enrolled_courses completed_courses limit_modules
  = Ok [].
Proof.
  intros [->|[df [-> Hempty]]]; unfold generate_smart_schedule;
    [reflexivity|]. now rewrite Hempty.
Qed.


Lemma module_2_index_error_five_courses :
  module_2 0
    (mkPools art_table [] [painting; sculpture; painting; sculpture; painting]
       [])
    "Computer Science" []
  = Raise IndexError.
Proof. apply module_2_index_error. left. reflexivity. Defined.

Lemma schedule_of_empty_frame :
  generate_smart_schedule (fun _ => 0%Z) (fun _ l => l) PlainRegex.regex_ok
    PlainRegex.regex_search 0 (Some empty_frame) cs_student [] [] 4
  = Ok [].
Proof.
  apply schedule_of_empty_table. right. exists empty_frame.
  split; reflexivity.
Defined.

(** The list of enrolled courses is not read: enrolled courses stay in
    the pools. *)
Lemma schedule_ignores_enrolled str_hash sample regex_ok regex_search now
    courses_df student_profile (enrolled1 enrolled2 : list string)
    completed_courses limit_modules :
  generate_smart_schedule str_hash sample regex_ok regex_search now courses_df
    student_profile enrolled1 completed_courses limit_modules
  = generate_smart_schedule str_hash sample regex_ok regex_search now
      courses_df student_profile enrolled2 completed_courses limit_modules.
Proof. reflexivity. Qed.

End ScheduleFacts.
(** ** Facts about the intent handlers *)

Module HandlersFacts.
Import Exn Frame Handlers Recommend Dispatch Examples.
Local Open Scope string_scope.

(** *** Substrings of a concatenation *)

Lemma startswith_append (s t : string) : Py.startswith (s ++ t) s = true.
Proof.
  induction s as [|c s IH]; simpl; [now destruct t|].
  now rewrite Ascii.eqb_refl, IH.
Qed.

Lemma startswith_append_l (needle s t : string) :
  Py.startswith s needle = true -> Py.startswith (s ++ t) needle = true.
Proof.
  revert s. induction needle as [|c needle IH]; intros s H;
    [now destruct (s ++ t)|].
  destruct s as [|d s]; simpl in *; [discriminate|].
  apply andb_true_iff in H. destruct H as [Hc Hs].
  now rewrite Hc, (IH s Hs).
Qed.

Lemma contains_append_l (needle s t : string) :
  Py.contains needle s = true -> Py.contains needle (s ++ t) = true.
Proof.
  induction s as [|c s IH]; simpl; intros H.
  - rewrite orb_false_r in H. destruct needle; [|discriminate].
    now destruct t.
  - apply orb_true_iff in H. destruct H as [H|H].
    + apply (startswith_append_l needle (String c s) t) in H.
      simpl in H. rewrite H. reflexivity.
    + rewrite (IH H). apply orb_true_r.
Qed.

Lemma contains_append_r (needle s t : string) :
  Py.contains needle t = true -> Py.contains needle (s ++ t) = true.
Proof.
  intros H. induction s as [|c s IH]; simpl; [assumption|].
  rewrite IH. apply orb_true_r.
Qed.

Lemma contains_prefix (needle t : string) :
  Py.contains needle (needle ++ t) = true.
Proof.
  destruct needle as [|c needle]; [now destruct t|].
  change (Py.contains (String c needle) (String c needle ++ t))
    with (Py.startswith (String c needle ++ t) (String c needle)
          || Py.contains (String c needle) (needle ++ t)).
  now rewrite startswith_append.
Qed.

(** *** The unknown-query handler *)

Lemma unknown_query_result picks query major career_goal :
  result_courses (_handle_unknown_query picks query major career_goal)
  = empty_frame
  /\ Py.contains alternatives_heading
       (result_response
          (_handle_unknown_query picks query major career_goal)) = true.
Proof.
  split; [reflexivity|].
  unfold _handle_unknown_query, result_response. cbv zeta.
  cbn [snd].
  apply contains_append_l.
  destruct (Py.truthy career_goal);
    repeat (first [ apply contains_prefix
                  | apply contains_append_r; apply contains_prefix
                  | apply contains_append_l ]).
Qed.


Lemma first_char_append (s t : string) (c : ascii) :
  first_char s = Some c -> first_char (s ++ t) = Some c.
Proof. destruct s; simpl; [discriminate|trivial]. Qed.

(** The narrative of the unknown-query handler starts with the first
    character of one of the four openings. *)
Lemma unknown_query_first_char picks query major career_goal :
  let c :=
    first_char
      (result_response
         (_handle_unknown_query picks query major career_goal)) in
  c = Some "T"%char \/ c = Some "I"%char \/ c = Some "G"%char.
Proof.
  cbv zeta.
  unfold _handle_unknown_query, result_response, choice. cbv zeta.
  cbn [snd].
  assert (Hopen :
    forall rest : list string,
      let c := first_char
                 (nth (opening picks)
                    (("Thanks for asking about **" ++ dq ++ show_query query
                      ++ dq ++ "**! ")
                     :: ("Interesting question about **" ++ dq
                         ++ show_query query ++ dq ++ "**! ")
                     :: ("I appreciate you asking about **" ++ dq
                         ++ show_query query ++ dq ++ "**. ")
                     :: ("Good question! You asked about **" ++ dq
                         ++ show_query query ++ dq ++ "**. ") :: nil)
                    ("Thanks for asking about **" ++ dq ++ show_query query
                     ++ dq ++ "**! ")) in
      c = Some "T"%char \/ c = Some "I"%char \/ c = Some "G"%char).
  { intros _. cbv zeta. destruct (opening picks) as [|[|[|[|[|n]]]]]; cbn; auto. }
  specialize (Hopen nil). cbv zeta in Hopen. cbn [hd].
  destruct Hopen as [H|[H|H]]; [left|right; left|right; right];
    apply first_char_append;
    (destruct (Py.truthy career_goal);
     repeat (apply first_char_append); exact H).
Qed.

(** *** The two handlers that fall back *)

Lemma empty_false_rows (df : DataFrame) : empty df = false -> rows df <> [].
Proof. unfold empty. destruct (rows df); [discriminate|]. intros _ H. discriminate. Qed.

Section Fallback.

Variable regex_ok : string -> bool.
Variable regex_search : string -> string -> bool.
Variable sort_values : list CourseRecord -> list CourseRecord.

Lemma recommend_at_least_three self query major career_goal experience_level
    program limit result :
  recommend regex_ok regex_search sort_values self query major career_goal
    experience_level program limit = Ok (Some result) ->
  3 <= List.length (rows (result_courses result)).
Proof.
  unfold recommend.
  destruct (column self "category") as [df|e]; [|discriminate].
  cbn [bind].
  destruct (compiled regex_ok major) as [u|e]; [|discriminate].
  cbn [bind]. cbv zeta.
  destruct (empty (if empty (select _ df) then df else select _ df));
    [discriminate|].
  destruct (Scorer._score_courses _ _ _ _ _ _ _) as [scored|e];
    [|discriminate].
  cbn [bind].
  destruct (empty (head limit _) || _)%bool eqn:Hfew; [discriminate|].
  destruct (_generate_detailed_explanations _ _ _ _ _ _ _) as [ex|e];
    [|discriminate].
  cbn [bind].
  destruct (_generate_conversational_response _ _ _ _ _ _) as [text|e];
    [|discriminate].
  cbn [bind]. intros H. inversion H; subst result. unfold result_courses.
  cbn [fst]. apply orb_false_iff in Hfew. destruct Hfew as [_ Hlen].
  apply Nat.ltb_ge in Hlen. exact Hlen.
Qed.

Lemma course_recommendation_falls_back picks self query major career_goal
    experience_level program limit :
  let result :=
    _handle_course_recommendation regex_ok regex_search sort_values picks
      self query major career_goal experience_level program limit in
  result = _handle_unknown_query picks query major career_goal
  \/ 3 <= List.length (rows (result_courses result)).
Proof.
  cbv zeta. unfold _handle_course_recommendation.
  destruct (recommend _ _ _ _ _ _ _ _ _ _) as [[result|]|e] eqn:E.
  - right. eapply recommend_at_least_three, E.
  - now left.
  - now left.
Qed.

(** The courses that the [try] block of [_handle_general_info_query] finds
    are rows of a table with a [course_name] column. *)
Lemma search_courses_named self search_query target_major relevant :
  search_courses regex_ok regex_search self search_query target_major
  = Ok relevant ->
  has_column "course_name" relevant = true.
Proof.
  unfold search_courses, column.
  destruct (courses_df self) as [df|]; [|discriminate].
  destruct (has_column "course_name" df) eqn:Hname; [|discriminate].
  cbn [bind].
  destruct (compiled regex_ok search_query); [|discriminate]. cbn [bind].
  destruct (has_column "course_description" df); [|discriminate].
  cbn [bind].
  destruct (has_column "skills_covered_str" df); [|discriminate].
  cbn [bind].
  destruct (has_column "category" df); [|discriminate].
  cbn [bind]. cbv zeta.
  destruct target_major as [target|].
  - destruct (negb (empty (select _ df))).
    + destruct (compiled regex_ok target); [|discriminate]. cbn [bind].
      destruct (negb (empty (select _ (select _ df))));
        intros H; injection H as <-; exact Hname.
    + cbn [bind]. intros H; injection H as <-; exact Hname.
  - cbn [bind]. intros H; injection H as <-; exact Hname.
Qed.

Lemma general_info_falls_back picks self query major career_goal
    experience_level program :
  let informed :=
    _handle_general_info_query regex_ok regex_search picks self query major
      career_goal experience_level program in
  informed = Ok (_handle_unknown_query picks (Some query) major career_goal)
  \/ (exists result,
         informed = Ok result /\ rows (result_courses result) <> [])
  \/ informed = Raise (KeyError "course_id").
Proof.
  cbv zeta. unfold _handle_general_info_query. cbv zeta.
  destruct (String.length _ <? 3)%nat; [now left|].
  destruct (negb _ && negb _ && _)%bool; [now left|].
  destruct (search_courses _ _ _ _ _) as [relevant|e] eqn:Hsearch;
    [|now left].
  destruct (empty relevant) eqn:Hempty; [now left|].
  right. apply search_courses_named in Hsearch.
  pose proof (empty_false_rows _ Hempty) as Hrows.
  unfold each_row_reads, item.
  destruct (rows relevant) as [|c l] eqn:Hl; [contradiction|].
  cbn [fold_left bind].
  destruct (has_column "course_id" relevant); cbn [bind]; [|now right].
  rewrite Hsearch. cbn [bind].
  left. destruct (fold_left _ _ _) as [explanations response].
  eexists. split; [reflexivity|].
  unfold result_courses. cbn [fst]. now rewrite Hl.
Qed.

End Fallback.

(** The empty-result fallback as the two handlers that have it apply it.
    [_handle_course_recommendation] returns the result of
    [_handle_unknown_query] unless at least 3 courses remain after ranking
    and truncation, and [_handle_general_info_query] returns it unless its
    course subset is non-empty (it then returns the subset, or raises
    [KeyError] on a table without a [course_id] column); the result of
    [_handle_unknown_query] is an empty course table with a narrative that
    carries the alternatives section. *)
Lemma fallback_of_general_info_and_recommendation :
  forall (regex_ok : string -> bool) (regex_search : string -> string -> bool)
         (sort_values : list CourseRecord -> list CourseRecord)
         (picks : Picks) (self : Advisor) (query : option string)
         (topic : string)
         (major career_goal experience_level program : string) (limit : nat),
    let unknown q := _handle_unknown_query picks q major career_goal in
    let recommended :=
      _handle_course_recommendation regex_ok regex_search sort_values picks
        self query major career_goal experience_level program limit in
    let informed :=
      _handle_general_info_query regex_ok regex_search picks self topic
        major career_goal experience_level program in
    (recommended = unknown query
     \/ 3 <= List.length (rows (result_courses recommended)))
    /\ (informed = Ok (unknown (Some topic))
        \/ (exists result,
               informed = Ok result /\ rows (result_courses result) <> [])
        \/ informed = Raise (KeyError "course_id"))
    /\ result_courses (unknown query) = empty_frame
    /\ Py.contains alternatives_heading (result_response (unknown query))
       = true.
Proof.
  intros. split; [apply course_recommendation_falls_back|].
  split; [apply general_info_falls_back|].
  apply unknown_query_result.
Qed.

(** C8 (the code at the failing input).  The query "career advice" of a
    student of computer science is classified [career_guidance] and
    reaches [_handle_career_query].  On a table of two art courses no
    course matches the career keywords and none matches the major: the
    handler, which has no branch for an empty subset, returns an empty
    course table and no explanation with a narrative of its own, and
    [get_intelligent_recommendations] returns that; it is not the result
    of [_handle_unknown_query], whatever the phrases drawn. *)
Theorem career_handler_returns_empty_subset :
  forall (sort_values : list CourseRecord -> list CourseRecord)
         (handlers : RuleHandlers) (picks : Picks) (limit : nat),
    Intent.classify_intent (Some "career advice") = Intent.career_guidance
    /\ exists result,
         get_intelligent_recommendations Difflib.ratio_ge_075
           PlainRegex.regex_ok PlainRegex.regex_search sort_values handlers
           no_llm picks art_advisor cs_student (Some "career advice") limit
         = Ok result
         /\ _handle_career_query PlainRegex.regex_ok
              PlainRegex.regex_search art_advisor "career advice"
              "Computer Science" "" "Beginner"
            = Ok result
         /\ rows (result_courses result) = []
         /\ snd (fst result) = []
         /\ (forall picks' query major career_goal,
                result
                <> _handle_unknown_query picks' query major career_goal).
Proof.
  intros. split; [vm_compute; reflexivity|].
  eexists. split; [|split; [vm_compute; reflexivity|]].
  - unfold get_intelligent_recommendations, rule_based, no_llm.
    cbn [Py.truthy].
    change (Intent._analyze_query_intent Difflib.ratio_ge_075
              (Some "career advice"))
      with (Intent.classify_intent (Some "career advice")).
    replace (Intent.classify_intent (Some "career advice"))
      with Intent.career_guidance by (vm_compute; reflexivity).
    vm_compute. reflexivity.
  - split; [reflexivity|]. split; [reflexivity|].
    intros picks' query major career_goal H.
    pose proof (unknown_query_first_char picks' query major career_goal)
      as Hc.
    cbv zeta in Hc. rewrite <- H in Hc. unfold result_response in Hc.
    cbn [snd first_char String.append] in Hc.
    destruct Hc as [Hc|[Hc|Hc]]; discriminate Hc.
Qed.

(** C9 (the code at the failing input).  The career query reaches the
    career handler, which reads a column of the table before anything else:
    on the empty table without columns, [pd.DataFrame()], the entry point
    [get_intelligent_recommendations] raises [KeyError], and on a table that
    was never loaded it raises [TypeError]. *)
Theorem empty_table_recommendation_raises :
  forall (regex_ok : string -> bool) (regex_search : string -> string -> bool)
         (sort_values : list CourseRecord -> list CourseRecord)
         (handlers : RuleHandlers) (picks : Picks) (limit : nat),
    Intent.classify_intent (Some "career advice") = Intent.career_guidance
    /\ empty empty_frame = true
    /\ get_intelligent_recommendations Difflib.ratio_ge_075 regex_ok
         regex_search sort_values handlers no_llm picks empty_advisor
         cs_student (Some "career advice") limit
       = Raise (KeyError "skills_covered_str")
    /\ get_intelligent_recommendations Difflib.ratio_ge_075 regex_ok
         regex_search sort_values handlers no_llm picks (mkAdvisor None [])
         cs_student (Some "career advice") limit
       = Raise TypeError.
Proof.
  intros. split; [vm_compute; reflexivity|]. split; [reflexivity|].
  unfold get_intelligent_recommendations, rule_based, no_llm.
  cbn [Py.truthy].
  change (Intent._analyze_query_intent Difflib.ratio_ge_075
            (Some "career advice"))
    with (Intent.classify_intent (Some "career advice")).
  replace (Intent.classify_intent (Some "career advice"))
    with Intent.career_guidance by (vm_compute; reflexivity).
  split; reflexivity.
Qed.

End HandlersFacts.
(** ** Invariants of the schedule synthesizer *)

Module ScheduleInvariants.
Import Exn Frame Schedule Examples.

Lemma incl_firstn {A : Type} (n : nat) (l : list A) : incl (firstn n l) l.
Proof.
  intros x Hx. rewrite <- (firstn_skipn n l). apply in_or_app. now left.
Qed.

Lemma has_type_exclusive t1 t2 c :
  has_type t1 c = true -> has_type t2 c = true -> t1 = t2.
Proof.
  unfold has_type. destruct (course_type c) as [t|]; [|discriminate].
  intros H1 H2. apply String.eqb_eq in H1, H2. congruence.
Qed.

Lemma filter_other_type t1 t2 l :
  t1 <> t2 ->
  Forall (fun c => has_type t1 c = true) l -> filter (has_type t2) l = [].
Proof.
  intros Hne H. induction H as [|c l Hc _ IH]; simpl; [reflexivity|].
  destruct (has_type t2 c) eqn:H2; [|assumption].
  exfalso. apply Hne. eapply has_type_exclusive; eassumption.
Qed.

Lemma filter_length_le {A : Type} (f : A -> bool) (l : list A) :
  List.length (filter f l) <= List.length l.
Proof.
  induction l as [|a l IH]; simpl; [lia|]. destruct (f a); simpl; lia.
Qed.

Lemma assign_slots_courses idx l : map course (assign_slots idx l) = l.
Proof.
  revert idx. induction l as [|c l IH]; intros idx; simpl; [reflexivity|].
  now rewrite IH.
Qed.

(** *** What a block picks *)

Lemma ilocs_picks (l : list CourseRecord) positions :
  picks_from l (List.length positions) (ilocs l positions).
Proof.
  induction positions as [|i rest IH]; intros r H; simpl in H.
  - inversion H; subst. split; [intros x []|simpl; lia].
  - unfold iloc in H. destruct (nth_error l i) as [a|] eqn:Hi;
      [|discriminate]. cbn [bind] in H.
    destruct (ilocs l rest) as [r'|e]; [|discriminate]. cbn [bind] in H.
    inversion H; subst. destruct (IH r' eq_refl) as [Hin Hlen].
    split; [|simpl; lia].
    intros x [<-|Hx]; [eapply nth_error_In; eassumption|now apply Hin].
Qed.

Lemma picks_from_weaken l n n' e :
  n <= n' -> picks_from l n e -> picks_from l n' e.
Proof. intros Hle H r Hr. destruct (H r Hr). split; [assumption|lia]. Qed.

Lemma picks_nothing l n : picks_from l n (Ok []).
Proof.
  intros r H. inversion H; subst. split; [intros x []|simpl; lia].
Qed.

Lemma picks_from_if l n (c : bool) e1 e2 :
  picks_from l n e1 -> picks_from l n e2 ->
  picks_from l n (if c then e1 else e2).
Proof. now destruct c. Qed.

Ltac picks :=
  repeat apply picks_from_if;
  first [ apply picks_nothing
        | eapply picks_from_weaken; [|apply ilocs_picks]; simpl; lia ].

(** *** The invariant of a module *)

Section Pools.

Variable pools : Pools.
Hypothesis mandatory_typed :
  Forall (fun c => has_type "mandatory" c = true) (mandatory pools).
Hypothesis secondary_typed :
  Forall (fun c => has_type "secondary" c = true) (secondary pools).
Hypothesis audit_typed :
  Forall (fun c => has_type "audit" c = true) (audit pools).

Lemma typed_incl t l r :
  Forall (fun c => has_type t c = true) l -> incl r l ->
  Forall (fun c => has_type t c = true) r.
Proof.
  intros Hl Hr. apply Forall_forall. intros x Hx.
  rewrite Forall_forall in Hl. apply Hl, Hr, Hx.
Qed.

Lemma created_module_ok name m s a d desc n :
  incl m (mandatory pools) -> List.length m <= 1 ->
  incl s (secondary pools) -> List.length s <= 4 ->
  incl a (audit pools) -> List.length a <= 1 ->
  module_ok pools (_create_module name (m ++ s ++ a) d desc n).
Proof.
  intros Hm Lm Hs Ls Ha La. unfold module_ok, _create_module. cbn [courses].
  rewrite assign_slots_courses.
  pose proof (typed_incl _ _ _ mandatory_typed Hm) as Tm.
  pose proof (typed_incl _ _ _ secondary_typed Hs) as Ts.
  pose proof (typed_incl _ _ _ audit_typed Ha) as Ta.
  split.
  - intros x Hx. apply in_app_or in Hx. destruct Hx as [Hx|Hx].
    + apply in_or_app. left. now apply Hm.
    + apply in_app_or in Hx. apply in_or_app. right. apply in_or_app.
      destruct Hx as [Hx|Hx]; [left; now apply Hs|right; now apply Ha].
  - rewrite !filter_app, !length_app.
    rewrite (filter_other_type "secondary" "mandatory" s) by (discriminate || assumption).
    rewrite (filter_other_type "audit" "mandatory" a) by (discriminate || assumption).
    rewrite (filter_other_type "mandatory" "secondary" m) by (discriminate || assumption).
    rewrite (filter_other_type "audit" "secondary" a) by (discriminate || assumption).
    rewrite (filter_other_type "mandatory" "audit" m) by (discriminate || assumption).
    rewrite (filter_other_type "secondary" "audit" s) by (discriminate || assumption).
    pose proof (filter_length_le (has_type "mandatory") m).
    pose proof (filter_length_le (has_type "secondary") s).
    pose proof (filter_length_le (has_type "audit") a).
    simpl. repeat split; lia.
Qed.

Lemma appended_module_ok ms name m s a d desc n :
  Forall (module_ok pools) ms ->
  incl m (mandatory pools) -> List.length m <= 1 ->
  incl s (secondary pools) -> List.length s <= 4 ->
  incl a (audit pools) -> List.length a <= 1 ->
  Forall (module_ok pools) (append_module ms name (m ++ s ++ a) d desc n).
Proof.
  intros Hms Hm Lm Hs Ls Ha La. unfold append_module.
  destruct (m ++ s ++ a) eqn:E; [assumption|]. rewrite <- E.
  apply Forall_app. split; [assumption|]. constructor; [|constructor].
  now apply created_module_ok.
Qed.

Lemma block_ok (m s a : outcome (list CourseRecord)) ms name d desc n ms' :
  Forall (module_ok pools) ms ->
  picks_from (mandatory pools) 1 m ->
  picks_from (secondary pools) 4 s ->
  picks_from (audit pools) 1 a ->
  (m' <- m ;; s' <- s ;; a' <- a ;;
   Ok (append_module ms name (m' ++ s' ++ a') d desc n)) = Ok ms' ->
  Forall (module_ok pools) ms'.
Proof.
  intros Hms Pm Ps Pa H.
  destruct m as [m'|e]; [|discriminate]. cbn [bind] in H.
  destruct s as [s'|e]; [|discriminate]. cbn [bind] in H.
  destruct a as [a'|e]; [|discriminate]. cbn [bind] in H.
  inversion H; subst ms'.
  destruct (Pm m' eq_refl), (Ps s' eq_refl), (Pa a' eq_refl).
  now apply appended_module_ok.
Qed.

Lemma block_ok_two (s a : outcome (list CourseRecord)) ms name d desc n ms' :
  Forall (module_ok pools) ms ->
  picks_from (secondary pools) 4 s ->
  picks_from (audit pools) 1 a ->
  (s' <- s ;; a' <- a ;; Ok (append_module ms name (s' ++ a') d desc n))
  = Ok ms' ->
  Forall (module_ok pools) ms'.
Proof.
  intros Hms Ps Pa H.
  apply (block_ok (Ok []) s a ms name d desc n ms' Hms); try assumption.
  apply picks_nothing.
Qed.

Lemma block_ok_one (s : outcome (list CourseRecord)) ms name d desc n ms' :
  Forall (module_ok pools) ms ->
  picks_from (secondary pools) 4 s ->
  (s' <- s ;; Ok (append_module ms name s' d desc n)) = Ok ms' ->
  Forall (module_ok pools) ms'.
Proof.
  intros Hms Ps H.
  apply (block_ok (Ok []) s (Ok []) ms name d desc n ms' Hms);
    try assumption; try apply picks_nothing.
  destruct s as [s'|e]; [|discriminate]. cbn [bind] in *.
  now rewrite app_nil_r.
Qed.

Ltac block_step lemma :=
  intros ms ms' Hms H;
  match type of H with ?f _ _ _ _ = _ => unfold f in H end;
  cbv zeta in H;
  match type of H with
  | (if ?c then _ else _) = _ => destruct c
  end;
  [ eapply lemma; [exact Hms | .. | exact H]; picks
  | inversion H; subst; assumption ].

Variable now : Z.
Variable major : string.

Lemma module_1_ok : forall ms ms',
  Forall (module_ok pools) ms -> module_1 now pools major ms = Ok ms' ->
  Forall (module_ok pools) ms'.
Proof. block_step block_ok. Qed.

Lemma module_2_ok : forall ms ms',
  Forall (module_ok pools) ms -> module_2 now pools major ms = Ok ms' ->
  Forall (module_ok pools) ms'.
Proof. block_step block_ok. Qed.

Lemma module_3_ok : forall ms ms',
  Forall (module_ok pools) ms -> module_3 now pools major ms = Ok ms' ->
  Forall (module_ok pools) ms'.
Proof. block_step block_ok. Qed.

Lemma module_4_ok : forall ms ms',
  Forall (module_ok pools) ms -> module_4 now pools major ms = Ok ms' ->
  Forall (module_ok pools) ms'.
Proof. block_step block_ok. Qed.

Lemma module_5_ok : forall ms ms',
  Forall (module_ok pools) ms -> module_5 now pools major ms = Ok ms' ->
  Forall (module_ok pools) ms'.
Proof. block_step block_ok_two. Qed.

Lemma module_6_ok : forall ms ms',
  Forall (module_ok pools) ms -> module_6 now pools major ms = Ok ms' ->
  Forall (module_ok pools) ms'.
Proof. block_step block_ok_two. Qed.

Lemma module_7_ok : forall ms ms',
  Forall (module_ok pools) ms -> module_7 now pools major ms = Ok ms' ->
  Forall (module_ok pools) ms'.
Proof. block_step block_ok_one. Qed.

Lemma build_modules_ok ms :
  build_modules now pools major = Ok ms -> Forall (module_ok pools) ms.
Proof.
  unfold build_modules. intros H.
  destruct (module_1 now pools major []) as [m1|e] eqn:E1; [|discriminate].
  cbn [bind] in H.
  destruct (module_2 now pools major m1) as [m2|e] eqn:E2; [|discriminate].
  cbn [bind] in H.
  destruct (module_3 now pools major m2) as [m3|e] eqn:E3; [|discriminate].
  cbn [bind] in H.
  destruct (module_4 now pools major m3) as [m4|e] eqn:E4; [|discriminate].
  cbn [bind] in H.
  destruct (module_5 now pools major m4) as [m5|e] eqn:E5; [|discriminate].
  cbn [bind] in H.
  destruct (module_6 now pools major m5) as [m6|e] eqn:E6; [|discriminate].
  cbn [bind] in H.
  eapply module_7_ok; [|exact H].
  eapply module_6_ok; [|exact E6].
  eapply module_5_ok; [|exact E5].
  eapply module_4_ok; [|exact E4].
  eapply module_3_ok; [|exact E3].
  eapply module_2_ok; [|exact E2].
  eapply module_1_ok; [|exact E1].
  constructor.
Qed.

End Pools.


(** *** The pools *)

Lemma typed_firstn_filter t n (l : list CourseRecord) :
  Forall (fun c => has_type t c = true) (firstn n (filter (has_type t) l)).
Proof.
  apply Forall_forall. intros x Hx. apply incl_firstn in Hx.
  now apply filter_In in Hx.
Qed.

Lemma typed_filter t (l : list CourseRecord) :
  Forall (fun c => has_type t c = true) (filter (has_type t) l).
Proof. apply Forall_forall. intros x Hx. now apply filter_In in Hx. Qed.

Lemma separate_by_type_typed frames :
  let pools := separate_by_type frames in
  Forall (fun c => has_type "mandatory" c = true) (mandatory pools)
  /\ Forall (fun c => has_type "secondary" c = true) (secondary pools)
  /\ Forall (fun c => has_type "audit" c = true) (audit pools).
Proof.
  destruct frames as [major_courses other_courses].
  unfold separate_by_type. cbv zeta. cbn [rows].
  pose proof (typed_firstn_filter "mandatory" 10
                (firstn 10 (rows major_courses)
                 ++ firstn 10 (rows other_courses))) as HM.
  pose proof (typed_firstn_filter "secondary" 10
                (firstn 10 (rows major_courses)
                 ++ firstn 10 (rows other_courses))) as HS.
  pose proof (typed_firstn_filter "audit" 6
                (firstn 10 (rows major_courses)
                 ++ firstn 10 (rows other_courses))) as HA.
  destruct (firstn 10 (filter (has_type "mandatory") _)) as [|m M];
    destruct (firstn 10 (filter (has_type "secondary") _)) as [|s S];
    destruct (firstn 6 (filter (has_type "audit") _)) as [|a A];
    cbn [mandatory secondary audit]; repeat split;
    first [assumption | apply typed_filter].
Qed.

Section Preserved.

(** A property of rows that relabelling the course type keeps. *)
Variable Q : CourseRecord -> Prop.
Hypothesis Q_relabel : forall ty c, Q c -> Q (set_course_type ty c).

Lemma Q_map_relabel ty l :
  Forall Q l -> Forall Q (map (set_course_type ty) l).
Proof.
  intros H. induction H; simpl; constructor; auto.
Qed.

Lemma Q_set_type_between lo hi ty pos l :
  Forall Q l -> Forall Q (set_type_between lo hi ty pos l).
Proof.
  intros H. revert pos. induction H as [|c l Hc _ IH]; intros pos; simpl;
    constructor; [|apply IH].
  destruct ((lo <=? pos)%nat && (pos <? hi)%nat); auto.
Qed.

Lemma Q_redistribute l : Forall Q l -> Forall Q (redistribute l).
Proof.
  intros H. unfold redistribute. cbv zeta.
  destruct (0 <? List.length l)%nat; [|now apply Q_map_relabel].
  destruct (_ <? List.length l)%nat;
    repeat apply Q_set_type_between; now apply Q_map_relabel.
Qed.

Lemma Q_sublist (l r : list CourseRecord) :
  incl r l -> Forall Q l -> Forall Q r.
Proof.
  intros Hin H. apply Forall_forall. intros x Hx.
  rewrite Forall_forall in H. auto.
Qed.

Lemma Q_separate_by_type frames :
  Forall Q (rows (fst frames)) -> Forall Q (rows (snd frames)) ->
  let pools := separate_by_type frames in
  Forall Q (mandatory pools) /\ Forall Q (secondary pools)
  /\ Forall Q (audit pools).
Proof.
  destruct frames as [major_courses other_courses]. cbn [fst snd].
  intros Hm Ho. unfold separate_by_type. cbv zeta. cbn [rows].
  assert (Hall : Forall Q (firstn 10 (rows major_courses)
                           ++ firstn 10 (rows other_courses))).
  { apply Forall_app. split; eapply Q_sublist; try apply incl_firstn;
      assumption. }
  assert (Hpick : forall t n,
             Forall Q (firstn n (filter (has_type t)
                                   (firstn 10 (rows major_courses)
                                    ++ firstn 10 (rows other_courses))))).
  { intros t n. eapply Q_sublist; [|exact Hall].
    intros x Hx. apply incl_firstn in Hx. now apply filter_In in Hx. }
  pose proof (Hpick "mandatory" 10) as HM.
  pose proof (Hpick "secondary" 10) as HS.
  pose proof (Hpick "audit" 6) as HA.
  assert (Hre : forall t, Forall Q (filter (has_type t)
                                      (redistribute (rows major_courses)))).
  { intros t. eapply Q_sublist; [apply incl_filter|].
    now apply Q_redistribute. }
  destruct (firstn 10 (filter (has_type "mandatory") _)) as [|m M];
    destruct (firstn 10 (filter (has_type "secondary") _)) as [|s S];
    destruct (firstn 6 (filter (has_type "audit") _)) as [|a A];
    cbn [mandatory secondary audit]; repeat split;
    first [assumption | apply Hre].
Qed.

Lemma Q_shuffle_and_label str_hash sample major frames :
  (forall seed l, incl (sample seed l) l) ->
  Forall Q (rows (fst frames)) -> Forall Q (rows (snd frames)) ->
  Forall Q (rows (fst (shuffle_and_label str_hash sample major frames)))
  /\ Forall Q (rows (snd (shuffle_and_label str_hash sample major frames))).
Proof.
  destruct frames as [major_courses other_courses]. cbn [fst snd].
  intros Hsample Hm Ho. unfold shuffle_and_label. cbv zeta. cbn [fst snd].
  split.
  - cbn [rows]. apply Q_map_relabel. eapply Q_sublist; [apply Hsample|].
    assumption.
  - assert (Hs : Forall Q (sample (str_hash major mod 100 + 1)%Z
                             (rows other_courses)))
      by (eapply Q_sublist; [apply Hsample|assumption]).
    destruct (negb (empty _)); cbn [rows]; [|assumption].
    destruct (0 <? _)%nat;
      [apply Q_set_type_between|]; now apply Q_map_relabel.
Qed.

End Preserved.

Lemma drop_completed_rows completed frames frames' :
  drop_completed completed frames = Ok frames' ->
  Forall (fun c => not_completed completed c = true) (rows (fst frames'))
  /\ Forall (fun c => not_completed completed c = true) (rows (snd frames')).
Proof.
  destruct frames as [major_courses other_courses]. unfold drop_completed.
  destruct completed as [|id ids].
  - intros H. inversion H; subst. cbn [fst snd].
    split; apply Forall_forall; intros; reflexivity.
  - destruct (negb (has_column "course_id" major_courses)); [discriminate|].
    destruct (negb (has_column "course_id" other_courses)); [discriminate|].
    intros H. inversion H; subst. cbn [fst snd rows select].
    split; apply Forall_forall; intros x Hx; now apply filter_In in Hx.
Qed.

(** *** The schedule *)

Lemma take_modules_incl limit ms : incl (take_modules limit ms) ms.
Proof. unfold take_modules. destruct (0 <=? limit)%Z; apply incl_firstn. Qed.

(** X1.  Every module of a returned schedule holds at most 1 mandatory, at
    most 4 secondary and at most 1 audit course. *)
Theorem modules_within_type_caps :
  forall str_hash sample regex_ok regex_search now courses_df student_profile
         enrolled_courses completed_courses limit_modules modules,
    generate_smart_schedule str_hash sample regex_ok regex_search now
      courses_df student_profile enrolled_courses completed_courses
      limit_modules = Ok modules ->
    Forall within_caps modules.
Proof.
  intros until modules. unfold generate_smart_schedule. cbv zeta.
  destruct courses_df as [df|];
    [|intros H; inversion H; constructor].
  destruct (empty df); [intros H; inversion H; constructor|].
  unfold build_pools. cbv zeta.
  destruct (split_by_major _ _ _ _) as [f1|e]; [|discriminate].
  cbn [bind].
  destruct (drop_completed _ _) as [f2|e]; [|discriminate]. cbn [bind].
  destruct (build_modules _ _ _) as [ms|e] eqn:E; [|discriminate].
  cbn [bind]. intros H. inversion H; subst modules. clear H.
  destruct (separate_by_type_typed
              (shuffle_and_label str_hash sample
                 (Py.get_or (Student.major student_profile)
                    "Computer Science") f2)) as [Tm [Ts Ta]].
  pose proof (build_modules_ok _ Tm Ts Ta _ _ _ E) as Hok.
  apply Forall_forall. intros m Hm. apply take_modules_incl in Hm.
  rewrite Forall_forall in Hok. destruct (Hok m Hm) as [_ Hcaps].
  exact Hcaps.
Qed.

(** X2.  With a shuffle that returns rows of the table it is given, no
    module of a returned schedule holds a completed course. *)
Theorem modules_exclude_completed :
  forall str_hash sample regex_ok regex_search now courses_df student_profile
         enrolled_courses completed_courses limit_modules modules,
    (forall seed l, incl (sample seed l) l) ->
    generate_smart_schedule str_hash sample regex_ok regex_search now
      courses_df student_profile enrolled_courses completed_courses
      limit_modules = Ok modules ->
    forall m id,
      In m modules -> In id (module_ids m) -> ~ In id completed_courses.
Proof.
  intros until modules. intros Hsample. unfold generate_smart_schedule.
  cbv zeta.
  destruct courses_df as [df|];
    [|intros H; inversion H; intros m id []].
  destruct (empty df); [intros H; inversion H; intros m id []|].
  unfold build_pools. cbv zeta.
  destruct (split_by_major _ _ _ _) as [f1|e]; [|discriminate].
  cbn [bind].
  destruct (drop_completed _ _) as [f2|e] eqn:Ed; [|discriminate].
  cbn [bind].
  destruct (build_modules _ _ _) as [ms|e] eqn:E; [|discriminate].
  cbn [bind]. intros H. inversion H; subst modules. clear H.
  intros m id Hm Hid Hdone.
  set (major := Py.get_or (Student.major student_profile)
                  "Computer Science") in *.
  set (Q := fun c => not_completed completed_courses c = true).
  assert (Qr : forall ty c, Q c -> Q (set_course_type ty c))
    by (intros ty c Hc; exact Hc).
  destruct (drop_completed_rows _ _ _ Ed) as [Q1 Q2].
  destruct (Q_shuffle_and_label Q Qr str_hash sample major f2 Hsample Q1 Q2)
    as [Q3 Q4].
  destruct (Q_separate_by_type Q Qr _ Q3 Q4) as [Qm [Qs Qa]].
  destruct (separate_by_type_typed
              (shuffle_and_label str_hash sample major f2)) as [Tm [Ts Ta]].
  pose proof (build_modules_ok _ Tm Ts Ta _ _ _ E) as Hok.
  apply take_modules_incl in Hm. rewrite Forall_forall in Hok.
  destruct (Hok m Hm) as [Hincl _].
  unfold module_ids in Hid. apply in_map_iff in Hid.
  destruct Hid as [sc [Hsc Hin]].
  assert (Hrow : In (course sc) (map course (courses m)))
    by now apply in_map.
  apply Hincl in Hrow.
  assert (HQ : Q (course sc)).
  { rewrite !in_app_iff in Hrow. rewrite Forall_forall in Qm, Qs, Qa.
    destruct Hrow as [Hr|[Hr|Hr]]; auto. }
  unfold Q, not_completed in HQ. apply negb_true_iff in HQ.
  rewrite <- Hsc in Hdone.
  assert (Hex : existsb (String.eqb (course_id (course sc)))
                  completed_courses = true).
  { apply existsb_exists. exists (course_id (course sc)).
    split; [assumption|apply String.eqb_refl]. }
  congruence.
Qed.

Lemma modules_within_type_caps_catalogue :
  exists modules,
    generate_smart_schedule (fun _ => 0%Z) (fun _ l => l) PlainRegex.regex_ok
      PlainRegex.regex_search 0 (Some catalogue) cs_student [] ["ART-2"] 4
    = Ok modules
    /\ Forall within_caps modules.
Proof.
  eexists. split; [vm_compute; reflexivity|].
  apply (modules_within_type_caps (fun _ => 0%Z) (fun _ l => l)
           PlainRegex.regex_ok PlainRegex.regex_search 0%Z (Some catalogue)
           cs_student [] ["ART-2"] 4%Z).
  vm_compute. reflexivity.
Defined.

Lemma modules_exclude_completed_catalogue :
  exists modules,
    generate_smart_schedule (fun _ => 0%Z) (fun _ l => l) PlainRegex.regex_ok
      PlainRegex.regex_search 0 (Some catalogue) cs_student [] ["ART-2"] 4
    = Ok modules
    /\ modules <> []
    /\ forall m id,
         In m modules -> In id (module_ids m) -> ~ In id ["ART-2"].
Proof.
  eexists. split; [vm_compute; reflexivity|]. split; [discriminate|].
  apply (modules_exclude_completed (fun _ => 0%Z) (fun _ l => l)
           PlainRegex.regex_ok PlainRegex.regex_search 0%Z (Some catalogue)
           cs_student [] ["ART-2"] 4%Z).
  - intros seed l. apply incl_refl.
  - vm_compute. reflexivity.
Defined.

End ScheduleInvariants.
(** ** The shape of a schedule *)

Module ScheduleShape.
Import Exn Frame Schedule Blocks Examples.

(** *** Reading consecutive positions *)

Lemma skipn_nth_error {A : Type} (l : list A) n a :
  nth_error l n = Some a -> skipn n l = a :: skipn (S n) l.
Proof.
  revert l. induction n as [|n IH]; intros [|x l] H; try discriminate.
  - inversion H. reflexivity.
  - simpl in H. rewrite (IH l H) at 1. reflexivity.
Qed.

Lemma ilocs_seq_ok {A : Type} (l : list A) start k :
  start + k <= List.length l ->
  ilocs l (seq start k) = Ok (firstn k (skipn start l)).
Proof.
  revert start. induction k as [|k IH]; intros start H; [reflexivity|].
  simpl seq. simpl ilocs. unfold iloc.
  destruct (nth_error l start) as [a|] eqn:Ha.
  - cbn [bind]. rewrite IH by lia. cbn [bind].
    now rewrite (skipn_nth_error l start a Ha).
  - apply nth_error_None in Ha. lia.
Qed.

Lemma ilocs_seq_raise {A : Type} (l : list A) start k :
  List.length l < start + k -> 0 < k ->
  ilocs l (seq start k) = Raise IndexError.
Proof.
  revert start. induction k as [|k IH]; intros start H Hk; [lia|].
  simpl seq. simpl ilocs. unfold iloc.
  destruct (nth_error l start) as [a|] eqn:Ha; [|reflexivity].
  cbn [bind]. assert (Hlt : start < List.length l).
  { apply nth_error_Some. congruence. }
  rewrite IH by lia. reflexivity.
Qed.

Lemma ilocs_seq_segment {A : Type} (l : list A) start k r :
  ilocs l (seq start k) = Ok r -> r = firstn k (skipn start l).
Proof.
  intros H. destruct k as [|k]; [now inversion H|].
  destruct (le_lt_dec (start + S k) (List.length l)) as [Hle|Hlt].
  - rewrite ilocs_seq_ok in H by assumption. now inversion H.
  - rewrite ilocs_seq_raise in H by (assumption || lia). discriminate.
Qed.

(** *** What a block appends *)

Lemma reads_nothing {A : Type} (l : list A) start width :
  reads l start width (Ok []).
Proof. intros r H. inversion H. exists 0. split; [lia|reflexivity]. Qed.

Lemma reads_seq {A : Type} (l : list A) start width k :
  k <= width -> reads l start width (ilocs l (seq start k)).
Proof.
  intros Hk r H. exists k. split; [assumption|].
  now apply ilocs_seq_segment.
Qed.

Lemma reads_if {A : Type} (l : list A) start width (c : bool) e1 e2 :
  reads l start width e1 -> reads l start width e2 ->
  reads l start width (if c then e1 else e2).
Proof. now destruct c. Qed.

Ltac reads :=
  repeat apply reads_if;
  first [ apply reads_nothing
        | match goal with
          | |- reads ?l ?start ?width (ilocs ?l ?positions) =>
              let k := eval compute in (List.length positions) in
              apply (reads_seq l start width k); vm_compute; lia
          end ].

Lemma appended_by_block now pools j ms name m s a desc :
  block_runs pools j = true ->
  segment (mandatory pools) (j - 1) (mandatory_width j) m ->
  segment (secondary pools) (secondary_start j) (secondary_width j) s ->
  segment (audit pools) (j - 1) (audit_width j) a ->
  let ms' :=
    append_module ms name (m ++ s ++ a) (now + start_offset j) desc j in
  ms' = ms \/ exists md, made_by_block now pools j md /\ ms' = ms ++ [md].
Proof.
  intros Hruns Hm Hs Ha. cbv zeta. unfold append_module.
  destruct (m ++ s ++ a) eqn:E; [now left|]. rewrite <- E. right.
  eexists. split; [|reflexivity].
  exists name, desc, m, s, a. rewrite E. repeat split; try assumption.
  discriminate.
Qed.

Lemma block_of_three_shape now pools j (m s a : outcome (list CourseRecord))
    ms name d desc ms' :
  d = (now + start_offset j)%Z ->
  block_runs pools j = true ->
  reads (mandatory pools) (j - 1) (mandatory_width j) m ->
  reads (secondary pools) (secondary_start j) (secondary_width j) s ->
  reads (audit pools) (j - 1) (audit_width j) a ->
  (m' <- m ;; s' <- s ;; a' <- a ;;
   Ok (append_module ms name (m' ++ s' ++ a') d desc j)) = Ok ms' ->
  ms' = ms \/ exists md, made_by_block now pools j md /\ ms' = ms ++ [md].
Proof.
  intros -> Hruns Rm Rs Ra H.
  destruct m as [m'|e]; [|discriminate]. cbn [bind] in H.
  destruct s as [s'|e]; [|discriminate]. cbn [bind] in H.
  destruct a as [a'|e]; [|discriminate]. cbn [bind] in H.
  inversion H; subst ms'.
  apply appended_by_block; auto.
Qed.

Lemma block_of_two_shape now pools j (s a : outcome (list CourseRecord))
    ms name d desc ms' :
  d = (now + start_offset j)%Z ->
  block_runs pools j = true ->
  reads (secondary pools) (secondary_start j) (secondary_width j) s ->
  reads (audit pools) (j - 1) (audit_width j) a ->
  (s' <- s ;; a' <- a ;; Ok (append_module ms name (s' ++ a') d desc j))
  = Ok ms' ->
  ms' = ms \/ exists md, made_by_block now pools j md /\ ms' = ms ++ [md].
Proof.
  intros Hd Hruns Rs Ra H.
  apply (block_of_three_shape now pools j (Ok []) s a ms name d desc ms');
    try assumption.
  apply reads_nothing.
Qed.

Lemma block_of_one_shape now pools j (s : outcome (list CourseRecord))
    ms name d desc ms' :
  d = (now + start_offset j)%Z ->
  block_runs pools j = true ->
  reads (secondary pools) (secondary_start j) (secondary_width j) s ->
  (s' <- s ;; Ok (append_module ms name s' d desc j)) = Ok ms' ->
  ms' = ms \/ exists md, made_by_block now pools j md /\ ms' = ms ++ [md].
Proof.
  intros Hd Hruns Rs H.
  apply (block_of_three_shape now pools j (Ok []) s (Ok []) ms name d desc
           ms'); try assumption; try apply reads_nothing.
  destruct s as [s'|e]; [|discriminate]. cbn [bind] in *.
  now rewrite app_nil_r.
Qed.

Ltac block_shape lemma j :=
  let Hruns := fresh "Hruns" in
  intros ms ms' H;
  match type of H with ?f _ _ _ _ = _ => unfold f in H end;
  cbv zeta in H;
  match type of H with
  | (if ?c then _ else _) = _ => destruct c eqn:Hruns
  end;
  [ eapply (lemma _ _ j); [| exact Hruns | .. | exact H];
    [ first [ reflexivity
            | unfold start_offset; simpl nth; now rewrite Z.add_0_r ]
    | reads .. ]
  | left; now inversion H ].

Section Shape.

Variable now : Z.
Variable pools : Pools.
Variable major : string.

Lemma module_1_shape : forall ms ms',
  module_1 now pools major ms = Ok ms' ->
  ms' = ms \/ exists md, made_by_block now pools 1 md /\ ms' = ms ++ [md].
Proof. block_shape block_of_three_shape 1. Qed.

Lemma module_2_shape : forall ms ms',
  module_2 now pools major ms = Ok ms' ->
  ms' = ms \/ exists md, made_by_block now pools 2 md /\ ms' = ms ++ [md].
Proof. block_shape block_of_three_shape 2. Qed.

Lemma module_3_shape : forall ms ms',
  module_3 now pools major ms = Ok ms' ->
  ms' = ms \/ exists md, made_by_block now pools 3 md /\ ms' = ms ++ [md].
Proof. block_shape block_of_three_shape 3. Qed.

Lemma module_4_shape : forall ms ms',
  module_4 now pools major ms = Ok ms' ->
  ms' = ms \/ exists md, made_by_block now pools 4 md /\ ms' = ms ++ [md].
Proof. block_shape block_of_three_shape 4. Qed.

Lemma module_5_shape : forall ms ms',
  module_5 now pools major ms = Ok ms' ->
  ms' = ms \/ exists md, made_by_block now pools 5 md /\ ms' = ms ++ [md].
Proof. block_shape block_of_two_shape 5. Qed.

Lemma module_6_shape : forall ms ms',
  module_6 now pools major ms = Ok ms' ->
  ms' = ms \/ exists md, made_by_block now pools 6 md /\ ms' = ms ++ [md].
Proof. block_shape block_of_two_shape 6. Qed.

Lemma module_7_shape : forall ms ms',
  module_7 now pools major ms = Ok ms' ->
  ms' = ms \/ exists md, made_by_block now pools 7 md /\ ms' = ms ++ [md].
Proof. block_shape block_of_one_shape 7. Qed.

Lemma sorted_snoc (js : list nat) j :
  StronglySorted lt js -> Forall (fun i => i < j) js ->
  StronglySorted lt (js ++ [j]).
Proof.
  intros Hs Hlt. induction Hs as [|i js Hs IH Hi]; simpl.
  - constructor; constructor.
  - inversion Hlt; subst. constructor; [now apply IH|].
    apply Forall_app. split; [assumption|]. now constructor.
Qed.

Lemma extend_blocks js ms j ms' :
  made_by_blocks now pools js ms -> Forall (fun i => i < j) js ->
  1 <= j <= 7 ->
  (ms' = ms \/ exists md, made_by_block now pools j md /\ ms' = ms ++ [md]) ->
  exists js', made_by_blocks now pools js' ms'
              /\ Forall (fun i => i < S j) js'.
Proof.
  intros [Hmade [Hsorted Hrange]] Hlt Hj [->|[md [Hmd ->]]].
  - exists js. split; [split; [|split]; assumption|].
    eapply Forall_impl; [|exact Hlt]. simpl. intros. lia.
  - exists (js ++ [j]). split; [split; [|split]|].
    + apply Forall2_app; [assumption|]. constructor; [assumption|constructor].
    + now apply sorted_snoc.
    + apply Forall_app. split; [assumption|]. constructor; [lia|constructor].
    + apply Forall_app. split.
      * eapply Forall_impl; [|exact Hlt]. simpl. intros. lia.
      * constructor; [lia|constructor].
Qed.

(** Whenever the blocks return, the modules are made by an increasing
    selection of the seven blocks. *)
Lemma build_modules_shape ms :
  build_modules now pools major = Ok ms ->
  exists js, made_by_blocks now pools js ms.
Proof.
  unfold build_modules. intros H.
  destruct (module_1 now pools major []) as [m1|e] eqn:E1; [|discriminate].
  cbn [bind] in H.
  destruct (module_2 now pools major m1) as [m2|e] eqn:E2; [|discriminate].
  cbn [bind] in H.
  destruct (module_3 now pools major m2) as [m3|e] eqn:E3; [|discriminate].
  cbn [bind] in H.
  destruct (module_4 now pools major m3) as [m4|e] eqn:E4; [|discriminate].
  cbn [bind] in H.
  destruct (module_5 now pools major m4) as [m5|e] eqn:E5; [|discriminate].
  cbn [bind] in H.
  destruct (module_6 now pools major m5) as [m6|e] eqn:E6; [|discriminate].
  cbn [bind] in H.
  assert (H0 : made_by_blocks now pools [] [])
    by (split; [|split]; constructor).
  destruct (extend_blocks [] [] 1 m1 H0 (Forall_nil _) ltac:(lia)
              (module_1_shape _ _ E1)) as [j1 [M1 L1]].
  destruct (extend_blocks j1 m1 2 m2 M1 L1 ltac:(lia)
              (module_2_shape _ _ E2)) as [j2 [M2 L2]].
  destruct (extend_blocks j2 m2 3 m3 M2 L2 ltac:(lia)
              (module_3_shape _ _ E3)) as [j3 [M3 L3]].
  destruct (extend_blocks j3 m3 4 m4 M3 L3 ltac:(lia)
              (module_4_shape _ _ E4)) as [j4 [M4 L4]].
  destruct (extend_blocks j4 m4 5 m5 M4 L4 ltac:(lia)
              (module_5_shape _ _ E5)) as [j5 [M5 L5]].
  destruct (extend_blocks j5 m5 6 m6 M5 L5 ltac:(lia)
              (module_6_shape _ _ E6)) as [j6 [M6 L6]].
  destruct (extend_blocks j6 m6 7 ms M6 L6 ltac:(lia)
              (module_7_shape _ _ H)) as [j7 [M7 L7]].
  now exists j7.
Qed.

End Shape.

End ScheduleShape.
(** ** From the table to the pools *)

Module SchedulePipeline.
Import Exn Frame Schedule Blocks Examples.
Import ScheduleInvariants ScheduleShape.

(** *** The stages of [generate_smart_schedule] *)

Lemma schedule_stages str_hash sample regex_ok regex_search now courses_df
    student_profile enrolled_courses completed_courses limit_modules modules :
  generate_smart_schedule str_hash sample regex_ok regex_search now
    courses_df student_profile enrolled_courses completed_courses
    limit_modules = Ok modules ->
  modules = []
  \/ exists df f1 f2 ms,
       courses_df = Some df /\ empty df = false
       /\ split_by_major regex_ok regex_search
            (eligible df student_profile) (major_of student_profile) = Ok f1
       /\ drop_completed completed_courses f1 = Ok f2
       /\ build_modules now
            (separate_by_type
               (shuffle_and_label str_hash sample (major_of student_profile)
                  f2))
            (major_of student_profile) = Ok ms
       /\ modules = take_modules limit_modules ms.
Proof.
  unfold generate_smart_schedule. cbv zeta.
  destruct courses_df as [df|]; [|intros H; inversion H; now left].
  destruct (empty df) eqn:Hempty; [intros H; inversion H; now left|].
  unfold build_pools. cbv zeta.
  fold (major_of student_profile) (level_of student_profile).
  fold (eligible df student_profile).
  destruct (split_by_major _ _ _ _) as [f1|e] eqn:E1; [|discriminate].
  cbn [bind].
  destruct (drop_completed _ _) as [f2|e] eqn:E2; [|discriminate].
  cbn [bind].
  destruct (build_modules _ _ _) as [ms|e] eqn:E3; [|discriminate].
  cbn [bind]. intros H. inversion H. right.
  exists df, f1, f2, ms. repeat split; assumption.
Qed.

(** *** The two pools *)

Lemma split_by_major_rows regex_ok regex_search early major f1 :
  split_by_major regex_ok regex_search early major = Ok f1 ->
  incl (rows (fst f1)) (rows early) /\ incl (rows (snd f1)) (rows early)
  /\ (rows (snd f1) = [] \/ columns (snd f1) <> []).
Proof.
  unfold split_by_major.
  destruct (has_column "category" early) eqn:Hcat.
  - destruct (regex_ok major); [|discriminate]. cbn [bind fst snd].
    intros H. inversion H; subst f1. cbn [fst snd]. split; [|split].
    + destruct (empty _); [apply incl_refl|]. cbn [select rows].
      apply incl_filter.
    + cbn [select rows]. apply incl_filter.
    + right. cbn [select columns]. intros Hc. unfold has_column in Hcat.
      rewrite Hc in Hcat. discriminate.
  - cbn [bind fst snd]. intros H. inversion H; subst f1. cbn [fst snd].
    split; [|split].
    + destruct (empty early); apply incl_refl.
    + intros x [].
    + now left.
Qed.

Lemma drop_completed_incl completed f1 f2 :
  drop_completed completed f1 = Ok f2 ->
  incl (rows (fst f2)) (rows (fst f1)) /\ incl (rows (snd f2)) (rows (snd f1))
  /\ columns (snd f2) = columns (snd f1).
Proof.
  destruct f1 as [major_courses other_courses]. unfold drop_completed.
  destruct completed as [|id ids].
  - intros H. inversion H; subst. cbn [fst snd].
    repeat split; apply incl_refl.
  - destruct (negb (has_column "course_id" major_courses)); [discriminate|].
    destruct (negb (has_column "course_id" other_courses)); [discriminate|].
    intros H. inversion H; subst. cbn [fst snd rows select columns].
    repeat split; apply incl_filter.
Qed.

Lemma label_other_nil : label_other [] = [].
Proof. reflexivity. Qed.

Lemma shuffle_and_label_major str_hash sample major f :
  rows (fst (shuffle_and_label str_hash sample major f))
  = map (set_course_type (Some "mandatory"))
      (sample (str_hash major mod 100)%Z (rows (fst f))).
Proof. destruct f. reflexivity. Qed.

Lemma shuffle_and_label_other str_hash sample major f :
  (forall seed, sample seed [] = []) ->
  rows (snd f) = [] \/ columns (snd f) <> [] ->
  rows (snd (shuffle_and_label str_hash sample major f))
  = label_other (sample (str_hash major mod 100 + 1)%Z (rows (snd f))).
Proof.
  destruct f as [major_courses other_courses]. cbn [fst snd].
  intros Hnil Hwf. unfold shuffle_and_label. cbv zeta. cbn [snd].
  destruct (empty _) eqn:Hempty; cbn [negb rows]; [|reflexivity].
  unfold empty in Hempty. cbn [rows columns] in Hempty.
  destruct (sample _ (rows other_courses)) as [|c l] eqn:Hs;
    [reflexivity|].
  destruct (columns other_courses) eqn:Hc; [|discriminate].
  destruct Hwf as [Hr|Hr]; [|now elim Hr].
  rewrite Hr, Hnil in Hs. discriminate.
Qed.

Lemma sample_nil (sample : Z -> list CourseRecord -> list CourseRecord) :
  (forall seed l, Permutation l (sample seed l)) ->
  forall seed, sample seed [] = [].
Proof. intros H seed. now apply Permutation_nil. Qed.

(** *** The labels *)

Lemma set_type_between_tail lo ty pos l :
  set_type_between lo (pos + List.length l) ty pos l
  = firstn (lo - pos) l
    ++ map (set_course_type (Some ty)) (skipn (lo - pos) l).
Proof.
  revert pos. induction l as [|c r IH]; intros pos.
  - now rewrite firstn_nil, skipn_nil.
  - cbn [set_type_between List.length].
    replace (pos + S (List.length r)) with (S pos + List.length r) by lia.
    rewrite IH.
    replace (pos <? S pos + List.length r)%nat with true
      by (symmetry; apply Nat.ltb_lt; lia).
    rewrite andb_true_r. destruct (lo <=? pos)%nat eqn:Hlo.
    + apply Nat.leb_le in Hlo.
      replace (lo - pos) with 0 by lia. replace (lo - S pos) with 0 by lia.
      reflexivity.
    + apply Nat.leb_gt in Hlo.
      replace (lo - pos) with (S (lo - S pos)) by lia. reflexivity.
Qed.

(** The first rows of the complementary pool are secondary, the last
    [int(0.3 * total)] audit. *)
Lemma label_other_split l :
  let n := List.length l in
  label_other l
  = map (set_course_type (Some "secondary")) (firstn (n - n * 3 / 10) l)
    ++ map (set_course_type (Some "audit")) (skipn (n - n * 3 / 10) l).
Proof.
  cbv zeta. unfold label_other. cbv zeta.
  set (n := List.length l). set (a := n * 3 / 10).
  destruct (0 <? a)%nat eqn:Ha.
  - pose proof (set_type_between_tail (n - a) "audit" 0
                  (map (set_course_type (Some "secondary")) l)) as H.
    rewrite length_map in H. cbn [Nat.add] in H. fold n in H. rewrite H.
    rewrite Nat.sub_0_r, firstn_map, skipn_map, map_map. reflexivity.
  - apply Nat.ltb_ge in Ha. replace (n - a) with n by lia. unfold n.
    now rewrite firstn_all, skipn_all, app_nil_r.
Qed.

Lemma has_type_set ty ty' c :
  has_type ty (set_course_type (Some ty') c) = String.eqb ty' ty.
Proof. reflexivity. Qed.

Lemma filter_relabelled ty ty' (l : list CourseRecord) :
  filter (has_type ty) (map (set_course_type (Some ty')) l)
  = if String.eqb ty' ty then map (set_course_type (Some ty')) l else [].
Proof.
  induction l as [|c l IH]; simpl; [now destruct (String.eqb ty' ty)|].
  rewrite IH, has_type_set. now destruct (String.eqb ty' ty).
Qed.

Lemma firstn_app_le {A : Type} n (l1 l2 : list A) :
  firstn n (l1 ++ l2) = firstn n l1 ++ firstn (n - List.length l1) l2.
Proof. apply firstn_app. Qed.

(** The pools, read off the two shuffled tables. *)
Lemma pools_sources str_hash sample major f :
  (forall seed l, Permutation l (sample seed l)) ->
  rows (snd f) = [] \/ columns (snd f) <> [] ->
  let major_rows := sample (str_hash major mod 100)%Z (rows (fst f)) in
  let other_rows := sample (str_hash major mod 100 + 1)%Z (rows (snd f)) in
  let n := List.length other_rows in
  let pools :=
    separate_by_type (shuffle_and_label str_hash sample major f) in
  mandatory pools
  = map (set_course_type (Some "mandatory")) (firstn 10 major_rows)
  /\ secondary pools
     = map (set_course_type (Some "secondary"))
         (firstn (Nat.min 10 (n - n * 3 / 10)) other_rows)
  /\ audit pools
     = map (set_course_type (Some "audit"))
         (firstn 6 (firstn (10 - (n - n * 3 / 10))
                      (skipn (n - n * 3 / 10) other_rows)))
  /\ rows (all_courses pools)
     = firstn 10 (map (set_course_type (Some "mandatory")) major_rows)
       ++ firstn 10 (label_other other_rows).
Proof.
  intros Hperm Hwf. cbv zeta.
  pose proof (shuffle_and_label_major str_hash sample major f) as HM.
  pose proof (shuffle_and_label_other str_hash sample major f
                (sample_nil sample Hperm) Hwf) as HO.
  destruct (shuffle_and_label str_hash sample major f) as [M O].
  cbn [fst snd] in HM, HO.
  set (major_rows := sample (str_hash major mod 100)%Z (rows (fst f))) in *.
  set (other_rows := sample (str_hash major mod 100 + 1)%Z (rows (snd f)))
    in *.
  clearbody major_rows other_rows.
  set (n := List.length other_rows).
  unfold separate_by_type. cbv zeta. cbn [rows].
  rewrite HM, HO.
  assert (Hother : firstn 10 (label_other other_rows)
                   = map (set_course_type (Some "secondary"))
                       (firstn (Nat.min 10 (n - n * 3 / 10)) other_rows)
                     ++ map (set_course_type (Some "audit"))
                          (firstn (10 - (n - n * 3 / 10))
                             (skipn (n - n * 3 / 10) other_rows))).
  { rewrite (label_other_split other_rows). cbv zeta. fold n.
    rewrite firstn_app, length_map, length_firstn, !firstn_map.
    rewrite firstn_firstn. fold n.
    assert (Hle : n - n * 3 / 10 <= n) by lia.
    replace (Nat.min (n - n * 3 / 10) n) with (n - n * 3 / 10) by lia.
    reflexivity. }
  assert (EM : firstn 10
                 (filter (has_type "mandatory")
                    (firstn 10
                       (map (set_course_type (Some "mandatory")) major_rows)
                     ++ firstn 10 (label_other other_rows)))
               = map (set_course_type (Some "mandatory"))
                   (firstn 10 major_rows)).
  { rewrite Hother, !filter_app, firstn_map, !filter_relabelled.
    cbn [String.eqb Ascii.eqb Bool.eqb]. rewrite !app_nil_r.
    now rewrite firstn_map, firstn_firstn. }
  assert (ES : firstn 10
                 (filter (has_type "secondary")
                    (firstn 10
                       (map (set_course_type (Some "mandatory")) major_rows)
                     ++ firstn 10 (label_other other_rows)))
               = map (set_course_type (Some "secondary"))
                   (firstn (Nat.min 10 (n - n * 3 / 10)) other_rows)).
  { rewrite Hother, !filter_app, firstn_map, !filter_relabelled.
    cbn [String.eqb Ascii.eqb Bool.eqb]. rewrite app_nil_r. cbn [app].
    rewrite firstn_map, firstn_firstn.
    do 2 f_equal. lia. }
  assert (EA : firstn 6
                 (filter (has_type "audit")
                    (firstn 10
                       (map (set_course_type (Some "mandatory")) major_rows)
                     ++ firstn 10 (label_other other_rows)))
               = map (set_course_type (Some "audit"))
                   (firstn 6 (firstn (10 - (n - n * 3 / 10))
                                (skipn (n - n * 3 / 10) other_rows)))).
  { rewrite Hother, !filter_app, firstn_map, !filter_relabelled.
    cbn [String.eqb Ascii.eqb Bool.eqb]. cbn [app].
    now rewrite firstn_map. }
  rewrite EM, ES, EA.
  destruct (map (set_course_type (Some "mandatory")) (firstn 10 major_rows))
    as [|m M'] eqn:Em; [|repeat split; reflexivity].
  destruct (map (set_course_type (Some "secondary")) _) as [|s S'];
    [|repeat split; reflexivity].
  destruct (map (set_course_type (Some "audit")) (firstn 6 _)) as [|a A'];
    [|repeat split; reflexivity].
  assert (Hrows : major_rows = []).
  { destruct major_rows; [reflexivity|discriminate]. }
  rewrite Hrows. repeat split; reflexivity.
Qed.

End SchedulePipeline.
(** ** Size, calendar and slots of a schedule *)

Module ScheduleCalendar.
Import Exn Frame Schedule Blocks Examples.
Import ScheduleInvariants ScheduleShape SchedulePipeline.

(** *** The pools are capped *)

Lemma pools_caps str_hash sample major f :
  let pools := separate_by_type (shuffle_and_label str_hash sample major f) in
  List.length (mandatory pools) <= 10
  /\ List.length (secondary pools) <= 10
  /\ List.length (audit pools) <= 6.
Proof.
  cbv zeta.
  pose proof (shuffle_and_label_major str_hash sample major f) as HM.
  destruct (shuffle_and_label str_hash sample major f) as [M O].
  cbn [fst] in HM. unfold separate_by_type. cbv zeta. cbn [rows].
  set (every := firstn 10 (rows M) ++ firstn 10 (rows O)).
  pose proof (firstn_le_length 10 (filter (has_type "mandatory") every))
    as L1.
  pose proof (firstn_le_length 10 (filter (has_type "secondary") every))
    as L2.
  pose proof (firstn_le_length 6 (filter (has_type "audit") every)) as L3.
  destruct (firstn 10 (filter (has_type "mandatory") every)) as [|m ms]
    eqn:E1; [|cbn [mandatory secondary audit]; lia].
  destruct (firstn 10 (filter (has_type "secondary") every)) as [|s ss];
    [|cbn [mandatory secondary audit]; lia].
  destruct (firstn 6 (filter (has_type "audit") every)) as [|a aa];
    [|cbn [mandatory secondary audit]; lia].
  destruct (sample (str_hash major mod 100)%Z (rows (fst f))) as [|x xs].
  - rewrite HM. cbn. lia.
  - exfalso. unfold every in E1. rewrite HM in E1. cbn [map firstn app] in E1.
    cbn [filter] in E1. rewrite has_type_set in E1.
    cbn [String.eqb Ascii.eqb Bool.eqb] in E1. discriminate.
Qed.

Lemma late_blocks_idle pools j :
  List.length (secondary pools) <= 10 -> 5 <= j ->
  block_runs pools j = false.
Proof.
  intros Hs Hj. unfold block_runs. cbv zeta.
  do 8 (destruct j as [|j]; [try lia; apply Nat.ltb_ge; lia|]).
  reflexivity.
Qed.

(** *** A schedule is a prefix of the modules of the blocks *)

Lemma take_modules_prefix limit ms :
  exists k, take_modules limit ms = firstn k ms.
Proof. unfold take_modules. destruct (0 <=? limit)%Z; eauto. Qed.

Lemma Forall2_firstn {A B : Type} (R : A -> B -> Prop) k l1 l2 :
  Forall2 R l1 l2 -> Forall2 R (firstn k l1) (firstn k l2).
Proof.
  intros H. revert k. induction H; intros [|k]; simpl; constructor; auto.
Qed.

Lemma sorted_firstn k (js : list nat) :
  StronglySorted lt js -> StronglySorted lt (firstn k js).
Proof.
  intros H. revert k. induction H as [|j js Hs IH Hj]; intros [|k]; simpl;
    try constructor; auto.
  apply Forall_forall. intros x Hx. apply incl_firstn in Hx.
  rewrite Forall_forall in Hj. auto.
Qed.

Lemma made_by_blocks_firstn now pools js ms k :
  made_by_blocks now pools js ms ->
  made_by_blocks now pools (firstn k js) (firstn k ms).
Proof.
  intros [Hmade [Hsorted Hrange]]. split; [|split].
  - now apply Forall2_firstn.
  - now apply sorted_firstn.
  - apply Forall_forall. intros x Hx. apply incl_firstn in Hx.
    rewrite Forall_forall in Hrange. auto.
Qed.

Lemma schedule_made_by_blocks str_hash sample regex_ok regex_search now
    courses_df student_profile enrolled_courses completed_courses
    limit_modules modules :
  generate_smart_schedule str_hash sample regex_ok regex_search now
    courses_df student_profile enrolled_courses completed_courses
    limit_modules = Ok modules ->
  exists f js,
    made_by_blocks now
      (separate_by_type
         (shuffle_and_label str_hash sample (major_of student_profile) f))
      js modules.
Proof.
  intros H. apply schedule_stages in H.
  destruct H as [->|[df [f1 [f2 [ms [_ [_ [_ [_ [Hms ->]]]]]]]]]].
  - exists (empty_frame, empty_frame), []. split; [|split]; constructor.
  - apply build_modules_shape in Hms. destruct Hms as [js Hjs].
    destruct (take_modules_prefix limit_modules ms) as [k ->].
    exists f2, (firstn k js). now apply made_by_blocks_firstn.
Qed.

Lemma made_by_block_number now pools j m :
  made_by_block now pools j m ->
  module_number m = j
  /\ start_date m = (now + start_offset j)%Z
  /\ end_date m = (start_date m + weeks 3)%Z
  /\ exists l, courses m = assign_slots 0 l /\ l <> []
               /\ total_credits m
                  = fold_left Nat.add
                      (map (fun c => Py.get_or (credits (course c)) 3)
                         (courses m)) 0.
Proof.
  intros [name [desc [ms [ss [aa [-> [Hne _]]]]]]].
  unfold _create_module. cbn. repeat split. now exists (ms ++ ss ++ aa).
Qed.

Lemma sorted_bounded_length (js : list nat) lo hi :
  StronglySorted lt js -> Forall (fun j => lo < j <= hi) js ->
  List.length js <= hi - lo.
Proof.
  intros Hs. revert lo. induction Hs as [|j js Hs IH Hj]; intros lo Hr;
    simpl; [lia|].
  inversion Hr as [|? ? Hj' Hr']; subst.
  assert (Hlen : List.length js <= hi - j).
  { apply IH. apply Forall_forall. intros x Hx.
    rewrite Forall_forall in Hj, Hr'. specialize (Hj x Hx).
    specialize (Hr' x Hx). lia. }
  lia.
Qed.

Lemma Forall2_nth_error {A B : Type} (R : A -> B -> Prop) l1 l2 i b :
  Forall2 R l1 l2 -> nth_error l2 i = Some b ->
  exists a, nth_error l1 i = Some a /\ R a b.
Proof.
  intros H. revert i. induction H as [|x y l1 l2 Hxy H IH]; intros [|i] Hi;
    simpl in Hi; try discriminate.
  - inversion Hi; subst. now exists x.
  - now apply IH.
Qed.

Lemma sorted_consecutive (js : list nat) i a b :
  StronglySorted lt js -> nth_error js i = Some a ->
  nth_error js (S i) = Some b -> a < b.
Proof.
  intros Hs. revert i. induction Hs as [|j js Hs IH Hj]; intros [|i] Ha Hb;
    simpl in Ha, Hb; try discriminate.
  - inversion Ha; subst. rewrite Forall_forall in Hj. apply Hj.
    apply (nth_error_In js 0). exact Hb.
  - eapply IH; eassumption.
Qed.

Lemma offsets_in_order j j' :
  1 <= j -> j < j' -> j' <= 7 ->
  (start_offset j + weeks 3 <= start_offset j')%Z.
Proof.
  intros H1 H2 H3.
  destruct j as [|[|[|[|[|[|[|j]]]]]]]; try lia;
    destruct j' as [|[|[|[|[|[|[|[|j']]]]]]]]; try lia;
    vm_compute; discriminate.
Qed.

(** X3.  A returned schedule has at most four modules, and at most
    [limit_modules] when that is not negative; its modules carry numbers
    between 1 and 4, in increasing order. *)
Theorem schedule_has_at_most_four_modules :
  forall str_hash sample regex_ok regex_search now courses_df student_profile
         enrolled_courses completed_courses limit_modules modules,
    generate_smart_schedule str_hash sample regex_ok regex_search now
      courses_df student_profile enrolled_courses completed_courses
      limit_modules = Ok modules ->
    List.length modules <= 4
    /\ ((0 <= limit_modules)%Z ->
        List.length modules <= Z.to_nat limit_modules)
    /\ (forall m, In m modules -> 1 <= module_number m <= 4)
    /\ (forall i m m',
           nth_error modules i = Some m ->
           nth_error modules (S i) = Some m' ->
           module_number m < module_number m').
Proof.
  intros until modules. intros H.
  pose proof (schedule_made_by_blocks _ _ _ _ _ _ _ _ _ _ _ H)
    as [f [js [Hmade [Hsorted Hrange]]]].
  destruct (pools_caps str_hash sample (major_of student_profile) f)
    as [_ [Hcap _]].
  assert (Hfour : Forall (fun j => 0 < j <= 4) js).
  { apply Forall_forall. intros j Hj.
    rewrite Forall_forall in Hrange. specialize (Hrange j Hj).
    apply In_nth_error in Hj. destruct Hj as [i Hi].
    destruct (le_lt_dec j 4) as [Hle|Hgt]; [lia|]. exfalso.
    pose proof (Forall2_length Hmade) as Hlen.
    assert (Hm : exists m, nth_error modules i = Some m).
    { destruct (nth_error modules i) eqn:E; [eauto|].
      apply nth_error_None in E.
      assert (i < List.length js) by (apply nth_error_Some; congruence).
      lia. }
    destruct Hm as [m Hm].
    destruct (Forall2_nth_error _ _ _ _ _ Hmade Hm) as [j' [Hj' Hmb]].
    assert (j' = j) by congruence. subst j'.
    destruct Hmb as [? [? [? [? [? [_ [_ [Hruns _]]]]]]]].
    rewrite late_blocks_idle in Hruns by (assumption || lia).
    discriminate. }
  split; [|split; [|split]].
  - rewrite <- (Forall2_length Hmade).
    apply (sorted_bounded_length js 0 4 Hsorted Hfour).
  - intros Hlimit. apply schedule_stages in H.
    destruct H as [->|[? [? [? [ms [_ [_ [_ [_ [_ ->]]]]]]]]]];
      [simpl; lia|].
    unfold take_modules.
    replace (0 <=? limit_modules)%Z with true
      by (symmetry; now apply Z.leb_le).
    apply firstn_le_length.
  - intros m Hm. apply In_nth_error in Hm. destruct Hm as [i Hi].
    destruct (Forall2_nth_error _ _ _ _ _ Hmade Hi) as [j [Hj Hmb]].
    apply made_by_block_number in Hmb. destruct Hmb as [-> _].
    rewrite Forall_forall in Hfour. apply nth_error_In in Hj.
    specialize (Hfour j Hj). lia.
  - intros i m m' Hi Hi'.
    destruct (Forall2_nth_error _ _ _ _ _ Hmade Hi) as [j [Hj Hmb]].
    destruct (Forall2_nth_error _ _ _ _ _ Hmade Hi') as [j' [Hj' Hmb']].
    apply made_by_block_number in Hmb, Hmb'.
    destruct Hmb as [-> _], Hmb' as [-> _].
    eapply sorted_consecutive; eassumption.
Qed.

(** X4.  In a returned schedule every module starts at the offset of its
    number after the time of the call (0, 3, 6 and 52 weeks for modules 1
    to 4), lasts three weeks, and ends no later than the next one
    starts. *)
Theorem schedule_modules_in_calendar_order :
  forall str_hash sample regex_ok regex_search now courses_df student_profile
         enrolled_courses completed_courses limit_modules modules,
    generate_smart_schedule str_hash sample regex_ok regex_search now
      courses_df student_profile enrolled_courses completed_courses
      limit_modules = Ok modules ->
    (forall m,
        In m modules ->
        start_date m = (now + start_offset (module_number m))%Z
        /\ end_date m = (start_date m + weeks 3)%Z)
    /\ (forall i m m',
           nth_error modules i = Some m ->
           nth_error modules (S i) = Some m' ->
           (end_date m <= start_date m')%Z).
Proof.
  intros until modules. intros H.
  pose proof (schedule_made_by_blocks _ _ _ _ _ _ _ _ _ _ _ H)
    as [f [js [Hmade [Hsorted Hrange]]]].
  split.
  - intros m Hm. apply In_nth_error in Hm. destruct Hm as [i Hi].
    destruct (Forall2_nth_error _ _ _ _ _ Hmade Hi) as [j [Hj Hmb]].
    apply made_by_block_number in Hmb.
    destruct Hmb as [-> [Hs [He _]]]. now split.
  - intros i m m' Hi Hi'.
    destruct (Forall2_nth_error _ _ _ _ _ Hmade Hi) as [j [Hj Hmb]].
    destruct (Forall2_nth_error _ _ _ _ _ Hmade Hi') as [j' [Hj' Hmb']].
    pose proof (sorted_consecutive js i j j' Hsorted Hj Hj') as Hlt.
    apply made_by_block_number in Hmb, Hmb'.
    destruct Hmb as [_ [Hs [He _]]], Hmb' as [_ [Hs' _]].
    rewrite He, Hs, Hs'.
    rewrite Forall_forall in Hrange.
    pose proof (Hrange j (nth_error_In _ _ Hj)).
    pose proof (Hrange j' (nth_error_In _ _ Hj')).
    pose proof (offsets_in_order j j' ltac:(lia) Hlt ltac:(lia)). lia.
Qed.

(** *** Slots and credits *)

Lemma assign_slots_nth idx l i sc :
  nth_error (assign_slots idx l) i = Some sc ->
  (slot_number sc, time_slot sc) = slot_at (idx + i).
Proof.
  revert idx i sc. induction l as [|c l IH]; intros idx [|i] sc H;
    cbn [assign_slots nth_error] in H; try discriminate.
  - cbv zeta in H.
    assert (E : sc = mkScheduled c (snd (slot_at idx)) (fst (slot_at idx)))
      by (unfold slot_at; congruence).
    rewrite E, Nat.add_0_r. cbn [slot_number time_slot].
    now destruct (slot_at idx).
  - replace (idx + S i) with (S idx + i) by lia. now apply IH.
Qed.

Lemma fold_left_add_sum (l : list nat) a :
  fold_left Nat.add l a = a + list_sum l.
Proof.
  revert a. induction l as [|x l IH]; intros a; simpl; [lia|].
  rewrite IH. lia.
Qed.

Lemma slot_at_cases i :
  slot_at i
  = (i mod 3 + 1,
     nth (i mod 3)
       ["9:00 AM - 12:20 PM"; "1:00 PM - 4:20 PM"; "5:00 PM - 8:20 PM"] "").
Proof.
  unfold slot_at. pose proof (Nat.mod_upper_bound i 3 ltac:(lia)) as H.
  destruct (i mod 3) as [|[|[|k]]]; try reflexivity. lia.
Qed.

(** X5.  In every module of a returned schedule the course at position
    [i] is in slot [i mod 3 + 1] with the time of that slot, so the fourth
    course of a module meets at the time of the first; a module has at
    least one course, and its [total_credits] is the sum of the credits of
    its courses, 3 for a course without credits. *)
Theorem schedule_slots_cycle_by_position :
  forall str_hash sample regex_ok regex_search now courses_df student_profile
         enrolled_courses completed_courses limit_modules modules,
    generate_smart_schedule str_hash sample regex_ok regex_search now
      courses_df student_profile enrolled_courses completed_courses
      limit_modules = Ok modules ->
    forall m,
      In m modules ->
      courses m <> []
      /\ total_credits m = credits_of m
      /\ (forall i sc,
             nth_error (courses m) i = Some sc ->
             slot_number sc = i mod 3 + 1
             /\ time_slot sc
                = nth (i mod 3)
                    ["9:00 AM - 12:20 PM"; "1:00 PM - 4:20 PM";
                     "5:00 PM - 8:20 PM"] "")
      /\ (forall a b,
             nth_error (courses m) 0 = Some a ->
             nth_error (courses m) 3 = Some b ->
             time_slot a = time_slot b).
Proof.
  intros until modules. intros H m Hm.
  pose proof (schedule_made_by_blocks _ _ _ _ _ _ _ _ _ _ _ H)
    as [f [js [Hmade _]]].
  apply In_nth_error in Hm. destruct Hm as [k Hk].
  destruct (Forall2_nth_error _ _ _ _ _ Hmade Hk) as [j [_ Hmb]].
  apply made_by_block_number in Hmb.
  destruct Hmb as [_ [_ [_ [l [Hl [Hne Hcredits]]]]]].
  assert (Hslot : forall i sc,
             nth_error (courses m) i = Some sc ->
             (slot_number sc, time_slot sc) = slot_at i).
  { intros i sc Hi. rewrite Hl in Hi. now apply assign_slots_nth in Hi. }
  split; [|split; [|split]].
  - rewrite Hl. destruct l; [now elim Hne|discriminate].
  - rewrite Hcredits. unfold credits_of. now rewrite fold_left_add_sum.
  - intros i sc Hi. apply Hslot in Hi. rewrite slot_at_cases in Hi.
    now inversion Hi.
  - intros a b Ha Hb. apply Hslot in Ha, Hb.
    rewrite slot_at_cases in Ha, Hb. inversion Ha. inversion Hb.
    congruence.
Qed.

End ScheduleCalendar.
(** ** When the schedule is returned and when it raises *)

Module ScheduleOutcome.
Import Exn Frame Schedule Blocks Examples.
Import ScheduleInvariants ScheduleShape SchedulePipeline ScheduleFacts.

(** *** The blocks *)

Ltac to_arith :=
  repeat match goal with
    | H : (_ <=? _)%nat = true |- _ => apply Nat.leb_le in H
    | H : (_ <=? _)%nat = false |- _ => apply Nat.leb_gt in H
    | H : (_ <? _)%nat = true |- _ => apply Nat.ltb_lt in H
    | H : (_ <? _)%nat = false |- _ => apply Nat.ltb_ge in H
    | H : (_ =? _)%nat = true |- _ => apply Nat.eqb_eq in H
    | H : (_ =? _)%nat = false |- _ => apply Nat.eqb_neq in H
    | H : negb _ = true |- _ => apply negb_true_iff in H
    | H : negb _ = false |- _ => apply negb_false_iff in H
    end.

Ltac read_in_range :=
  repeat match goal with
    | |- context [ilocs ?l ?positions] =>
        let k := eval compute in (List.length positions) in
        let p := eval compute in (hd 0 positions) in
        change (ilocs l positions) with (ilocs l (seq p k));
        rewrite (ilocs_seq_ok l p k) by lia; cbn [bind]
    end.

Ltac block_returns :=
  cbv zeta;
  repeat match goal with
    | |- context [if ?c then _ else _] => destruct c eqn:?
    end;
  to_arith; read_in_range; cbn [bind]; eexists; reflexivity.

Section Returns.

Variable now : Z.
Variable pools : Pools.
Variable major : string.

Lemma module_1_returns ms : exists ms', module_1 now pools major ms = Ok ms'.
Proof. unfold module_1. block_returns. Qed.

Lemma module_2_returns ms :
  List.length (secondary pools) <> 5 -> List.length (secondary pools) <> 6 ->
  exists ms', module_2 now pools major ms = Ok ms'.
Proof. intros H5 H6. unfold module_2. block_returns. Qed.

Lemma module_3_returns ms : exists ms', module_3 now pools major ms = Ok ms'.
Proof. unfold module_3. block_returns. Qed.

Lemma module_4_returns ms : exists ms', module_4 now pools major ms = Ok ms'.
Proof. unfold module_4. block_returns. Qed.

Lemma module_5_returns ms : exists ms', module_5 now pools major ms = Ok ms'.
Proof. unfold module_5. block_returns. Qed.

Lemma module_6_returns ms : exists ms', module_6 now pools major ms = Ok ms'.
Proof. unfold module_6. block_returns. Qed.

Lemma module_7_returns ms : exists ms', module_7 now pools major ms = Ok ms'.
Proof. unfold module_7. block_returns. Qed.

(** The blocks raise exactly when the secondary pool holds 5 or 6
    courses, and then [IndexError]. *)
Lemma build_modules_outcome :
  (List.length (secondary pools) = 5 \/ List.length (secondary pools) = 6 ->
   build_modules now pools major = Raise IndexError)
  /\ (List.length (secondary pools) <> 5 ->
      List.length (secondary pools) <> 6 ->
      exists ms, build_modules now pools major = Ok ms).
Proof.
  unfold build_modules. split.
  - intros H. destruct (module_1_returns []) as [m1 ->]. cbn [bind].
    now rewrite module_2_index_error.
  - intros H5 H6.
    destruct (module_1_returns []) as [m1 ->]. cbn [bind].
    destruct (module_2_returns m1 H5 H6) as [m2 ->]. cbn [bind].
    destruct (module_3_returns m2) as [m3 ->]. cbn [bind].
    destruct (module_4_returns m3) as [m4 ->]. cbn [bind].
    destruct (module_5_returns m4) as [m5 ->]. cbn [bind].
    destruct (module_6_returns m5) as [m6 ->]. cbn [bind].
    apply module_7_returns.
Qed.

End Returns.

(** *** The stages before the blocks *)

Lemma eligible_columns df student_profile :
  columns (eligible df student_profile) = columns df.
Proof.
  unfold eligible, early_module_courses_of, level_courses_of.
  destruct (has_column "Level" df); cbv zeta;
    repeat match goal with
      | |- context [if ?c then _ else _] => destruct c
      end; reflexivity.
Qed.

Lemma has_column_eligible col df student_profile :
  has_column col (eligible df student_profile) = has_column col df.
Proof. unfold has_column. now rewrite eligible_columns. Qed.

Lemma filter_not_completed_nil (l : list CourseRecord) :
  filter (not_completed []) l = l.
Proof. induction l as [|c l IH]; simpl; [reflexivity|now rewrite IH]. Qed.

Lemma stages_return regex_ok regex_search df student_profile completed :
  has_column "category" df = true ->
  regex_ok (major_of student_profile) = true ->
  completed = [] \/ has_column "course_id" df = true ->
  exists f1 f2,
    split_by_major regex_ok regex_search (eligible df student_profile)
      (major_of student_profile) = Ok f1
    /\ drop_completed completed f1 = Ok f2
    /\ rows (snd f2) = complementary regex_search df student_profile completed
    /\ columns (snd f2) <> [].
Proof.
  intros Hcat Hre Hid. unfold split_by_major.
  rewrite has_column_eligible, Hcat, Hre. cbn [bind fst snd].
  eexists. 
  assert (Hcols : columns df <> []).
  { intros Hc. unfold has_column in Hcat. rewrite Hc in Hcat. discriminate. }
  destruct completed as [|id ids].
  - eexists. split; [reflexivity|]. split; [reflexivity|].
    cbn [snd select rows columns]. unfold complementary.
    rewrite filter_not_completed_nil, eligible_columns. now split.
  - destruct Hid as [Hid|Hid]; [discriminate|].
    unfold drop_completed.
    assert (H1 : has_column "course_id"
                   (if empty
                         (select
                            (fun c => regex_search (major_of student_profile)
                                        (category c))
                            (eligible df student_profile))
                    then eligible df student_profile
                    else select
                           (fun c => regex_search (major_of student_profile)
                                       (category c))
                           (eligible df student_profile)) = true).
    { destruct (empty _); [now rewrite has_column_eligible|].
      unfold has_column. cbn [select columns]. rewrite eligible_columns.
      exact Hid. }
    rewrite H1.
    assert (H2 : has_column "course_id"
                   (select
                      (fun c => negb (regex_search (major_of student_profile)
                                        (category c)))
                      (eligible df student_profile)) = true).
    { unfold has_column. cbn [select columns]. rewrite eligible_columns.
      exact Hid. }
    rewrite H2. cbn [negb].
    eexists. split; [reflexivity|]. split; [reflexivity|].
    cbn [snd select rows columns]. rewrite eligible_columns. now split.
Qed.

Lemma secondary_pool_length str_hash sample major f :
  (forall seed l, Permutation l (sample seed l)) ->
  rows (snd f) = [] \/ columns (snd f) <> [] ->
  let n := List.length (rows (snd f)) in
  List.length
    (secondary (separate_by_type (shuffle_and_label str_hash sample major f)))
  = Nat.min 10 (n - n * 3 / 10).
Proof.
  intros Hperm Hwf. cbv zeta.
  destruct (pools_sources str_hash sample major f Hperm Hwf)
    as [_ [-> _]].
  rewrite length_map, length_firstn.
  rewrite <- (Permutation_length
                (Hperm (str_hash major mod 100 + 1)%Z (rows (snd f)))).
  lia.
Qed.

(** X6.  On a table with a category column, for a major that compiles as
    a pattern and completed courses that can be looked up, the schedule
    raises [IndexError] exactly when 6, 7 or 8 eligible courses fall
    outside the major and are not completed; otherwise a schedule is
    returned. *)
Theorem schedule_raises_on_six_to_eight_other_courses :
  forall str_hash sample regex_ok regex_search now df student_profile
         enrolled_courses completed_courses limit_modules,
    (forall seed l, Permutation l (sample seed l)) ->
    empty df = false ->
    has_column "category" df = true ->
    regex_ok (major_of student_profile) = true ->
    completed_courses = [] \/ has_column "course_id" df = true ->
    let n :=
      List.length
        (complementary regex_search df student_profile completed_courses) in
    (n = 6 \/ n = 7 \/ n = 8 ->
     generate_smart_schedule str_hash sample regex_ok regex_search now
       (Some df) student_profile enrolled_courses completed_courses
       limit_modules = Raise IndexError)
    /\ (n <> 6 -> n <> 7 -> n <> 8 ->
        exists modules,
          generate_smart_schedule str_hash sample regex_ok regex_search now
            (Some df) student_profile enrolled_courses completed_courses
            limit_modules = Ok modules).
Proof.
  intros until limit_modules. intros Hperm Hempty Hcat Hre Hid. cbv zeta.
  destruct (stages_return regex_ok regex_search df student_profile
              completed_courses Hcat Hre Hid)
    as [f1 [f2 [E1 [E2 [Hrows Hcols]]]]].
  unfold generate_smart_schedule. cbv zeta. rewrite Hempty.
  unfold build_pools. cbv zeta.
  fold (major_of student_profile) (level_of student_profile).
  fold (eligible df student_profile).
  rewrite E1. cbn [bind]. rewrite E2. cbn [bind].
  pose proof (secondary_pool_length str_hash sample
                (major_of student_profile) f2 Hperm (or_intror Hcols)) as Hn.
  cbv zeta in Hn. rewrite Hrows in Hn.
  set (n := List.length
              (complementary regex_search df student_profile
                 completed_courses)) in *.
  pose proof (Nat.div_mod_eq (n * 3) 10) as Hdiv.
  pose proof (Nat.mod_upper_bound (n * 3) 10 ltac:(lia)) as Hmod.
  destruct (build_modules_outcome now
              (separate_by_type
                 (shuffle_and_label str_hash sample
                    (major_of student_profile) f2))
              (major_of student_profile)) as [Hraise Hok].
  split.
  - intros H. rewrite Hraise; [reflexivity|]. rewrite Hn. lia.
  - intros H6 H7 H8. destruct Hok as [ms ->]; [rewrite Hn; lia ..|].
    cbn [bind]. eauto.
Qed.

Lemma schedule_raises_on_seven_art_courses :
  generate_smart_schedule (fun _ => 0%Z) (fun _ l => l) PlainRegex.regex_ok
    PlainRegex.regex_search 0 (Some Catalogues.seven_arts) cs_student [] []
    4
  = Raise IndexError.
Proof.
  apply (schedule_raises_on_six_to_eight_other_courses (fun _ => 0%Z)
           (fun _ l => l) PlainRegex.regex_ok PlainRegex.regex_search 0%Z
           Catalogues.seven_arts cs_student [] [] 4%Z).
  - intros seed l. apply Permutation_refl.
  - reflexivity.
  - reflexivity.
  - reflexivity.
  - now left.
  - right. left. reflexivity.
Defined.

End ScheduleOutcome.
(** ** No course twice, away from the fallback *)

Module ScheduleDistinct.
Import Exn Frame Schedule Blocks Examples.
Import ScheduleInvariants ScheduleShape SchedulePipeline ScheduleCalendar.
Import ScheduleOutcome.

(** *** Counting occurrences *)

Section Counting.

Context {A : Type} (eq_dec : forall a b : A, {a = b} + {a <> b}).

Lemma count_firstn_skipn k (l : list A) x :
  count_occ eq_dec (firstn k l) x + count_occ eq_dec (skipn k l) x
  = count_occ eq_dec l x.
Proof. now rewrite <- count_occ_app, firstn_skipn. Qed.

Lemma count_firstn_le k (l : list A) x :
  count_occ eq_dec (firstn k l) x <= count_occ eq_dec l x.
Proof. pose proof (count_firstn_skipn k l x). lia. Qed.

Lemma count_skipn_le k (l : list A) x :
  count_occ eq_dec (skipn k l) x <= count_occ eq_dec l x.
Proof. pose proof (count_firstn_skipn k l x). lia. Qed.

Lemma count_firstn_mono k k' (l : list A) x :
  k <= k' ->
  count_occ eq_dec (firstn k l) x <= count_occ eq_dec (firstn k' l) x.
Proof.
  intros H. replace (firstn k l) with (firstn k (firstn k' l)).
  - apply count_firstn_le.
  - rewrite firstn_firstn. f_equal. lia.
Qed.

Lemma count_skipn_mono a b (l : list A) x :
  a <= b ->
  count_occ eq_dec (skipn b l) x <= count_occ eq_dec (skipn a l) x.
Proof.
  intros H. replace (skipn b l) with (skipn (b - a) (skipn a l)).
  - apply count_skipn_le.
  - rewrite skipn_skipn. f_equal. lia.
Qed.

Lemma count_segment a k k' (l : list A) x :
  k <= k' ->
  count_occ eq_dec (firstn k (skipn a l)) x
  + count_occ eq_dec (skipn (a + k') l) x
  <= count_occ eq_dec (skipn a l) x.
Proof.
  intros H. replace (skipn (a + k') l) with (skipn k' (skipn a l)).
  - pose proof (count_firstn_mono k k' (skipn a l) x H).
    pose proof (count_firstn_skipn k' (skipn a l) x). lia.
  - rewrite skipn_skipn. f_equal. lia.
Qed.

Lemma count_map_filter {B : Type} (f : B -> A) (p : B -> bool) (l : list B)
    x :
  count_occ eq_dec (map f (filter p l)) x <= count_occ eq_dec (map f l) x.
Proof.
  induction l as [|b l IH]; simpl; [lia|].
  destruct (p b); simpl; destruct (eq_dec (f b) x); lia.
Qed.

Lemma count_map_partition {B : Type} (f : B -> A) (p : B -> bool)
    (l : list B) x :
  count_occ eq_dec (map f (filter p l)) x
  + count_occ eq_dec (map f (filter (fun b => negb (p b)) l)) x
  = count_occ eq_dec (map f l) x.
Proof.
  induction l as [|b l IH]; simpl; [lia|].
  destruct (p b); simpl; destruct (eq_dec (f b) x); lia.
Qed.

End Counting.

Lemma ids_relabel ty (l : list CourseRecord) :
  map course_id (map (set_course_type ty) l) = map course_id l.
Proof. rewrite map_map. now apply map_ext. Qed.

Lemma module_ids_made now pools j m :
  made_by_block now pools j m ->
  exists km ks ka,
    km <= 1 /\ ks <= secondary_width j /\ ka <= 1
    /\ module_ids m
       = firstn km (skipn (j - 1) (map course_id (mandatory pools)))
         ++ firstn ks
              (skipn (secondary_start j) (map course_id (secondary pools)))
         ++ firstn ka (skipn (j - 1) (map course_id (audit pools))).
Proof.
  intros [name [desc [ms [ss [aa [-> [_ [_ [Hm [Hs Ha]]]]]]]]]].
  destruct Hm as [km [Hkm ->]], Hs as [ks [Hks ->]], Ha as [ka [Hka ->]].
  exists km, ks, ka. repeat split; try assumption.
  - unfold mandatory_width in Hkm. destruct (j <=? 4)%nat; lia.
  - unfold audit_width in Hka. destruct (j <=? 6)%nat; lia.
  - unfold module_ids, _create_module. cbn [courses].
    rewrite <- (map_map course course_id), assign_slots_courses.
    now rewrite !map_app, <- !firstn_map, <- !skipn_map.
Qed.

Lemma consumed_bounds b j :
  b < j -> j <= 7 ->
  consumed b <= secondary_start j
  /\ secondary_start j + secondary_width j = consumed j.
Proof.
  intros H1 H2.
  destruct j as [|[|[|[|[|[|[|[|j]]]]]]]]; try lia;
    destruct b as [|[|[|[|[|[|[|b]]]]]]]; try lia;
    vm_compute; split; (reflexivity || lia || (repeat constructor)).
Qed.

(** The ids of the modules of blocks after block [b] lie, with their
    multiplicity, in what the first [b] blocks leave of the pools. *)
Lemma blocks_within now pools js ms :
  Forall2 (made_by_block now pools) js ms ->
  StronglySorted lt js ->
  forall b,
    Forall (fun j => b < j <= 7) js ->
    forall x,
      count_occ string_dec (schedule_ids ms) x
      <= count_occ string_dec (skipn b (map course_id (mandatory pools))) x
         + count_occ string_dec
             (skipn (consumed b) (map course_id (secondary pools))) x
         + count_occ string_dec (skipn b (map course_id (audit pools))) x.
Proof.
  intros Hmade. induction Hmade as [|j m js ms Hm Hmade IH];
    intros Hsorted b Hb x; [simpl; lia|].
  inversion Hsorted as [|? ? Hs' Hj]; subst.
  inversion Hb as [|? ? Hbj Hb']; subst.
  assert (Htail : Forall (fun i => j < i <= 7) js).
  { apply Forall_forall. intros i Hi. rewrite Forall_forall in Hj, Hb'.
    specialize (Hj i Hi). specialize (Hb' i Hi). lia. }
  specialize (IH Hs' j Htail x).
  destruct (module_ids_made _ _ _ _ Hm)
    as [km [ks [ka [Hkm [Hks [Hka Hids]]]]]].
  unfold schedule_ids in *. cbn [flat_map]. rewrite count_occ_app, Hids.
  rewrite !count_occ_app.
  destruct (consumed_bounds b j ltac:(lia) ltac:(lia)) as [Hc1 Hc2].
  pose proof (count_segment string_dec (j - 1) km 1
                (map course_id (mandatory pools)) x Hkm) as Cm.
  pose proof (count_segment string_dec (secondary_start j) ks
                (secondary_width j) (map course_id (secondary pools)) x Hks)
    as Cs.
  pose proof (count_segment string_dec (j - 1) ka 1
                (map course_id (audit pools)) x Hka) as Ca.
  replace (j - 1 + 1) with j in Cm, Ca by lia. rewrite Hc2 in Cs.
  pose proof (count_skipn_mono string_dec b (j - 1)
                (map course_id (mandatory pools)) x ltac:(lia)).
  pose proof (count_skipn_mono string_dec (consumed b) (secondary_start j)
                (map course_id (secondary pools)) x Hc1).
  pose proof (count_skipn_mono string_dec b (j - 1)
                (map course_id (audit pools)) x ltac:(lia)).
  lia.
Qed.

Lemma schedule_ids_firstn k ms x :
  count_occ string_dec (schedule_ids (firstn k ms)) x
  <= count_occ string_dec (schedule_ids ms) x.
Proof.
  revert k. induction ms as [|m ms IH]; intros [|k]; simpl; try lia.
  unfold schedule_ids in *. cbn [flat_map]. rewrite !count_occ_app.
  specialize (IH k). lia.
Qed.

Lemma modules_distinct_of_pools now pools major ms :
  NoDup (map course_id (mandatory pools) ++ map course_id (secondary pools)
         ++ map course_id (audit pools)) ->
  build_modules now pools major = Ok ms ->
  forall x, count_occ string_dec (schedule_ids ms) x <= 1.
Proof.
  intros Hnd H x. apply build_modules_shape in H.
  destruct H as [js [Hmade [Hsorted Hrange]]].
  assert (Hr : Forall (fun j => 0 < j <= 7) js).
  { eapply Forall_impl; [|exact Hrange]. simpl. intros. lia. }
  pose proof (blocks_within now pools js ms Hmade Hsorted 0 Hr x) as H.
  cbn [skipn consumed nth] in H.
  rewrite (NoDup_count_occ string_dec) in Hnd. specialize (Hnd x).
  rewrite !count_occ_app in Hnd. lia.
Qed.

(** *** From the table to the pools *)

Lemma eligible_count df student_profile x :
  count_occ string_dec (map course_id (rows (eligible df student_profile))) x
  <= count_occ string_dec (map course_id (rows df)) x.
Proof.
  unfold eligible, early_module_courses_of.
  set (level_courses := level_courses_of df (level_of student_profile)).
  assert (Hl : count_occ string_dec (map course_id (rows level_courses)) x
               <= count_occ string_dec (map course_id (rows df)) x).
  { unfold level_courses, level_courses_of.
    destruct (has_column "Level" df); cbv zeta.
    - destruct (empty _); [lia|]. cbn [select rows].
      apply count_map_filter.
    - destruct (empty df); lia. }
  destruct (has_column "Course" level_courses);
    [|destruct (has_column "course_name" level_courses)];
    cbn [select rows]; try assumption;
    (etransitivity; [apply count_map_filter|assumption]).
Qed.

Lemma split_count regex_ok regex_search early major f1 x :
  split_by_major regex_ok regex_search early major = Ok f1 ->
  has_column "category" early = false
  \/ (exists c, In c (rows early) /\ regex_search major (category c) = true)
  ->
  count_occ string_dec (map course_id (rows (fst f1))) x
  + count_occ string_dec (map course_id (rows (snd f1))) x
  <= count_occ string_dec (map course_id (rows early)) x.
Proof.
  unfold split_by_major. intros H Hcase.
  destruct (has_column "category" early) eqn:Hcat.
  - destruct Hcase as [Hcase|[c [Hc Hmatch]]]; [discriminate|].
    destruct (regex_ok major); [|discriminate]. cbn [bind fst snd] in H.
    assert (Hne : empty (select (fun c => regex_search major (category c))
                           early) = false).
    { unfold empty. cbn [select rows columns].
      destruct (filter _ (rows early)) as [|r rs] eqn:E.
      - assert (Hin : In c (filter (fun c => regex_search major (category c))
                              (rows early)))
          by (apply filter_In; now split).
        rewrite E in Hin. destruct Hin.
      - destruct (columns early) eqn:Ec; [|reflexivity].
        unfold has_column in Hcat. rewrite Ec in Hcat. discriminate. }
    rewrite Hne in H. inversion H; subst f1. cbn [fst snd select rows].
    rewrite (count_map_partition string_dec course_id
               (fun c => regex_search major (category c)) (rows early) x).
    lia.
  - cbn [bind fst snd] in H. inversion H; subst f1. cbn [fst snd].
    destruct (empty early); cbn; lia.
Qed.

Lemma drop_count completed f1 f2 x :
  drop_completed completed f1 = Ok f2 ->
  count_occ string_dec (map course_id (rows (fst f2))) x
  <= count_occ string_dec (map course_id (rows (fst f1))) x
  /\ count_occ string_dec (map course_id (rows (snd f2))) x
     <= count_occ string_dec (map course_id (rows (snd f1))) x.
Proof.
  destruct f1 as [major_courses other_courses]. unfold drop_completed.
  destruct completed as [|id l].
  - intros H. inversion H; subst. cbn [fst snd]. lia.
  - destruct (negb (has_column "course_id" major_courses)); [discriminate|].
    destruct (negb (has_column "course_id" other_courses)); [discriminate|].
    intros H. inversion H; subst. cbn [fst snd select rows].
    split; apply count_map_filter.
Qed.

Lemma pools_count str_hash sample major f x :
  (forall seed l, Permutation l (sample seed l)) ->
  rows (snd f) = [] \/ columns (snd f) <> [] ->
  let pools :=
    separate_by_type (shuffle_and_label str_hash sample major f) in
  count_occ string_dec (map course_id (mandatory pools)) x
  + count_occ string_dec (map course_id (secondary pools)) x
  + count_occ string_dec (map course_id (audit pools)) x
  <= count_occ string_dec (map course_id (rows (fst f))) x
     + count_occ string_dec (map course_id (rows (snd f))) x.
Proof.
  intros Hperm Hwf. cbv zeta.
  destruct (pools_sources str_hash sample major f Hperm Hwf)
    as [-> [-> [-> _]]].
  rewrite !ids_relabel.
  set (s1 := sample (str_hash major mod 100)%Z (rows (fst f))).
  set (s2 := sample (str_hash major mod 100 + 1)%Z (rows (snd f))).
  set (n := List.length s2).
  assert (E1 : count_occ string_dec (map course_id (rows (fst f))) x
               = count_occ string_dec (map course_id s1) x).
  { apply Permutation_count_occ. apply Permutation_map. apply Hperm. }
  assert (E2 : count_occ string_dec (map course_id (rows (snd f))) x
               = count_occ string_dec (map course_id s2) x).
  { apply Permutation_count_occ. apply Permutation_map. apply Hperm. }
  rewrite E1, E2. rewrite <- !firstn_map, <- !skipn_map.
  pose proof (count_firstn_le string_dec 10 (map course_id s1) x).
  pose proof (count_firstn_mono string_dec (Nat.min 10 (n - n * 3 / 10))
                (n - n * 3 / 10) (map course_id s2) x ltac:(lia)).
  pose proof (count_firstn_le string_dec 6
                (firstn (10 - (n - n * 3 / 10))
                   (skipn (n - n * 3 / 10) (map course_id s2))) x).
  pose proof (count_firstn_le string_dec (10 - (n - n * 3 / 10))
                (skipn (n - n * 3 / 10) (map course_id s2)) x).
  pose proof (count_firstn_skipn string_dec (n - n * 3 / 10)
                (map course_id s2) x).
  lia.
Qed.

(** X7.  When the ids of the table are distinct and the table has no
    category column or some eligible course matches the major, no course
    is scheduled twice: the ids of a returned schedule, module after
    module, are distinct. *)
Theorem schedule_has_no_repeated_course :
  forall str_hash sample regex_ok regex_search now df student_profile
         enrolled_courses completed_courses limit_modules modules,
    (forall seed l, Permutation l (sample seed l)) ->
    NoDup (map course_id (rows df)) ->
    has_column "category" df = false
    \/ (exists c,
          In c (rows (eligible df student_profile))
          /\ matches_major regex_search (major_of student_profile) c = true)
    ->
    generate_smart_schedule str_hash sample regex_ok regex_search now
      (Some df) student_profile enrolled_courses completed_courses
      limit_modules = Ok modules ->
    NoDup (schedule_ids modules).
Proof.
  intros until modules. intros Hperm Hnd Hcase H.
  apply schedule_stages in H.
  destruct H as [->|[df' [f1 [f2 [ms [Hdf [_ [E1 [E2 [Hms ->]]]]]]]]]];
    [constructor|].
  inversion Hdf; subst df'. clear Hdf.
  apply (NoDup_count_occ string_dec). intros x.
  destruct (take_modules_prefix limit_modules ms) as [k ->].
  etransitivity; [apply schedule_ids_firstn|].
  eapply modules_distinct_of_pools; [|exact Hms].
  apply (NoDup_count_occ string_dec). intros y. rewrite !count_occ_app.
  destruct (split_by_major_rows _ _ _ _ _ E1) as [_ [_ Hwf1]].
  destruct (drop_completed_incl _ _ _ E2) as [_ [_ Hcols]].
  assert (Hwf : rows (snd f2) = [] \/ columns (snd f2) <> []).
  { destruct Hwf1 as [Hr|Hc]; [left|right; now rewrite Hcols].
    destruct (drop_completed_incl _ _ _ E2) as [_ [Hincl _]].
    rewrite Hr in Hincl. destruct (rows (snd f2)) as [|r rs];
      [reflexivity|]. destruct (Hincl r (or_introl eq_refl)). }
  pose proof (pools_count str_hash sample (major_of student_profile) f2 y
                Hperm Hwf) as Hp.
  cbv zeta in Hp.
  destruct (drop_count _ _ _ y E2) as [Hd1 Hd2].
  assert (Hcase' :
    has_column "category" (eligible df student_profile) = false
    \/ (exists c,
          In c (rows (eligible df student_profile))
          /\ regex_search (major_of student_profile) (category c) = true)).
  { destruct Hcase as [Hc|Hc]; [left|right; exact Hc].
    unfold has_column in *. rewrite eligible_columns.
    exact Hc. }
  pose proof (split_count _ _ _ _ _ y E1 Hcase') as Hs.
  pose proof (eligible_count df student_profile y) as He.
  rewrite (NoDup_count_occ string_dec) in Hnd. specialize (Hnd y).
  rewrite Nat.add_assoc. lia.
Qed.

End ScheduleDistinct.
(** ** Which courses are scheduled *)

Module ScheduleEligibility.
Import Exn Frame Schedule Blocks Examples.
Import ScheduleInvariants ScheduleShape SchedulePipeline ScheduleCalendar.
Import ScheduleOutcome.

(** A property of the eligible courses that relabelling keeps holds of
    every scheduled course. *)
Lemma scheduled_rows_satisfy (Q : CourseRecord -> Prop) str_hash sample
    regex_ok regex_search now df student_profile enrolled_courses
    completed_courses limit_modules modules :
  (forall ty c, Q c -> Q (set_course_type ty c)) ->
  (forall seed l, incl (sample seed l) l) ->
  (forall c, In c (rows (eligible df student_profile)) -> Q c) ->
  generate_smart_schedule str_hash sample regex_ok regex_search now
    (Some df) student_profile enrolled_courses completed_courses
    limit_modules = Ok modules ->
  forall m sc, In m modules -> In sc (courses m) -> Q (course sc).
Proof.
  intros Qr Hsample HQ H m sc Hm Hsc.
  apply schedule_stages in H.
  destruct H as [->|[df' [f1 [f2 [ms [Hdf [_ [E1 [E2 [Hms ->]]]]]]]]]];
    [destruct Hm|].
  inversion Hdf; subst df'. clear Hdf.
  destruct (split_by_major_rows _ _ _ _ _ E1) as [I1 [I2 _]].
  destruct (drop_completed_incl _ _ _ E2) as [J1 [J2 _]].
  assert (Q1 : Forall Q (rows (fst f2)))
    by (apply Forall_forall; intros c Hc; apply HQ, I1, J1, Hc).
  assert (Q2 : Forall Q (rows (snd f2)))
    by (apply Forall_forall; intros c Hc; apply HQ, I2, J2, Hc).
  set (major := major_of student_profile) in *.
  destruct (Q_shuffle_and_label Q Qr str_hash sample major f2 Hsample Q1 Q2)
    as [Q3 Q4].
  destruct (Q_separate_by_type Q Qr _ Q3 Q4) as [Qm [Qs Qa]].
  destruct (separate_by_type_typed
              (shuffle_and_label str_hash sample major f2)) as [Tm [Ts Ta]].
  pose proof (build_modules_ok _ Tm Ts Ta _ _ _ Hms) as Hok.
  apply take_modules_incl in Hm. rewrite Forall_forall in Hok.
  destruct (Hok m Hm) as [Hincl _].
  assert (Hrow : In (course sc) (map course (courses m)))
    by now apply in_map.
  apply Hincl in Hrow. rewrite !in_app_iff in Hrow.
  rewrite Forall_forall in Qm, Qs, Qa.
  destruct Hrow as [Hr|[Hr|Hr]]; auto.
Qed.

Lemma eligible_incl df student_profile :
  incl (rows (eligible df student_profile)) (rows df).
Proof.
  unfold eligible, early_module_courses_of.
  set (level_courses := level_courses_of df (level_of student_profile)).
  assert (Hl : incl (rows level_courses) (rows df)).
  { unfold level_courses, level_courses_of.
    destruct (has_column "Level" df); cbv zeta.
    - destruct (empty _); [apply incl_refl|]. cbn [select rows].
      apply incl_filter.
    - destruct (empty df); apply incl_refl. }
  destruct (has_column "Course" level_courses);
    [|destruct (has_column "course_name" level_courses)];
    cbn [select rows]; try assumption;
    (eapply incl_tran; [apply incl_filter|assumption]).
Qed.

Lemma level_courses_columns df level :
  columns (level_courses_of df level) = columns df.
Proof.
  unfold level_courses_of. destruct (has_column "Level" df); cbv zeta;
    destruct (empty _); reflexivity.
Qed.

(** X8.  Every course of a returned schedule is a row of the course
    table, with only its [course_type] replaced. *)
Theorem scheduled_courses_come_from_table :
  forall str_hash sample regex_ok regex_search now df student_profile
         enrolled_courses completed_courses limit_modules modules,
    (forall seed l, incl (sample seed l) l) ->
    generate_smart_schedule str_hash sample regex_ok regex_search now
      (Some df) student_profile enrolled_courses completed_courses
      limit_modules = Ok modules ->
    forall m sc,
      In m modules -> In sc (courses m) ->
      exists row,
        In row (rows df)
        /\ course sc = set_course_type (course_type (course sc)) row.
Proof.
  intros until modules. intros Hsample H m sc Hm Hsc.
  assert (HQ : exists row ty,
             In row (rows df) /\ course sc = set_course_type ty row).
  { refine (scheduled_rows_satisfy
              (fun c => exists row ty,
                          In row (rows df) /\ c = set_course_type ty row)
              str_hash sample regex_ok regex_search now df student_profile
              enrolled_courses completed_courses limit_modules modules
              _ Hsample _ H m sc Hm Hsc).
    - intros ty c [row [ty' [Hrow ->]]]. now exists row, ty.
    - intros c Hc. exists c, (course_type c).
      split; [now apply eligible_incl in Hc|now destruct c]. }
  destruct HQ as [row [ty [Hrow Heq]]]. exists row. split; [assumption|].
  rewrite Heq. reflexivity.
Qed.

(** X9.  On a table with a [course_name] column and no [Course] column,
    no course whose name holds a capstone keyword (capstone, seminar,
    thesis, final project, graduation project) is scheduled. *)
Theorem capstone_courses_are_not_scheduled :
  forall str_hash sample regex_ok regex_search now df student_profile
         enrolled_courses completed_courses limit_modules modules,
    (forall seed l, incl (sample seed l) l) ->
    has_column "Course" df = false ->
    has_column "course_name" df = true ->
    generate_smart_schedule str_hash sample regex_ok regex_search now
      (Some df) student_profile enrolled_courses completed_courses
      limit_modules = Ok modules ->
    forall m sc,
      In m modules -> In sc (courses m) -> is_capstone (course sc) = false.
Proof.
  intros until modules. intros Hsample Hno Hname H m sc Hm Hsc.
  refine (scheduled_rows_satisfy (fun c => is_capstone c = false)
            str_hash sample regex_ok regex_search now df student_profile
            enrolled_courses completed_courses limit_modules modules
            _ Hsample _ H m sc Hm Hsc).
  - intros ty c Hc. exact Hc.
  - intros c Hc. unfold eligible, early_module_courses_of in Hc.
    unfold has_column in Hc. rewrite level_courses_columns in Hc.
    unfold has_column in Hno, Hname. rewrite Hno, Hname in Hc.
    cbn [select rows] in Hc. apply filter_In in Hc.
    destruct Hc as [_ Hc]. now apply negb_true_iff in Hc.
Qed.

(** X10.  On a table with a [Level] column that has a course of the
    student's level, every scheduled course is of that level. *)
Theorem scheduled_courses_have_student_level :
  forall str_hash sample regex_ok regex_search now df student_profile
         enrolled_courses completed_courses limit_modules modules,
    (forall seed l, incl (sample seed l) l) ->
    has_column "Level" df = true ->
    (exists row l,
        In row (rows df) /\ Level row = Some l
        /\ Py.lower l = level_of student_profile) ->
    generate_smart_schedule str_hash sample regex_ok regex_search now
      (Some df) student_profile enrolled_courses completed_courses
      limit_modules = Ok modules ->
    forall m sc,
      In m modules -> In sc (courses m) ->
      exists l,
        Level (course sc) = Some l /\ Py.lower l = level_of student_profile.
Proof.
  intros until modules.
  intros Hsample Hlevel [row [l [Hrow [Hl Hlow]]]] H m sc Hm Hsc.
  refine (scheduled_rows_satisfy
            (fun c => exists l,
                        Level c = Some l
                        /\ Py.lower l = level_of student_profile)
            str_hash sample regex_ok regex_search now df student_profile
            enrolled_courses completed_courses limit_modules modules
            _ Hsample _ H m sc Hm Hsc).
  - intros ty c Hc. exact Hc.
  - intros c Hc.
    assert (Hin : In c (rows (level_courses_of df
                                (level_of student_profile)))).
    { unfold eligible, early_module_courses_of in Hc.
      destruct (has_column "Course" _);
        [|destruct (has_column "course_name" _)];
        cbn [select rows] in Hc; try assumption;
        apply filter_In in Hc; tauto. }
    unfold level_courses_of in Hin. rewrite Hlevel in Hin.
    cbv zeta in Hin.
    set (keep := fun c : CourseRecord =>
                   match Level c with
                   | Some l => String.eqb (Py.lower l)
                                 (level_of student_profile)
                   | None => false
                   end) in *.
    assert (Hne : empty (select keep df) = false).
    { unfold empty. cbn [select rows columns].
      destruct (filter keep (rows df)) as [|r rs] eqn:E.
      - assert (Hk : In row (filter keep (rows df))).
        { apply filter_In. split; [assumption|]. unfold keep.
          rewrite Hl, Hlow. apply String.eqb_refl. }
        rewrite E in Hk. destruct Hk.
      - destruct (columns df) eqn:Ec; [|reflexivity].
        unfold has_column in Hlevel. rewrite Ec in Hlevel. discriminate. }
    rewrite Hne in Hin. cbn [select rows] in Hin. apply filter_In in Hin.
    destruct Hin as [_ Hk]. unfold keep in Hk.
    destruct (Level c) as [lc|]; [|discriminate].
    exists lc. split; [reflexivity|now apply String.eqb_eq].
Qed.

(** *** Course types and the major *)

Lemma incl_skipn {A : Type} (n : nat) (l : list A) : incl (skipn n l) l.
Proof.
  intros x Hx. rewrite <- (firstn_skipn n l). apply in_or_app. now right.
Qed.

Lemma split_partition regex_ok regex_search early major f1 :
  split_by_major regex_ok regex_search early major = Ok f1 ->
  has_column "category" early = true ->
  (exists c, In c (rows early) /\ regex_search major (category c) = true) ->
  rows (fst f1)
  = filter (fun c => regex_search major (category c)) (rows early)
  /\ rows (snd f1)
     = filter (fun c => negb (regex_search major (category c))) (rows early).
Proof.
  unfold split_by_major. intros H Hcat [c [Hc Hmatch]]. rewrite Hcat in H.
  destruct (regex_ok major); [|discriminate]. cbn [bind fst snd] in H.
  assert (Hne : empty (select (fun c => regex_search major (category c))
                         early) = false).
  { unfold empty. cbn [select rows columns].
    destruct (filter _ (rows early)) as [|r rs] eqn:E.
    - assert (Hin : In c (filter (fun c => regex_search major (category c))
                            (rows early)))
        by (apply filter_In; now split).
      rewrite E in Hin. destruct Hin.
    - destruct (columns early) eqn:Ec; [|reflexivity].
      unfold has_column in Hcat. rewrite Ec in Hcat. discriminate. }
  rewrite Hne in H. inversion H; subst f1. now cbn [fst snd select rows].
Qed.

(** X11.  When some eligible course matches the major, the scheduled
    courses of type mandatory are exactly those whose category matches
    the major; the others are secondary or audit. *)
Theorem mandatory_courses_are_those_of_the_major :
  forall str_hash sample regex_ok regex_search now df student_profile
         enrolled_courses completed_courses limit_modules modules,
    (forall seed l, Permutation l (sample seed l)) ->
    has_column "category" df = true ->
    (exists c,
        In c (rows (eligible df student_profile))
        /\ matches_major regex_search (major_of student_profile) c = true) ->
    generate_smart_schedule str_hash sample regex_ok regex_search now
      (Some df) student_profile enrolled_courses completed_courses
      limit_modules = Ok modules ->
    forall m sc,
      In m modules -> In sc (courses m) ->
      has_type "mandatory" (course sc)
      = matches_major regex_search (major_of student_profile) (course sc)
      /\ (has_type "mandatory" (course sc) = true
          \/ has_type "secondary" (course sc) = true
          \/ has_type "audit" (course sc) = true).
Proof.
  intros until modules. intros Hperm Hcat Hmatch H m sc Hm Hsc.
  apply schedule_stages in H.
  destruct H as [->|[df' [f1 [f2 [ms [Hdf [_ [E1 [E2 [Hms ->]]]]]]]]]];
    [destruct Hm|].
  inversion Hdf; subst df'. clear Hdf.
  set (major := major_of student_profile) in *.
  rewrite <- (has_column_eligible "category" df student_profile) in Hcat.
  destruct (split_partition _ _ _ _ _ E1 Hcat Hmatch) as [R1 R2].
  destruct (split_by_major_rows _ _ _ _ _ E1) as [_ [_ Hwf1]].
  destruct (drop_completed_incl _ _ _ E2) as [J1 [J2 Hcols]].
  assert (Hwf : rows (snd f2) = [] \/ columns (snd f2) <> []).
  { destruct Hwf1 as [Hr|Hc]; [left|right; now rewrite Hcols].
    rewrite Hr in J2. destruct (rows (snd f2)) as [|r rs];
      [reflexivity|]. destruct (J2 r (or_introl eq_refl)). }
  destruct (pools_sources str_hash sample major f2 Hperm Hwf)
    as [Pm [Ps [Pa _]]].
  destruct (separate_by_type_typed
              (shuffle_and_label str_hash sample major f2)) as [Tm [Ts Ta]].
  pose proof (build_modules_ok _ Tm Ts Ta _ _ _ Hms) as Hok.
  apply take_modules_incl in Hm. rewrite Forall_forall in Hok.
  destruct (Hok m Hm) as [Hincl _].
  assert (Hrow : In (course sc) (map course (courses m)))
    by now apply in_map.
  apply Hincl in Hrow. rewrite !in_app_iff in Hrow.
  assert (Hmajor : forall r,
             In r (sample (str_hash major mod 100)%Z (rows (fst f2))) ->
             regex_search major (category r) = true).
  { intros r Hr. apply (Permutation_in _ (Permutation_sym (Hperm _ _))) in Hr.
    apply J1 in Hr. rewrite R1 in Hr. now apply filter_In in Hr. }
  assert (Hother : forall r,
             In r (sample (str_hash major mod 100 + 1)%Z (rows (snd f2))) ->
             regex_search major (category r) = false).
  { intros r Hr. apply (Permutation_in _ (Permutation_sym (Hperm _ _))) in Hr.
    apply J2 in Hr. rewrite R2 in Hr. apply filter_In in Hr.
    now apply negb_true_iff. }
  rewrite Forall_forall in Tm, Ts, Ta.
  destruct Hrow as [Hr|[Hr|Hr]].
  - split; [|left; now apply Tm]. rewrite (Tm _ Hr).
    rewrite Pm in Hr. apply in_map_iff in Hr. destruct Hr as [r [<- Hr]].
    apply incl_firstn in Hr. unfold matches_major, set_course_type. cbn [category].
    symmetry. now apply Hmajor.
  - split; [|right; left; now apply Ts].
    assert (Hnot : has_type "mandatory" (course sc) = false).
    { destruct (has_type "mandatory" (course sc)) eqn:E; [|reflexivity].
      pose proof (has_type_exclusive _ _ _ E (Ts _ Hr)). discriminate. }
    rewrite Hnot. rewrite Ps in Hr. apply in_map_iff in Hr.
    destruct Hr as [r [<- Hr]]. apply incl_firstn in Hr.
    unfold matches_major, set_course_type. cbn [category]. symmetry. now apply Hother.
  - split; [|right; right; now apply Ta].
    assert (Hnot : has_type "mandatory" (course sc) = false).
    { destruct (has_type "mandatory" (course sc)) eqn:E; [|reflexivity].
      pose proof (has_type_exclusive _ _ _ E (Ta _ Hr)). discriminate. }
    rewrite Hnot. rewrite Pa in Hr. apply in_map_iff in Hr.
    destruct Hr as [r [<- Hr]]. do 2 apply incl_firstn in Hr.
    apply incl_skipn in Hr.
    unfold matches_major, set_course_type. cbn [category]. symmetry. now apply Hother.
Qed.

End ScheduleEligibility.
(** ** The schedule of two example tables *)

Module ScheduleWitnesses.
Import Exn Frame Schedule Blocks Examples Catalogues.
Import ScheduleCalendar ScheduleDistinct ScheduleEligibility.

Lemma schedule_has_at_most_four_modules_catalogue :
  exists modules,
    generate_smart_schedule (fun _ => 0%Z) (fun _ l => l) PlainRegex.regex_ok
      PlainRegex.regex_search 0 (Some catalogue) cs_student [] ["ART-2"] 4
    = Ok modules
    /\ modules <> []
    /\ List.length modules <= 4
    /\ ((0 <= 4)%Z -> List.length modules <= Z.to_nat 4)
    /\ (forall m, In m modules -> 1 <= module_number m <= 4)
    /\ (forall i m m',
           nth_error modules i = Some m ->
           nth_error modules (S i) = Some m' ->
           module_number m < module_number m').
Proof.
  eexists. split; [vm_compute; reflexivity|]. split; [discriminate|].
  apply (schedule_has_at_most_four_modules (fun _ => 0%Z) (fun _ l => l)
           PlainRegex.regex_ok PlainRegex.regex_search 0%Z (Some catalogue)
           cs_student [] ["ART-2"] 4%Z).
  vm_compute. reflexivity.
Defined.

Lemma schedule_modules_in_calendar_order_catalogue :
  exists modules,
    generate_smart_schedule (fun _ => 0%Z) (fun _ l => l) PlainRegex.regex_ok
      PlainRegex.regex_search 0 (Some catalogue) cs_student [] ["ART-2"] 4
    = Ok modules
    /\ modules <> []
    /\ (forall m,
           In m modules ->
           start_date m = (0 + start_offset (module_number m))%Z
           /\ end_date m = (start_date m + weeks 3)%Z)
    /\ (forall i m m',
           nth_error modules i = Some m ->
           nth_error modules (S i) = Some m' ->
           (end_date m <= start_date m')%Z).
Proof.
  eexists. split; [vm_compute; reflexivity|]. split; [discriminate|].
  apply (schedule_modules_in_calendar_order (fun _ => 0%Z) (fun _ l => l)
           PlainRegex.regex_ok PlainRegex.regex_search 0%Z (Some catalogue)
           cs_student [] ["ART-2"] 4%Z).
  vm_compute. reflexivity.
Defined.

Lemma schedule_slots_cycle_by_position_catalogue :
  exists modules,
    generate_smart_schedule (fun _ => 0%Z) (fun _ l => l) PlainRegex.regex_ok
      PlainRegex.regex_search 0 (Some catalogue) cs_student [] ["ART-2"] 4
    = Ok modules
    /\ modules <> []
    /\ forall m,
         In m modules ->
         courses m <> []
         /\ total_credits m = credits_of m
         /\ (forall i sc,
                nth_error (courses m) i = Some sc ->
                slot_number sc = i mod 3 + 1
                /\ time_slot sc
                   = nth (i mod 3)
                       ["9:00 AM - 12:20 PM"; "1:00 PM - 4:20 PM";
                        "5:00 PM - 8:20 PM"] "")
         /\ (forall a b,
                nth_error (courses m) 0 = Some a ->
                nth_error (courses m) 3 = Some b ->
                time_slot a = time_slot b).
Proof.
  eexists. split; [vm_compute; reflexivity|]. split; [discriminate|].
  apply (schedule_slots_cycle_by_position (fun _ => 0%Z) (fun _ l => l)
           PlainRegex.regex_ok PlainRegex.regex_search 0%Z (Some catalogue)
           cs_student [] ["ART-2"] 4%Z).
  vm_compute. reflexivity.
Defined.

Lemma two_levels_ids_distinct : NoDup (map course_id (rows two_levels)).
Proof.
  cbn. repeat (constructor;
               [cbn; intros H;
                repeat (destruct H as [H|H]; [discriminate H|]); exact H|]).
  constructor.
Qed.

Lemma two_levels_algorithms_eligible :
  exists c,
    In c (rows (eligible two_levels cs_student))
    /\ matches_major PlainRegex.regex_search (major_of cs_student) c = true.
Proof.
  exists (levelled "CS-1" "Algorithms" "Computer Science" "Bachelor").
  split; [vm_compute; now left|vm_compute; reflexivity].
Qed.

Lemma schedule_has_no_repeated_course_two_levels :
  exists modules,
    generate_smart_schedule (fun _ => 0%Z) (fun _ l => l) PlainRegex.regex_ok
      PlainRegex.regex_search 0 (Some two_levels) cs_student [] [] 4
    = Ok modules
    /\ modules <> []
    /\ NoDup (schedule_ids modules).
Proof.
  eexists. split; [vm_compute; reflexivity|]. split; [discriminate|].
  apply (schedule_has_no_repeated_course (fun _ => 0%Z) (fun _ l => l)
           PlainRegex.regex_ok PlainRegex.regex_search 0%Z two_levels
           cs_student [] [] 4%Z).
  - intros seed l. apply Permutation_refl.
  - exact two_levels_ids_distinct.
  - right. exact two_levels_algorithms_eligible.
  - vm_compute. reflexivity.
Defined.

Lemma scheduled_courses_come_from_table_two_levels :
  exists modules,
    generate_smart_schedule (fun _ => 0%Z) (fun _ l => l) PlainRegex.regex_ok
      PlainRegex.regex_search 0 (Some two_levels) cs_student [] [] 4
    = Ok modules
    /\ modules <> []
    /\ forall m sc,
         In m modules -> In sc (courses m) ->
         exists row,
           In row (rows two_levels)
           /\ course sc = set_course_type (course_type (course sc)) row.
Proof.
  eexists. split; [vm_compute; reflexivity|]. split; [discriminate|].
  apply (scheduled_courses_come_from_table (fun _ => 0%Z) (fun _ l => l)
           PlainRegex.regex_ok PlainRegex.regex_search 0%Z two_levels
           cs_student [] [] 4%Z).
  - intros seed l. apply incl_refl.
  - vm_compute. reflexivity.
Defined.

Lemma capstone_courses_are_not_scheduled_two_levels :
  exists modules,
    generate_smart_schedule (fun _ => 0%Z) (fun _ l => l) PlainRegex.regex_ok
      PlainRegex.regex_search 0 (Some two_levels) cs_student [] [] 4
    = Ok modules
    /\ modules <> []
    /\ forall m sc,
         In m modules -> In sc (courses m) ->
         is_capstone (course sc) = false.
Proof.
  eexists. split; [vm_compute; reflexivity|]. split; [discriminate|].
  apply (capstone_courses_are_not_scheduled (fun _ => 0%Z) (fun _ l => l)
           PlainRegex.regex_ok PlainRegex.regex_search 0%Z two_levels
           cs_student [] [] 4%Z).
  - intros seed l. apply incl_refl.
  - reflexivity.
  - reflexivity.
  - vm_compute. reflexivity.
Defined.

Lemma scheduled_courses_have_student_level_two_levels :
  exists modules,
    generate_smart_schedule (fun _ => 0%Z) (fun _ l => l) PlainRegex.regex_ok
      PlainRegex.regex_search 0 (Some two_levels) cs_student [] [] 4
    = Ok modules
    /\ modules <> []
    /\ forall m sc,
         In m modules -> In sc (courses m) ->
         exists l,
           Level (course sc) = Some l /\ Py.lower l = level_of cs_student.
Proof.
  eexists. split; [vm_compute; reflexivity|]. split; [discriminate|].
  apply (scheduled_courses_have_student_level (fun _ => 0%Z) (fun _ l => l)
           PlainRegex.regex_ok PlainRegex.regex_search 0%Z two_levels
           cs_student [] [] 4%Z).
  - intros seed l. apply incl_refl.
  - reflexivity.
  - exists (levelled "CS-1" "Algorithms" "Computer Science" "Bachelor"),
      "Bachelor".
    split; [now left|]. split; [reflexivity|vm_compute; reflexivity].
  - vm_compute. reflexivity.
Defined.

Lemma mandatory_courses_are_those_of_the_major_two_levels :
  exists modules,
    generate_smart_schedule (fun _ => 0%Z) (fun _ l => l) PlainRegex.regex_ok
      PlainRegex.regex_search 0 (Some two_levels) cs_student [] [] 4
    = Ok modules
    /\ modules <> []
    /\ forall m sc,
         In m modules -> In sc (courses m) ->
         has_type "mandatory" (course sc)
         = matches_major PlainRegex.regex_search (major_of cs_student)
             (course sc)
         /\ (has_type "mandatory" (course sc) = true
             \/ has_type "secondary" (course sc) = true
             \/ has_type "audit" (course sc) = true).
Proof.
  eexists. split; [vm_compute; reflexivity|]. split; [discriminate|].
  apply (mandatory_courses_are_those_of_the_major (fun _ => 0%Z)
           (fun _ l => l) PlainRegex.regex_ok PlainRegex.regex_search 0%Z
           two_levels cs_student [] [] 4%Z).
  - intros seed l. apply Permutation_refl.
  - reflexivity.
  - exact two_levels_algorithms_eligible.
  - vm_compute. reflexivity.
Defined.

End ScheduleWitnesses.
(** ** The conflict detector, the alternatives and the warning together *)

Module TimetableComposition.
Import Timetable Alternatives TimetableFacts HandlersFacts.
Local Open Scope string_scope.

Lemma filter_nil_iff {A : Type} (p : A -> bool) (l : list A) :
  filter p l = [] <-> forall x, In x l -> p x = false.
Proof.
  induction l as [|a l IH]; simpl.
  - split; [intros _ x []|reflexivity].
  - destruct (p a) eqn:E.
    + split; [discriminate|]. intros H.
      specialize (H a (or_introl eq_refl)). congruence.
    + rewrite IH. split.
      * intros H x [<-|Hx]; auto.
      * intros H x Hx. apply H. now right.
Qed.

Lemma slot_taken_iff (t : string) (l : list CourseDict) :
  t <> "" ->
  (In t (map time_of (filter scheduled l))
   <-> exists d, In d l /\ time_of d = t).
Proof.
  intros Hne. rewrite in_map_iff. split.
  - intros [d [Hd Hin]]. apply filter_In in Hin. exists d. tauto.
  - intros [d [Hin Hd]]. exists d. split; [assumption|].
    apply filter_In. split; [assumption|]. unfold scheduled.
    apply truthy_true. now rewrite Hd.
Qed.

Lemma same_slot_pairs_nil_iff (l : list CourseDict) :
  same_slot_pairs l = [] <-> NoDup (map time_of (filter scheduled l)).
Proof.
  induction l as [|c l IH]; [split; [constructor|reflexivity]|].
  cbn [same_slot_pairs filter].
  change (scheduled c) with (Py.truthy (time_of c)).
  destruct (Py.truthy (time_of c)) eqn:Hc.
  - cbn [map]. rewrite NoDup_cons_iff, <- IH.
    assert (Hne : time_of c <> "") by now apply truthy_true.
    rewrite (slot_taken_iff (time_of c) l Hne). split.
    + intros H. apply app_eq_nil in H. destruct H as [H1 H2].
      split; [|assumption]. intros [d [Hin Hd]].
      apply map_eq_nil in H1.
      rewrite filter_nil_iff in H1. specialize (H1 d Hin).
      cbn [andb] in H1. rewrite Hd, String.eqb_refl in H1. discriminate.
    + intros [H1 H2]. rewrite H2, app_nil_r.
      assert (Hf : filter (fun d => true && String.eqb (time_of d) (time_of c))
                     l = []).
      { apply filter_nil_iff. intros d Hin. cbn [andb].
        apply String.eqb_neq. intros Hd. apply H1. now exists d. }
      now rewrite Hf.
  - rewrite <- IH.
    assert (Hf : filter (fun d => false && String.eqb (time_of d) (time_of c))
                   l = [])
      by (apply filter_nil_iff; reflexivity).
    rewrite Hf. reflexivity.
Qed.

Lemma no_conflicts_iff_distinct_aux (course_list : list CourseDict) :
  get_all_timetable_conflicts course_list = []
  <-> NoDup (map time_of (filter scheduled course_list)).
Proof.
  rewrite <- same_slot_pairs_nil_iff.
  pose proof (conflicts_perm_same_slot_pairs course_list) as H. split.
  - intros E. rewrite E in H. now apply Permutation_nil in H.
  - intros E. rewrite E in H. apply Permutation_sym in H.
    now apply Permutation_nil in H.
Qed.

(** X12.  [get_all_timetable_conflicts] reports nothing exactly when the
    courses that have a time slot have pairwise different slots. *)
Theorem no_conflicts_iff_slots_distinct :
  forall course_list : list CourseDict,
    get_all_timetable_conflicts course_list = []
    <-> NoDup (map time_of (filter scheduled course_list)).
Proof. exact no_conflicts_iff_distinct_aux. Qed.

Lemma check_reports_iff enrolled new_course :
  fst (check_timetable_conflict enrolled new_course) = true
  <-> time_of new_course <> ""
      /\ exists d, In d enrolled /\ time_of d = time_of new_course.
Proof.
  rewrite check_timetable_conflict_spec.
  destruct (Py.truthy (time_of new_course)) eqn:Hn.
  - cbn [fst]. unfold equal_slot_names. rewrite length_map, Nat.ltb_lt.
    apply truthy_true in Hn. split.
    + intros H. split; [assumption|].
      destruct (filter _ enrolled) as [|d r] eqn:E; [simpl in H; lia|].
      assert (Hd : In d (filter (fun c => String.eqb (time_of c)
                                            (time_of new_course)) enrolled))
        by (rewrite E; now left).
      apply filter_In in Hd. exists d. split; [tauto|].
      now apply String.eqb_eq.
    + intros [_ [d [Hin Hd]]].
      assert (Hf : In d (filter (fun c => String.eqb (time_of c)
                                            (time_of new_course)) enrolled)).
      { apply filter_In. split; [assumption|]. now apply String.eqb_eq. }
      destruct (filter _ enrolled); [destruct Hf|simpl; lia].
  - cbn [fst]. split; [discriminate|]. intros [Hne _].
    apply truthy_true in Hne. congruence.
Qed.

Lemma NoDup_snoc {A : Type} (l : list A) (a : A) :
  NoDup (l ++ [a]) <-> ~ In a l /\ NoDup l.
Proof.
  rewrite <- NoDup_cons_iff. split; apply Permutation_NoDup.
  - apply Permutation_sym, Permutation_cons_append.
  - apply Permutation_cons_append.
Qed.

(** X13.  Adding to a list without conflicts a course that
    [check_timetable_conflict] accepts leaves the list without conflicts,
    and adding one that it rejects creates a conflict. *)
Theorem accepted_course_keeps_timetable_free :
  forall (enrolled : list CourseDict) (new_course : CourseDict),
    get_all_timetable_conflicts enrolled = [] ->
    (get_all_timetable_conflicts (enrolled ++ [new_course]) = []
     <-> fst (check_timetable_conflict enrolled new_course) = false).
Proof.
  intros enrolled new_course Hfree.
  rewrite no_conflicts_iff_distinct_aux in *.
  rewrite filter_app, map_app. cbn [filter].
  change (scheduled new_course) with (Py.truthy (time_of new_course)).
  destruct (Py.truthy (time_of new_course)) eqn:Hn.
  - cbn [map]. rewrite NoDup_snoc.
    apply truthy_true in Hn. rewrite (slot_taken_iff _ enrolled Hn).
    pose proof (check_reports_iff enrolled new_course) as Hc.
    destruct (fst (check_timetable_conflict enrolled new_course)).
    + split; [|discriminate]. intros [Hno _]. exfalso. apply Hno.
      now apply Hc.
    + split; [reflexivity|]. intros _. split; [|assumption].
      intros Hd. destruct Hc as [_ Hc]. specialize (Hc (conj Hn Hd)).
      discriminate.
  - cbn [map]. rewrite app_nil_r. split; [|now intros _].
    intros _. rewrite check_timetable_conflict_spec, Hn. reflexivity.
Qed.

Lemma accepted_course_keeps_timetable_free_evening :
  get_all_timetable_conflicts
    ([Timetables.morning_algebra; Timetables.afternoon_logic]
     ++ [Timetables.evening_physics]) = []
  <-> fst (check_timetable_conflict
             [Timetables.morning_algebra; Timetables.afternoon_logic]
             Timetables.evening_physics) = false.
Proof.
  apply (accepted_course_keeps_timetable_free
           [Timetables.morning_algebra; Timetables.afternoon_logic]
           Timetables.evening_physics).
  reflexivity.
Defined.

(** *** Alternative slots *)

(** X14.  Every slot that [suggest_alternative_time] proposes, given the
    slots of the enrolled courses as excluded, is one of the three class
    times of the scheduler and passes [check_timetable_conflict] against
    the enrolled courses; without exclusions all three are proposed. *)
Theorem suggested_slots_do_not_conflict :
  forall (enrolled : list CourseDict) (course_name : string)
         (name : option string) (t : string),
    In t (suggest_alternative_time course_name
            (Some (map time_of enrolled))) ->
    In t (map snd Schedule.CLASS_TIMES)
    /\ check_timetable_conflict enrolled (mkCourseDict (Some t) name)
       = (false, [])
    /\ suggest_alternative_time course_name None
       = map snd Schedule.CLASS_TIMES.
Proof.
  intros enrolled course_name name t Ht.
  unfold suggest_alternative_time in Ht. cbn [Py.get_or] in Ht.
  apply filter_In in Ht. destruct Ht as [Hall Hex].
  split; [exact Hall|]. split; [|reflexivity].
  rewrite check_timetable_conflict_spec.
  destruct (Py.truthy _); [|reflexivity].
  unfold equal_slot_names.
  assert (Hf : filter (fun c => String.eqb (time_of c)
                                  (time_of (mkCourseDict (Some t) name)))
                 enrolled = []).
  { apply filter_nil_iff. intros d Hd. apply String.eqb_neq. intros E.
    apply negb_true_iff in Hex.
    assert (Hin : existsb (String.eqb t) (map time_of enrolled) = true).
    { apply existsb_exists. exists (time_of d).
      split; [now apply in_map|]. apply String.eqb_eq. now rewrite E. }
    congruence. }
  rewrite Hf. reflexivity.
Qed.

Lemma suggested_slots_do_not_conflict_evening :
  In "5:00 PM - 8:20 PM" (map snd Schedule.CLASS_TIMES)
  /\ check_timetable_conflict
       [Timetables.morning_algebra; Timetables.afternoon_logic]
       (mkCourseDict (Some "5:00 PM - 8:20 PM") (Some "Physics"))
     = (false, [])
  /\ suggest_alternative_time "Physics" None = map snd Schedule.CLASS_TIMES.
Proof.
  apply (suggested_slots_do_not_conflict
           [Timetables.morning_algebra; Timetables.afternoon_logic]
           "Physics" (Some "Physics") "5:00 PM - 8:20 PM").
  vm_compute. now left.
Defined.

(** *** The warning *)

Section WarningFacts.

Variable warning_sign : string.
Variable bullet : string.

Lemma append_nonempty (s t : string) : t <> "" -> s ++ t <> "".
Proof. destruct s; [auto|discriminate]. Qed.

Lemma bullets_keep (needle : string) (names : list string) (w : string) :
  Py.contains needle w = true ->
  Py.contains needle
    (fold_left (fun warning course => warning ++ bullet ++ " " ++ course
                                      ++ Handlers.nl) names w) = true.
Proof.
  revert w. induction names as [|n names IH]; intros w H; cbn [fold_left];
    [assumption|].
  apply IH. now apply contains_append_l.
Qed.

Lemma bullets_name (names : list string) (w c : string) :
  In c names ->
  Py.contains c
    (fold_left (fun warning course => warning ++ bullet ++ " " ++ course
                                      ++ Handlers.nl) names w) = true.
Proof.
  revert w. induction names as [|n names IH]; intros w Hc;
    [destruct Hc|]. destruct Hc as [<-|Hc]; cbn [fold_left].
  - apply bullets_keep. apply contains_append_r, contains_append_r.
    apply contains_append_r. apply contains_prefix.
  - now apply IH.
Qed.

Lemma warning_empty_iff names new_course_name :
  generate_conflict_warning warning_sign bullet names new_course_name = ""
  <-> names = [].
Proof.
  unfold generate_conflict_warning. destruct names as [|n names].
  - split; reflexivity.
  - split; [|discriminate]. cbv zeta. intros H. exfalso. revert H.
    apply append_nonempty. discriminate.
Qed.

Lemma warning_names names new_course_name :
  names <> [] ->
  Py.contains new_course_name
    (generate_conflict_warning warning_sign bullet names new_course_name)
  = true
  /\ forall c,
       In c names ->
       Py.contains c
         (generate_conflict_warning warning_sign bullet names
            new_course_name) = true.
Proof.
  intros Hne. unfold generate_conflict_warning.
  destruct names as [|n names]; [now elim Hne|]. cbv zeta. split.
  - apply contains_append_l, contains_append_l. apply bullets_keep.
    apply contains_append_r, contains_append_r. apply contains_prefix.
  - intros c Hc. apply contains_append_l, contains_append_l.
    now apply bullets_name.
Qed.

End WarningFacts.

(** X15.  The warning made from the result of [check_timetable_conflict]
    is the empty text exactly when the check reports no conflict;
    otherwise it quotes the name of the new course and the name of every
    conflicting course. *)
Theorem warning_follows_the_check :
  forall (warning_sign bullet : string) (enrolled : list CourseDict)
         (new_course : CourseDict) (new_course_name : string),
    let result := check_timetable_conflict enrolled new_course in
    let warning :=
      generate_conflict_warning warning_sign bullet (snd result)
        new_course_name in
    (warning = "" <-> fst result = false)
    /\ (fst result = true ->
        Py.contains new_course_name warning = true
        /\ forall c, In c (snd result) -> Py.contains c warning = true).
Proof.
  intros warning_sign bullet enrolled new_course new_course_name. cbv zeta.
  rewrite warning_empty_iff.
  assert (Hfs : fst (check_timetable_conflict enrolled new_course) = false
                <-> snd (check_timetable_conflict enrolled new_course) = []).
  { rewrite check_timetable_conflict_spec.
    destruct (Py.truthy _); cbn [fst snd]; [|tauto].
    destruct (equal_slot_names enrolled new_course); cbn; split;
      (reflexivity || discriminate). }
  split; [now rewrite Hfs|].
  intros Htrue. apply warning_names. intros Hnil.
  apply Hfs in Hnil. congruence.
Qed.

End TimetableComposition.
(** ** Facts about the lecturers of the courses *)

Module LecturersFacts.
Import Exn Frame Lecturers.
Local Open Scope string_scope.

(** *** The best match *)

(** What the inner loop leaves: no lecturer when every score is 0, else
    the first lecturer whose score is the highest. *)
Lemma best_of_spec (score_of : LecturerRow -> nat) (ls : list LecturerRow) :
  match best_of score_of ls with
  | (None, s) => s = 0 /\ Forall (fun l => score_of l = 0) ls
  | (Some b, s) =>
      s = score_of b /\ 0 < s
      /\ exists pre post,
           ls = (pre ++ b :: post)%list
           /\ Forall (fun l => score_of l < score_of b) pre
           /\ Forall (fun l => score_of l <= score_of b) post
  end.
Proof.
  unfold best_of. induction ls as [|x ls IH] using rev_ind.
  - simpl. split; [reflexivity|constructor].
  - rewrite fold_left_app. cbn [fold_left].
    destruct (fold_left _ ls (None, 0)) as [[b|] s]; cbn [snd].
    + destruct IH as [Hs [Hpos [pre [post [Hls [Hpre Hpost]]]]]].
      destruct (s <? score_of x)%nat eqn:E.
      * apply Nat.ltb_lt in E. split; [reflexivity|]. split; [lia|].
        exists ls, []. split; [reflexivity|]. split; [|constructor].
        rewrite Hls. apply Forall_app. split.
        -- eapply Forall_impl; [|exact Hpre]. simpl. intros. lia.
        -- constructor; [lia|].
           eapply Forall_impl; [|exact Hpost]. simpl. intros. lia.
      * apply Nat.ltb_ge in E. split; [assumption|]. split; [assumption|].
        exists pre, (post ++ [x])%list. split.
        -- rewrite Hls, <- app_assoc. reflexivity.
        -- split; [assumption|]. apply Forall_app. split; [assumption|].
           constructor; [lia|constructor].
    + destruct IH as [Hs Hall]. subst s.
      destruct (0 <? score_of x)%nat eqn:E.
      * apply Nat.ltb_lt in E. split; [reflexivity|]. split; [assumption|].
        exists ls, []. split; [reflexivity|]. split; [|constructor].
        eapply Forall_impl; [|exact Hall]. simpl. intros. lia.
      * apply Nat.ltb_ge in E. split; [reflexivity|].
        apply Forall_app. split; [assumption|].
        constructor; [lia|constructor].
Qed.

(** *** The map *)

Lemma entry_of_set_same key value d :
  entry_of (set_entry key value d) key = Some value.
Proof.
  unfold entry_of. induction d as [|[k v] d IH]; simpl.
  - now rewrite String.eqb_refl.
  - destruct (String.eqb k key) eqn:E; simpl; rewrite E; [reflexivity|].
    exact IH.
Qed.

Lemma entry_of_set_other key value d key' :
  key' <> key -> entry_of (set_entry key value d) key' = entry_of d key'.
Proof.
  intros Hne. unfold entry_of. induction d as [|[k v] d IH]; simpl.
  - apply String.eqb_neq in Hne. rewrite String.eqb_sym in Hne.
    now rewrite Hne.
  - destruct (String.eqb k key) eqn:E; simpl.
    + apply String.eqb_eq in E. subst k.
      apply String.eqb_neq in Hne. rewrite String.eqb_sym in Hne.
      now rewrite Hne.
    + destruct (String.eqb k key'); [reflexivity|exact IH].
Qed.

Lemma map_course_other df ls d c d' key :
  map_course df ls d c = Ok d' -> key <> course_id c ->
  entry_of d' key = entry_of d key.
Proof.
  unfold map_course. cbv zeta. intros H Hne.
  destruct (fst (best_of _ ls)) as [b|]; [|now inversion H].
  destruct (info_of b) as [info|e]; [|discriminate]. cbn [bind] in H.
  destruct (has_column "course_id" df); [|discriminate].
  inversion H. now apply entry_of_set_other.
Qed.

Lemma map_course_keeps df ls d c d' key info :
  map_course df ls d c = Ok d' -> entry_of d key = Some info ->
  exists info', entry_of d' key = Some info'.
Proof.
  intros H Hk. destruct (string_dec key (course_id c)) as [->|Hne].
  - unfold map_course in H. cbv zeta in H.
    destruct (fst (best_of _ ls)) as [b|]; [|inversion H; subst; eauto].
    destruct (info_of b) as [i|e]; [|discriminate]. cbn [bind] in H.
    destruct (has_column "course_id" df); [|discriminate].
    inversion H. rewrite entry_of_set_same. eauto.
  - rewrite (map_course_other _ _ _ _ _ _ H Hne). eauto.
Qed.

Lemma map_courses_other df ls courses d d' e key :
  map_courses df ls d courses = (d', e) ->
  ~ In key (map course_id courses) ->
  entry_of d' key = entry_of d key.
Proof.
  revert d. induction courses as [|c courses IH]; intros d H Hk;
    cbn [map_courses] in H; [now inversion H|].
  destruct (map_course df ls d c) as [d1|e1] eqn:E1; [|now inversion H].
  rewrite (IH d1 H); [|intros Hin; apply Hk; now right].
  eapply map_course_other; [exact E1|].
  intros ->. apply Hk. now left.
Qed.

Lemma map_courses_keeps df ls courses d d' e key info :
  map_courses df ls d courses = (d', e) -> entry_of d key = Some info ->
  exists info', entry_of d' key = Some info'.
Proof.
  revert d info. induction courses as [|c courses IH]; intros d info H Hk;
    cbn [map_courses] in H; [inversion H; subst; eauto|].
  destruct (map_course df ls d c) as [d1|e1] eqn:E1;
    [|inversion H; subst; eauto].
  destruct (map_course_keeps _ _ _ _ _ _ _ E1 Hk) as [info1 H1].
  eapply IH; eassumption.
Qed.

(** One pass that does not raise, on the entry of its course. *)
Lemma map_course_entry df ls d c d' :
  map_course df ls d c = Ok d' ->
  let score_of :=
    match_score (course_skills c) (course_category df c)
      (course_name_text df c) in
  match fst (best_of score_of ls) with
  | None => entry_of d' (course_id c) = entry_of d (course_id c)
  | Some b =>
      exists info, info_of b = Ok info
                   /\ entry_of d' (course_id c) = Some info
  end.
Proof.
  unfold map_course. cbv zeta. intros H.
  destruct (fst (best_of _ ls)) as [b|]; [|now inversion H].
  destruct (info_of b) as [info|e]; [|discriminate]. cbn [bind] in H.
  destruct (has_column "course_id" df); [|discriminate].
  inversion H. exists info. split; [reflexivity|].
  apply entry_of_set_same.
Qed.

Lemma map_courses_entry df ls courses d d' c :
  map_courses df ls d courses = (d', None) ->
  NoDup (map course_id courses) -> In c courses ->
  let score_of :=
    match_score (course_skills c) (course_category df c)
      (course_name_text df c) in
  match fst (best_of score_of ls) with
  | None => entry_of d' (course_id c) = entry_of d (course_id c)
  | Some b =>
      exists info, info_of b = Ok info
                   /\ entry_of d' (course_id c) = Some info
  end.
Proof.
  revert d. induction courses as [|x courses IH]; intros d H Hnd Hc;
    [destruct Hc|].
  cbn [map_courses] in H.
  destruct (map_course df ls d x) as [d1|e1] eqn:E1; [|discriminate].
  cbn [map] in Hnd. apply NoDup_cons_iff in Hnd. destruct Hnd as [Hx Hnd].
  destruct Hc as [->|Hc].
  - rewrite (map_courses_other _ _ _ _ _ _ _ H Hx).
    now apply map_course_entry.
  - pose proof (IH d1 H Hnd Hc) as Hrest. cbv zeta in *.
    assert (Hne : course_id c <> course_id x).
    { intros E. apply Hx. rewrite <- E. now apply in_map. }
    destruct (fst (best_of _ ls)); [exact Hrest|].
    rewrite Hrest. eapply map_course_other; eassumption.
Qed.

Lemma contains_empty (s : string) : Py.contains "" s = true.
Proof. now destruct s. Qed.

Lemma match_score_empty_category skills name_text lecturer :
  2 <= match_score skills "" name_text lecturer.
Proof.
  unfold match_score. cbv zeta. rewrite contains_empty. cbn [orb]. lia.
Qed.

(** X16.  After [_map_lecturers_to_courses] has run without raising on a
    table of distinct course ids, a course for which every lecturer scores
    0 keeps the entry it had, and a course for which some lecturer scores
    more gets the entry of the first lecturer with the highest score; a
    course whose category text is empty gets an entry as soon as there is
    a lecturer. *)
Theorem course_gets_first_best_lecturer :
  forall (self self' : State) (df : DataFrame) (ls : list LecturerRow)
         (c : CourseRecord),
    courses_df self = Some df ->
    lecturers_df self = Some ls ->
    _map_lecturers_to_courses self = (self', None) ->
    NoDup (map course_id (rows df)) ->
    In c (rows df) ->
    let score_of :=
      match_score (course_skills c) (course_category df c)
        (course_name_text df c) in
    (Forall (fun l => score_of l = 0) ls ->
     get_lecturer_details self' (course_id c)
     = get_lecturer_details self (course_id c))
    /\ (Exists (fun l => 0 < score_of l) ls ->
        exists best pre post info,
          ls = (pre ++ best :: post)%list
          /\ Forall (fun l => score_of l < score_of best) pre
          /\ Forall (fun l => score_of l <= score_of best) post
          /\ info_of best = Ok info
          /\ get_lecturer_details self' (course_id c) = Some info)
    /\ (course_category df c = "" -> ls <> [] ->
        exists info, get_lecturer_details self' (course_id c) = Some info).
Proof.
  intros self self' df ls c Hdf Hls Hrun Hnd Hc. cbv zeta.
  unfold _map_lecturers_to_courses in Hrun. rewrite Hdf, Hls in Hrun.
  destruct (map_courses df ls (course_lecturer_map self) (rows df))
    as [d e] eqn:E.
  inversion Hrun; subst self' e. clear Hrun.
  unfold get_lecturer_details. cbn [course_lecturer_map].
  pose proof (map_courses_entry df ls (rows df) _ _ c E Hnd Hc) as Hentry.
  cbv zeta in Hentry.
  set (score_of := match_score (course_skills c) (course_category df c)
                     (course_name_text df c)) in *.
  pose proof (best_of_spec score_of ls) as Hbest.
  destruct (best_of score_of ls) as [[b|] s]; cbn [fst] in Hentry.
  - destruct Hbest as [Hs [Hpos [pre [post [Hsplit [Hpre Hpost]]]]]].
    destruct Hentry as [info [Hinfo Hget]].
    split; [|split].
    + intros Hall. exfalso. rewrite Forall_forall in Hall.
      assert (Hb : In b ls) by (rewrite Hsplit; apply in_elt).
      specialize (Hall b Hb). lia.
    + intros _. exists b, pre, post, info. repeat split; assumption.
    + intros _ _. now exists info.
  - destruct Hbest as [_ Hall]. split; [|split].
    + intros _. exact Hentry.
    + intros Hex. exfalso. apply Exists_exists in Hex.
      destruct Hex as [l [Hl Hpos]]. rewrite Forall_forall in Hall.
      specialize (Hall l Hl). lia.
    + intros Hcat Hne. exfalso. destruct ls as [|l ls']; [now elim Hne|].
      inversion Hall as [|? ? H0 _]; subst.
      unfold score_of in H0. rewrite Hcat in H0.
      pose proof (match_score_empty_category (course_skills c)
                    (course_name_text df c) l). lia.
Qed.

(** X17.  [_map_lecturers_to_courses] never removes an entry, whether it
    raises or not: a course that had a lecturer still has one, and the
    entry of a course that is not in the table is unchanged. *)
Theorem mapping_keeps_earlier_entries :
  forall (self self' : State) (e : option exn) (id : string)
         (info : LecturerInfo),
    _map_lecturers_to_courses self = (self', e) ->
    get_lecturer_details self id = Some info ->
    (exists info', get_lecturer_details self' id = Some info')
    /\ (forall df,
           courses_df self = Some df ->
           ~ In id (map course_id (rows df)) ->
           get_lecturer_details self' id = Some info).
Proof.
  intros self self' e id info Hrun Hget.
  unfold _map_lecturers_to_courses in Hrun.
  unfold get_lecturer_details in *.
  destruct (lecturers_df self) as [ls|];
    [|inversion Hrun; subst; split; [eauto|intros; assumption]].
  destruct (courses_df self) as [df|] eqn:Hdf;
    [|inversion Hrun; subst; split; [eauto|intros; assumption]].
  destruct (map_courses df ls (course_lecturer_map self) (rows df))
    as [d e'] eqn:E.
  inversion Hrun; subst self' e'. cbn [course_lecturer_map]. split.
  - eapply map_courses_keeps; eassumption.
  - intros df' Hdf' Hnot. inversion Hdf'; subst df'.
    rewrite (map_courses_other _ _ _ _ _ _ _ E Hnot). exact Hget.
Qed.

(** *** The courses of a lecturer *)

(** [get_all_lecturer_courses] entry by entry of the map. *)
Lemma lecturer_courses_fold self lecturer_name df :
  courses_df self = Some df ->
  has_column "course_id" df = true ->
  get_all_lecturer_courses self lecturer_name
  = Ok (flat_map
          (fun item : string * LecturerInfo =>
             if String.eqb (info_name (snd item)) lecturer_name
             then firstn 1
                    (filter (fun c => String.eqb (course_id c) (fst item))
                       (rows df))
             else [])
          (course_lecturer_map self)).
Proof.
  intros Hdf Hcol. unfold get_all_lecturer_courses.
  match goal with |- fold_left ?F _ _ = Ok (flat_map ?G _) =>
    set (f := F); set (g := G)
  end.
  assert (Hstep : forall acc item, f (Ok acc) item = Ok (acc ++ g item)%list).
  { intros acc [id info]. unfold f, g. cbn [bind fst snd].
    rewrite Hdf, Hcol.
    destruct (String.eqb (info_name info) lecturer_name);
      [|now rewrite app_nil_r].
    cbv zeta. unfold empty. cbn [select rows columns].
    destruct (filter _ (rows df)) as [|first rest];
      [now rewrite app_nil_r|].
    destruct (columns df) as [|col cols] eqn:Ec; [|reflexivity].
    unfold has_column in Hcol. rewrite Ec in Hcol. discriminate. }
  assert (Hfold : forall entries acc,
             fold_left f entries (Ok acc)
             = Ok (acc ++ flat_map g entries)%list).
  { induction entries as [|item entries IH]; intros acc;
      cbn [fold_left flat_map]; [now rewrite app_nil_r|].
    now rewrite Hstep, IH, <- app_assoc. }
  now rewrite Hfold.
Qed.

(** X18.  With a table that has a [course_id] column,
    [get_all_lecturer_courses] returns, for every entry of the map under
    the given name whose course is in the table, the first row with that
    course id, and nothing else. *)
Theorem lecturer_courses_are_the_mapped_ones :
  forall (self : State) (df : DataFrame) (lecturer_name : string),
    courses_df self = Some df ->
    has_column "course_id" df = true ->
    exists lecturer_courses,
      get_all_lecturer_courses self lecturer_name = Ok lecturer_courses
      /\ (forall c,
             In c lecturer_courses ->
             In c (rows df)
             /\ exists info,
                  In (course_id c, info) (course_lecturer_map self)
                  /\ info_name info = lecturer_name)
      /\ (forall id info c,
             In (id, info) (course_lecturer_map self) ->
             info_name info = lecturer_name ->
             In c (rows df) -> course_id c = id ->
             exists first,
               In first lecturer_courses /\ course_id first = id).
Proof.
  intros self df lecturer_name Hdf Hcol.
  rewrite (lecturer_courses_fold self lecturer_name df Hdf Hcol).
  eexists. split; [reflexivity|]. split.
  - intros c Hc. apply in_flat_map in Hc.
    destruct Hc as [[id info] [Hitem Hc]]. cbn [fst snd] in Hc.
    destruct (String.eqb (info_name info) lecturer_name) eqn:En;
      [|destruct Hc].
    assert (Hf : In c (filter (fun c => String.eqb (course_id c) id)
                         (rows df))).
    { rewrite <- (firstn_skipn 1 (filter _ _)). apply in_or_app.
      now left. }
    apply filter_In in Hf. destruct Hf as [Hin Hid].
    apply String.eqb_eq in Hid, En. split; [assumption|].
    exists info. now rewrite Hid.
  - intros id info c Hitem Hname Hc Hid.
    assert (Hf : In c (filter (fun c => String.eqb (course_id c) id)
                         (rows df))).
    { apply filter_In. split; [assumption|]. now apply String.eqb_eq. }
    destruct (filter (fun c => String.eqb (course_id c) id) (rows df))
      as [|first rest] eqn:E; [destruct Hf|].
    exists first. split.
    + apply in_flat_map. exists (id, info). split; [assumption|].
      cbn [fst snd]. rewrite E.
      apply String.eqb_eq in Hname. rewrite Hname. now left.
    + assert (Hfirst : In first (filter (fun c => String.eqb (course_id c)
                                                   id) (rows df)))
        by (rewrite E; now left).
      apply filter_In in Hfirst. now apply String.eqb_eq.
Qed.

(** *** The art school *)

Lemma course_gets_first_best_lecturer_art_school :
  let score_of :=
    match_score (course_skills Examples.painting)
      (course_category Examples.art_table Examples.painting)
      (course_name_text Examples.art_table Examples.painting) in
  (Forall (fun l => score_of l = 0) [Faculty.ada; Faculty.bo] ->
   get_lecturer_details Faculty.art_school_mapped "ART-101"
   = get_lecturer_details Faculty.art_school "ART-101")
  /\ (Exists (fun l => 0 < score_of l) [Faculty.ada; Faculty.bo] ->
      exists best pre post info,
        [Faculty.ada; Faculty.bo] = (pre ++ best :: post)%list
        /\ Forall (fun l => score_of l < score_of best) pre
        /\ Forall (fun l => score_of l <= score_of best) post
        /\ info_of best = Ok info
        /\ get_lecturer_details Faculty.art_school_mapped "ART-101"
           = Some info)
  /\ (course_category Examples.art_table Examples.painting = "" ->
      [Faculty.ada; Faculty.bo] <> [] ->
      exists info,
        get_lecturer_details Faculty.art_school_mapped "ART-101"
        = Some info).
Proof.
  apply (course_gets_first_best_lecturer Faculty.art_school
           Faculty.art_school_mapped Examples.art_table
           [Faculty.ada; Faculty.bo] Examples.painting).
  - reflexivity.
  - reflexivity.
  - vm_compute. reflexivity.
  - cbn. repeat (constructor;
                 [cbn; intros H;
                  repeat (destruct H as [H|H]; [discriminate H|]);
                  exact H|]).
    constructor.
  - now left.
Defined.

Lemma mapping_keeps_earlier_entries_art_school :
  (exists info',
      get_lecturer_details
        (fst (_map_lecturers_to_courses Faculty.art_school_mapped))
        "ART-101" = Some info')
  /\ (forall df,
         courses_df Faculty.art_school_mapped = Some df ->
         ~ In "ART-101" (map course_id (rows df)) ->
         get_lecturer_details
           (fst (_map_lecturers_to_courses Faculty.art_school_mapped))
           "ART-101"
         = Some (mkLecturerInfo "L-1" "Ada" "Painter" "Atelier" ""
                   "colour, art" "ada@example.org")).
Proof.
  apply (mapping_keeps_earlier_entries Faculty.art_school_mapped
           (fst (_map_lecturers_to_courses Faculty.art_school_mapped))
           (snd (_map_lecturers_to_courses Faculty.art_school_mapped))
           "ART-101"
           (mkLecturerInfo "L-1" "Ada" "Painter" "Atelier" ""
              "colour, art" "ada@example.org")).
  - now destruct (_map_lecturers_to_courses Faculty.art_school_mapped).
  - vm_compute. reflexivity.
Defined.

Lemma lecturer_courses_are_the_mapped_ones_art_school :
  exists lecturer_courses,
    get_all_lecturer_courses Faculty.art_school_mapped "Ada"
    = Ok lecturer_courses
    /\ (forall c,
           In c lecturer_courses ->
           In c (rows Examples.art_table)
           /\ exists info,
                In (course_id c, info)
                  (course_lecturer_map Faculty.art_school_mapped)
                /\ info_name info = "Ada")
    /\ (forall id info c,
           In (id, info) (course_lecturer_map Faculty.art_school_mapped) ->
           info_name info = "Ada" ->
           In c (rows Examples.art_table) -> course_id c = id ->
           exists first,
             In first lecturer_courses /\ course_id first = id).
Proof.
  apply (lecturer_courses_are_the_mapped_ones Faculty.art_school_mapped
           Examples.art_table "Ada"); reflexivity.
Defined.

End LecturersFacts.
(** ** Greetings, case and margins in the classifier *)

Module ClassifierMore.
Import Intent HandlersFacts.
Local Open Scope string_scope.

(** *** Greetings come first *)

Lemma append_assoc_text (a b c : string) : (a ++ b) ++ c = a ++ b ++ c.
Proof. induction a as [|x a IH]; simpl; [reflexivity|now rewrite IH]. Qed.

Lemma greeting_keyword_not_empty kw : In kw greeting_keywords -> kw <> "".
Proof.
  intros H. simpl in H.
  repeat (destruct H as [<-|H]; [discriminate|]). destruct H.
Qed.

Lemma how_are_you_keyword_not_empty kw :
  In kw how_are_you_keywords -> kw <> "".
Proof.
  intros H. simpl in H.
  repeat (destruct H as [<-|H]; [discriminate|]). destruct H.
Qed.

Lemma starts_as_greeting q0 kw rest :
  In kw greeting_keywords ->
  q0 = kw \/ q0 = kw ++ " " ++ rest \/ q0 = kw ++ "," ++ rest ->
  is_greeting q0 = true.
Proof.
  intros Hkw H. unfold is_greeting. apply existsb_exists. exists kw.
  split; [assumption|]. destruct H as [-> | [-> | ->]].
  - now rewrite String.eqb_refl.
  - rewrite <- append_assoc_text, startswith_append.
    rewrite orb_true_r. reflexivity.
  - rewrite <- append_assoc_text, startswith_append.
    apply orb_true_r.
Qed.

Lemma append_nil_inv (a b : string) : a ++ b = "" -> a = "" /\ b = "".
Proof. destruct a; simpl; [auto|discriminate]. Qed.

(** X19.  A query that, lowered and stripped, is one of the greeting
    words, or starts with one followed by a space or a comma, or holds one
    of the how-are-you phrases anywhere, is classified as a greeting,
    whatever else it asks. *)
Theorem greeting_wording_wins :
  forall (similar : string -> string -> bool) (query kw rest before : string),
    (In kw greeting_keywords
     /\ (Py.strip (Py.lower query) = kw
         \/ Py.strip (Py.lower query) = kw ++ " " ++ rest
         \/ Py.strip (Py.lower query) = kw ++ "," ++ rest))
    \/ (In kw how_are_you_keywords
        /\ Py.strip (Py.lower query) = before ++ kw ++ rest) ->
    _analyze_query_intent similar (Some query) = greeting.
Proof.
  intros similar query kw rest before H.
  assert (Hq : Py.truthy query = true).
  { destruct query as [|c q]; [|reflexivity]. exfalso.
    change (Py.strip (Py.lower "")) with "" in H.
    destruct H as [[Hkw H]|[Hkw H]].
    - apply greeting_keyword_not_empty in Hkw.
      destruct H as [H|[H|H]]; symmetry in H;
        [congruence|apply append_nil_inv in H; tauto ..].
    - apply how_are_you_keyword_not_empty in Hkw. symmetry in H.
      apply append_nil_inv in H. destruct H as [_ H].
      apply append_nil_inv in H. tauto. }
  unfold _analyze_query_intent. rewrite Hq.
  change (negb true) with false. cbv beta iota zeta.
  destruct H as [[Hkw H]|[Hkw H]].
  - now rewrite (starts_as_greeting _ kw rest Hkw H).
  - destruct (is_greeting _); [reflexivity|].
    assert (Hh : Py.any_in how_are_you_keywords
                   (Py.strip (Py.lower query)) = true).
    { unfold Py.any_in. apply existsb_exists. exists kw.
      split; [assumption|]. rewrite H.
      apply contains_append_r, contains_prefix. }
    now rewrite Hh.
Qed.

Lemma greeting_wording_wins_support :
  classify_intent
    (Some "What support is there for data science students?")
  = greeting.
Proof.
  apply (greeting_wording_wins Difflib.ratio_ge_075
           "What support is there for data science students?" "sup"
           "port is there for data science students?" "what ").
  right. split; [|vm_compute; reflexivity]. simpl. tauto.
Defined.

(** *** Case and margins *)

Lemma lower_char_idempotent c :
  Py.lower_char (Py.lower_char c) = Py.lower_char c.
Proof.
  destruct c as [[] [] [] [] [] [] [] []]; reflexivity.
Qed.

Lemma isspace_lower_char c : Py.isspace (Py.lower_char c) = Py.isspace c.
Proof.
  destruct c as [[] [] [] [] [] [] [] []]; reflexivity.
Qed.

Lemma lower_idempotent s : Py.lower (Py.lower s) = Py.lower s.
Proof.
  induction s as [|c s IH]; simpl; [reflexivity|].
  now rewrite lower_char_idempotent, IH.
Qed.

Lemma lstrip_lower s : Py.lstrip (Py.lower s) = Py.lower (Py.lstrip s).
Proof.
  induction s as [|c s IH]; simpl; [reflexivity|].
  rewrite isspace_lower_char. now destruct (Py.isspace c).
Qed.

Lemma rstrip_lower s : Py.rstrip (Py.lower s) = Py.lower (Py.rstrip s).
Proof.
  induction s as [|c s IH]; simpl; [reflexivity|].
  rewrite IH, isspace_lower_char.
  destruct (Py.rstrip s); simpl; [now destruct (Py.isspace c)|reflexivity].
Qed.

Lemma rstrip_idempotent s : Py.rstrip (Py.rstrip s) = Py.rstrip s.
Proof.
  induction s as [|c s IH]; simpl; [reflexivity|].
  destruct (Py.rstrip s) as [|d r] eqn:E.
  - destruct (Py.isspace c) eqn:Ec; simpl; [reflexivity|].
    now rewrite Ec.
  - change (Py.rstrip (String c (String d r)))
      with (match Py.rstrip (String d r) with
            | EmptyString =>
                if Py.isspace c then EmptyString else String c EmptyString
            | r' => String c r'
            end).
    now rewrite IH.
Qed.

Lemma lstrip_head s :
  Py.lstrip s = ""
  \/ exists c r, Py.lstrip s = String c r /\ Py.isspace c = false.
Proof.
  induction s as [|c s IH]; simpl; [now left|].
  destruct (Py.isspace c) eqn:E; [exact IH|]. right. now exists c, s.
Qed.

Lemma rstrip_head c r :
  Py.isspace c = false -> exists r', Py.rstrip (String c r) = String c r'.
Proof.
  intros E. simpl. destruct (Py.rstrip r); [|eauto]. rewrite E. eauto.
Qed.

Lemma strip_idempotent s : Py.strip (Py.strip s) = Py.strip s.
Proof.
  unfold Py.strip. destruct (lstrip_head s) as [->|[c [r [-> Hc]]]];
    [reflexivity|].
  destruct (rstrip_head c r Hc) as [r' E]. rewrite E.
  cbn [Py.lstrip]. rewrite Hc, <- E. apply rstrip_idempotent.
Qed.

Lemma strip_lower s : Py.strip (Py.lower s) = Py.lower (Py.strip s).
Proof. unfold Py.strip. now rewrite lstrip_lower, rstrip_lower. Qed.

Lemma normal_form_fixed s :
  Py.strip (Py.lower (Py.strip (Py.lower s))) = Py.strip (Py.lower s).
Proof.
  now rewrite <- strip_lower, lower_idempotent, strip_idempotent.
Qed.

(** X20.  The intent of a query depends only on its lowered and stripped
    text: upper case and surrounding white space never change the
    classification. *)
Theorem intent_ignores_case_and_margins :
  forall (similar : string -> string -> bool) (query : string),
    _analyze_query_intent similar (Some query)
    = _analyze_query_intent similar (Some (Py.strip (Py.lower query))).
Proof.
  intros similar query. unfold _analyze_query_intent.
  rewrite normal_form_fixed.
  destruct (Py.truthy (Py.strip (Py.lower query))) eqn:E.
  - assert (Hq : Py.truthy query = true)
      by (destruct query; [discriminate E|reflexivity]).
    now rewrite Hq.
  - assert (H0 : Py.strip (Py.lower query) = "")
      by (destruct (Py.strip (Py.lower query)); [reflexivity|discriminate]).
    rewrite H0. destruct (Py.truthy query); reflexivity.
Qed.

End ClassifierMore.
(** ** What the recommendation handler returns *)

Module RecommendMore.
Import Exn Frame Handlers Recommend Explained Examples HandlersFacts.
Local Open Scope string_scope.

(** *** The dict of explanations *)

Lemma explanation_of_assign_same key value d :
  explanation_of (assign key value d) key = Some value.
Proof.
  unfold explanation_of. induction d as [|[k v] d IH]; simpl.
  - now rewrite String.eqb_refl.
  - destruct (String.eqb k key) eqn:E; simpl; rewrite E; [reflexivity|].
    exact IH.
Qed.

Lemma explanation_of_assign_other key value d key' :
  key' <> key ->
  explanation_of (assign key value d) key' = explanation_of d key'.
Proof.
  intros Hne. unfold explanation_of. induction d as [|[k v] d IH]; simpl.
  - apply String.eqb_neq in Hne. rewrite String.eqb_sym in Hne.
    now rewrite Hne.
  - destruct (String.eqb k key) eqn:E; simpl.
    + apply String.eqb_eq in E. subst k.
      apply String.eqb_neq in Hne. rewrite String.eqb_sym in Hne.
      now rewrite Hne.
    + destruct (String.eqb k key'); [reflexivity|exact IH].
Qed.

Lemma keys_of_assign key value d k :
  In k (map fst (assign key value d)) -> k = key \/ In k (map fst d).
Proof.
  induction d as [|[k' v] d IH]; simpl.
  - intros [<-|[]]. now left.
  - destruct (String.eqb k' key); simpl; intros [<-|H]; auto.
    destruct (IH H); auto.
Qed.

(** *** The explanations of the recommended courses *)

Lemma explanation_parts_not_empty self courses major career_goal
    experience_level program course parts :
  explanation_parts self courses major career_goal experience_level program
    course = Ok parts ->
  parts <> [].
Proof.
  unfold explanation_parts. cbv zeta.
  destruct (_get_audit_combination_suggestion course courses) as [s|e];
    [|discriminate].
  cbn [bind]. intros H. injection H as <-. unfold extend at 1.
  intros E. apply app_eq_nil in E. destruct E as [_ E]. discriminate.
Qed.

Section ExplanationsLoop.

Variable self : Advisor.
Variable courses : DataFrame.
Variables major career_goal experience_level program : string.

Lemma explanations_fold (todo : list CourseRecord) :
  forall (done : list CourseRecord) (acc explanations : Explanations),
    explained acc done ->
    fold_left
      (fun acc course =>
         explanations <- acc ;;
         course_id <- item courses "course_id" (course_id course) ;;
         parts <- explanation_parts self courses major career_goal
                    experience_level program course ;;
         Ok (assign course_id parts explanations))
      todo (Ok acc) = Ok explanations ->
    explained explanations (done ++ todo).
Proof.
  induction todo as [|c todo IH]; intros done acc explanations Hacc H;
    cbn [fold_left] in H.
  - injection H as <-. now rewrite app_nil_r.
  - cbn [bind] in H.
    assert (Hraised :
      forall e (l : list CourseRecord),
        fold_left
          (fun acc course =>
             explanations <- acc ;;
             course_id <- item courses "course_id" (course_id course) ;;
             parts <- explanation_parts self courses major career_goal
                        experience_level program course ;;
             Ok (assign course_id parts explanations))
          l (Raise e) <> Ok explanations).
    { intros e l. induction l as [|x l IHl]; cbn [fold_left bind];
        [discriminate|exact IHl]. }
    destruct (item courses "course_id" (course_id c)) as [id|e] eqn:Eid;
      [|exfalso; cbn [bind] in H; exact (Hraised _ _ H)].
    assert (id = course_id c) as ->.
    { unfold item in Eid. destruct (has_column "course_id" courses);
        [now injection Eid|discriminate]. }
    cbn [bind] in H.
    destruct (explanation_parts self courses major career_goal
                experience_level program c) as [parts|e] eqn:Ep.
    + cbn [bind] in H.
      replace (done ++ c :: todo)%list with ((done ++ [c]) ++ todo)%list
        by now rewrite <- app_assoc.
      refine (IH _ _ _ _ H). split.
      * intros x Hx. apply in_app_or in Hx. destruct Hx as [Hx|[<-|[]]].
        -- destruct (string_dec (course_id x) (course_id c)) as [E|Hne].
           ++ rewrite E, explanation_of_assign_same. exists parts.
              split; [reflexivity|].
              eapply explanation_parts_not_empty, Ep.
           ++ rewrite (explanation_of_assign_other _ _ _ _ Hne).
              now apply (proj1 Hacc).
        -- rewrite explanation_of_assign_same. exists parts.
           split; [reflexivity|].
           eapply explanation_parts_not_empty, Ep.
      * intros key Hk. apply keys_of_assign in Hk. rewrite map_app.
        apply in_or_app. destruct Hk as [->|Hk]; [right; now left|].
        left. now apply (proj2 Hacc).
    + exfalso. cbn [bind] in H. exact (Hraised _ _ H).
Qed.

End ExplanationsLoop.

Lemma detailed_explanations_cover self courses major career_goal
    experience_level program query explanations :
  _generate_detailed_explanations self courses major career_goal
    experience_level program query = Ok explanations ->
  explained explanations (rows courses).
Proof.
  unfold _generate_detailed_explanations. intros H.
  apply (explanations_fold self courses major career_goal experience_level
           program (rows courses) [] [] explanations); [|exact H].
  split; [intros c []|intros key []].
Qed.

(** X21.  [_handle_course_recommendation] returns no course or at least
    three, never more than [limit]; every returned course has an
    explanation with at least one part, and the explanations are keyed by
    returned courses only. *)
Theorem recommended_courses_are_explained :
  forall (regex_ok : string -> bool) (regex_search : string -> string -> bool)
         (sort_values : list CourseRecord -> list CourseRecord)
         (picks : Picks) (self : Advisor) (query : option string)
         (major career_goal experience_level program : string) (limit : nat),
    let result :=
      _handle_course_recommendation regex_ok regex_search sort_values picks
        self query major career_goal experience_level program limit in
    let courses := rows (result_courses result) in
    let explanations := snd (fst result) in
    (courses = [] \/ 3 <= List.length courses)
    /\ List.length courses <= limit
    /\ (forall c,
           In c courses ->
           exists parts,
             explanation_of explanations (course_id c) = Some parts
             /\ parts <> [])
    /\ (forall key,
           In key (map fst explanations) -> In key (map course_id courses)).
Proof.
  intros until limit. cbv zeta. unfold _handle_course_recommendation.
  assert (Hfallback :
    let result := _handle_unknown_query picks query major career_goal in
    (rows (result_courses result) = []
     \/ 3 <= List.length (rows (result_courses result)))
    /\ List.length (rows (result_courses result)) <= limit
    /\ (forall c,
           In c (rows (result_courses result)) ->
           exists parts,
             explanation_of (snd (fst result)) (course_id c) = Some parts
             /\ parts <> [])
    /\ (forall key,
           In key (map fst (snd (fst result))) ->
           In key (map course_id (rows (result_courses result))))).
  { cbv zeta. unfold _handle_unknown_query, result_courses. cbv zeta.
    cbn [fst snd rows empty_frame map List.length].
    repeat split; try (intros ? []); try lia. now left. }
  destruct (recommend regex_ok regex_search sort_values self query major
              career_goal experience_level program limit)
    as [[found|]|e] eqn:E; try exact Hfallback.
  clear Hfallback. unfold recommend in E.
  destruct (column self "category") as [df|e]; [|discriminate].
  cbn [bind] in E.
  destruct (compiled regex_ok major) as [u|e]; [|discriminate].
  cbn [bind] in E. cbv zeta in E.
  destruct (empty (if empty (select _ df) then df else select _ df));
    [discriminate|].
  destruct (Scorer._score_courses _ _ _ _ _ _ _) as [scored|e];
    [|discriminate].
  cbn [bind] in E.
  destruct (empty (head limit _) || _)%bool eqn:Hfew; [discriminate|].
  destruct (_generate_detailed_explanations _ _ _ _ _ _ _) as [ex|e] eqn:Ex;
    [|discriminate].
  cbn [bind] in E.
  destruct (_generate_conversational_response _ _ _ _ _ _) as [text|e];
    [|discriminate].
  cbn [bind] in E. injection E as <-. unfold result_courses.
  cbn [fst snd]. apply orb_false_iff in Hfew. destruct Hfew as [_ Hlen].
  apply Nat.ltb_ge in Hlen.
  apply detailed_explanations_cover in Ex. destruct Ex as [Ex1 Ex2].
  split; [now right|]. split; [|split; assumption].
  cbn [head rows]. apply firstn_le_length.
Qed.

(** *** A table without course types *)






End RecommendMore.
